(** * Course-content backend: folders, materials, sessions

    A shallow embedding of the route handlers and Mongoose models of the
    biology teaching platform (routes/folders, routes/materials,
    routes/zoom, models/Folder, models/Material, models/ZoomSession and
    the material upload of the SQLite server), with the properties of the
    folder hierarchy, the access checks, the share list, the counters and
    the session status and the attendance rate that the handlers
    establish.

    Conventions of the embedding:
    - a MongoDB collection is a finite map from [_id] to document
      ([gmap nat _]); an ObjectId is abstracted to a natural number;
    - a handler is a function from the authenticated user ([req.user]),
      the request and the store to a reply and the new store; the [auth]
      and [isTeacher] middlewares have already let the request through;
    - [try { ... } catch] around a handler body turns every exception of
      the body into the reply 500 and leaves the store as it was at the
      last completed write. *)

From Stdlib Require Import Ascii.
From Stdlib Require SpecFloat.
From stdpp Require Import gmap strings list fin_maps sorting.

(** ** Enumerations of the schemas *)

Inductive Role := student | teacher | admin.
Inductive Grade := G9 | G10 | G11 | G12.
Inductive Program := EST | ACT | Both.
Inductive Course :=
  | Biochemistry | CellBiology | AnimalBehavior | Evolution
  | Photosynthesis | CellDivision | CellRespiration | GeneralBiology.
Inductive MaterialType :=
  | pdf | doc | docx | ppt | pptx | video | image | link | quiz | assignment.
Inductive Permission := read | write | admin_permission.
Inductive Priority := low | medium | high.
Inductive Status := scheduled | started | ended | cancelled.

#[global] Instance Role_eq_dec : EqDecision Role.
Proof. solve_decision. Defined.
#[global] Instance Grade_eq_dec : EqDecision Grade.
Proof. solve_decision. Defined.
#[global] Instance Program_eq_dec : EqDecision Program.
Proof. solve_decision. Defined.
#[global] Instance Course_eq_dec : EqDecision Course.
Proof. solve_decision. Defined.
#[global] Instance MaterialType_eq_dec : EqDecision MaterialType.
Proof. solve_decision. Defined.
#[global] Instance Permission_eq_dec : EqDecision Permission.
Proof. solve_decision. Defined.
#[global] Instance Priority_eq_dec : EqDecision Priority.
Proof. solve_decision. Defined.
#[global] Instance Status_eq_dec : EqDecision Status.
Proof. solve_decision. Defined.

(** The [isIn([...])] validators and the schema [enum]s: a request
    carries strings, a document carries a member of the enumeration. *)

Definition parse_grade (s : string) : option Grade :=
  if decide (s = "9") then Some G9
  else if decide (s = "10") then Some G10
  else if decide (s = "11") then Some G11
  else if decide (s = "12") then Some G12
  else None.

Definition parse_program (s : string) : option Program :=
  if decide (s = "EST") then Some EST
  else if decide (s = "ACT") then Some ACT
  else if decide (s = "Both") then Some Both
  else None.

Definition parse_course (s : string) : option Course :=
  if decide (s = "Biochemistry") then Some Biochemistry
  else if decide (s = "Cell Biology") then Some CellBiology
  else if decide (s = "Animal Behavior") then Some AnimalBehavior
  else if decide (s = "Evolution") then Some Evolution
  else if decide (s = "Photosynthesis") then Some Photosynthesis
  else if decide (s = "Cell Division") then Some CellDivision
  else if decide (s = "Cell Respiration") then Some CellRespiration
  else if decide (s = "General Biology") then Some GeneralBiology
  else None.

Definition parse_type (s : string) : option MaterialType :=
  if decide (s = "pdf") then Some pdf
  else if decide (s = "doc") then Some doc
  else if decide (s = "docx") then Some docx
  else if decide (s = "ppt") then Some ppt
  else if decide (s = "pptx") then Some pptx
  else if decide (s = "video") then Some video
  else if decide (s = "image") then Some image
  else if decide (s = "link") then Some link
  else if decide (s = "quiz") then Some quiz
  else if decide (s = "assignment") then Some assignment
  else None.

Definition parse_priority (s : string) : option Priority :=
  if decide (s = "low") then Some low
  else if decide (s = "medium") then Some medium
  else if decide (s = "high") then Some high
  else None.

Definition parse_status (s : string) : option Status :=
  if decide (s = "scheduled") then Some scheduled
  else if decide (s = "started") then Some started
  else if decide (s = "ended") then Some ended
  else if decide (s = "cancelled") then Some cancelled
  else None.

(** ** JavaScript values used by the handlers *)

(** [String.prototype.trim] and the [trim()] sanitizer.  A string is a
    sequence of bytes, and the text of a request is taken to be ASCII:
    the six ASCII white-space characters are stripped, and the white
    space that JavaScript knows beyond ASCII (U+00A0, U+2028, U+FEFF and
    the like), which it strips too, does not occur. *)
Fixpoint ltrim (s : string) : string :=
  match s with
  | String c s' => if Ascii.is_space c then ltrim s' else s
  | EmptyString => EmptyString
  end.

Fixpoint rtrim (s : string) : string :=
  match s with
  | String c s' =>
      match rtrim s' with
      | EmptyString => if Ascii.is_space c then EmptyString else String c EmptyString
      | r => String c r
      end
  | EmptyString => EmptyString
  end.

Definition trim (s : string) : string := rtrim (ltrim s).

(** Truthiness of an optional string field: [undefined] and [""] are
    falsy. *)
Definition truthy (o : option string) : option string :=
  match o with
  | Some s => if decide (s = "") then None else Some s
  | None => None
  end.

(** What a handler sends: [res.status(c).json(body)] with a payload,
    [res.status(c).json({ message })], or the validator's error array
    (always status 400). *)
Inductive Reply (A : Type) : Type :=
  | Sent (code : nat) (body : A)
  | Message (code : nat) (message : string)
  | Invalid (errors : list string).
Arguments Sent {A} code body.
Arguments Message {A} code message.
Arguments Invalid {A} errors.

Definition server_error {A} : Reply A := Message 500 "Server error".

(** ** Documents *)

Record Share := { user : nat; permission : Permission }.

Module User.
Record StudentInfo := { grade : Grade; program : Program }.
Record t := { _id : nat; role : Role; studentInfo : StudentInfo }.
End User.

Module Folder.
Record t := {
  name : string;
  description : option string;
  parentFolder : option nat;
  owner : nat;
  course : Course;
  grade : Grade;
  program : Program;
  color : string;
  icon : string;
  isPublic : bool;
  sharedWith : list Share;
  tags : list string;
  path : string
}.

Definition set_path (p : string) (f : t) : t :=
  {| name := name f; description := description f;
     parentFolder := parentFolder f; owner := owner f; course := course f;
     grade := grade f; program := program f; color := color f;
     icon := icon f; isPublic := isPublic f; sharedWith := sharedWith f;
     tags := tags f; path := p |}.

(** [folderSchema.pre('save')]: the path is rebuilt from the parent's
    stored path and this folder's name; a parent id that resolves to no
    document makes [parent.path] throw. *)
Definition preSave (folders : gmap nat t) (this : t) : option t :=
  match parentFolder this with
  | Some p =>
      match folders !! p with
      | Some parent => Some (set_path (path parent +:+ "/" +:+ name this) this)
      | None => None
      end
  | None => Some (set_path (name this) this)
  end.

(** The [required] validators of the schema on the two strings: [name]
    and [path] must be there and not empty (an unset path is [""]). *)
Definition validate (this : t) : bool :=
  bool_decide (name this ≠ "") && bool_decide (path this ≠ "").

(** [doc.save()].  Mongoose validates first, its validation being the
    first of the [pre('save')] hooks; then it runs the hook of the
    schema, then it writes the document under its id.  The saved
    document is what the handler goes on to send; [None] is a rejected
    [save()]. *)
Definition save (folders : gmap nat t) (id : nat) (this : t)
  : option (t * gmap nat t) :=
  if validate this then
    this' ← preSave folders this; Some (this', <[id := this']> folders)
  else None.
End Folder.

Module Material.
(** A document of the collection.  [sharedWith] is the array of
    [{ user, permission }] that the collection holds for the document,
    which the query of the listing matches with ['sharedWith.user'].
    The material schema declares no such path (the folder schema does),
    so no handler reads or writes the array through a loaded document:
    see [loaded_sharedWith]. *)
Record t := {
  title : string;
  description : option string;
  type : MaterialType;
  fileName : option string;
  filePath : option string;
  fileSize : option nat;
  url : option string;
  folder : option nat;
  owner : nat;
  course : Course;
  grade : Grade;
  program : Program;
  tags : list string;
  isPublic : bool;
  sharedWith : list Share;
  downloadCount : nat;
  viewCount : nat;
  dueDate : option nat;
  priority : Priority
}.

Definition set_sharedWith (l : list Share) (m : t) : t :=
  {| title := title m; description := description m; type := type m;
     fileName := fileName m; filePath := filePath m; fileSize := fileSize m;
     url := url m; folder := folder m; owner := owner m; course := course m;
     grade := grade m; program := program m; tags := tags m;
     isPublic := isPublic m; sharedWith := l;
     downloadCount := downloadCount m; viewCount := viewCount m;
     dueDate := dueDate m; priority := priority m |}.

Definition set_viewCount (n : nat) (m : t) : t :=
  {| title := title m; description := description m; type := type m;
     fileName := fileName m; filePath := filePath m; fileSize := fileSize m;
     url := url m; folder := folder m; owner := owner m; course := course m;
     grade := grade m; program := program m; tags := tags m;
     isPublic := isPublic m; sharedWith := sharedWith m;
     downloadCount := downloadCount m; viewCount := n;
     dueDate := dueDate m; priority := priority m |}.

Definition set_downloadCount (n : nat) (m : t) : t :=
  {| title := title m; description := description m; type := type m;
     fileName := fileName m; filePath := filePath m; fileSize := fileSize m;
     url := url m; folder := folder m; owner := owner m; course := course m;
     grade := grade m; program := program m; tags := tags m;
     isPublic := isPublic m; sharedWith := sharedWith m;
     downloadCount := n; viewCount := viewCount m;
     dueDate := dueDate m; priority := priority m |}.

(** [material.sharedWith] on a document that a handler has loaded: the
    schema declares no path of that name, so the property is [undefined]
    ([None]) whatever the collection holds, and calling a method on it
    throws. *)
Definition loaded_sharedWith (m : t) : option (list Share) := None.

(** The [required] validators of the schema, run by [save()]: a title, a
    folder, a file name and path unless the type is link, a URL when it
    is. *)
Definition validate (m : t) : bool :=
  bool_decide (title m ≠ "")
  && bool_decide (is_Some (folder m))
  && (if decide (type m = link) then bool_decide (is_Some (truthy (url m)))
      else bool_decide (is_Some (truthy (fileName m)))
           && bool_decide (is_Some (truthy (filePath m)))).
End Material.

Module ZoomSession.
Record Attendee := { student : nat; joinedAt : nat }.
Record t := {
  title : string;
  description : option string;
  course : Course;
  grade : Grade;
  program : Program;
  teacher : nat;
  zoomMeetingId : string;
  scheduledTime : nat;
  duration : Z;
  status : Status;
  attendees : list Attendee;
  materials : list nat
}.
End ZoomSession.

(** ** The store: three collections and the upload directory *)

Record Store := {
  folders : gmap nat Folder.t;
  materials : gmap nat Material.t;
  sessions : gmap nat ZoomSession.t;
  disk : gset string
}.

Definition set_folders (fs : gmap nat Folder.t) (st : Store) : Store :=
  {| folders := fs; materials := materials st; sessions := sessions st;
     disk := disk st |}.
Definition set_materials (ms : gmap nat Material.t) (st : Store) : Store :=
  {| folders := folders st; materials := ms; sessions := sessions st;
     disk := disk st |}.
Definition set_sessions (ss : gmap nat ZoomSession.t) (st : Store) : Store :=
  {| folders := folders st; materials := materials st; sessions := ss;
     disk := disk st |}.
Definition set_disk (d : gset string) (st : Store) : Store :=
  {| folders := folders st; materials := materials st; sessions := sessions st;
     disk := d |}.

(** [Model.find(filter)]: the documents of a collection that satisfy a
    decidable filter, with their ids. *)
Definition find {A} (P : nat → A → bool) (c : gmap nat A) : list (nat * A) :=
  map_to_list (filter (λ kv, P kv.1 kv.2 = true) c).

(** [Model.findOne(filter)]. *)
Definition findOne {A} (P : nat → A → bool) (c : gmap nat A) : option (nat * A) :=
  head (find P c).

(** ** Folder routes (routes/folders) *)

Module FolderBody.
Record t := {
  name : option string;
  description : option string;
  parentFolder : option nat;
  course : option string;
  grade : option string;
  program : option string;
  color : option string;
  icon : option string;
  isPublic : option bool;
  tags : option (list string)
}.
End FolderBody.

Definition check {A} (o : option A) (msg : string) : list string :=
  match o with Some _ => [] | None => [msg] end.

Definition nonempty (s : string) : option string :=
  if decide (s = "") then None else Some s.

(** The validator chain of [POST /api/folders]; [name] is read back
    trimmed by the handler. *)
Definition folder_create_errors (b : FolderBody.t) : list string :=
  check (nonempty (trim (default "" (FolderBody.name b)))) "Folder name is required"
  ++ check (FolderBody.course b ≫= parse_course) "Invalid course"
  ++ check (FolderBody.grade b ≫= parse_grade) "Invalid grade"
  ++ check (FolderBody.program b ≫= parse_program) "Invalid program".

(** [POST /api/folders].  [newId] is the ObjectId that [new Folder(...)]
    generates.  The handler leaves [path] to the hook, so the document
    comes to [save()] without one. *)
Definition createFolder (newId : nat) (u : User.t) (b : FolderBody.t)
    (st : Store) : Reply (nat * Folder.t) * Store :=
  match nonempty (trim (default "" (FolderBody.name b))),
        FolderBody.course b ≫= parse_course,
        FolderBody.grade b ≫= parse_grade,
        FolderBody.program b ≫= parse_program with
  | Some name, Some course, Some grade, Some program =>
      let existingFolder :=
        findOne (λ _ f, bool_decide (Folder.name f = name
                                     ∧ Folder.parentFolder f = FolderBody.parentFolder b
                                     ∧ Folder.owner f = User._id u))
                (folders st) in
      match existingFolder with
      | Some _ =>
          (Message 400 "Folder with this name already exists in this location", st)
      | None =>
          let folder :=
            {| Folder.name := trim name;
               Folder.description := trim <$> FolderBody.description b;
               Folder.parentFolder := FolderBody.parentFolder b;
               Folder.owner := User._id u;
               Folder.course := course;
               Folder.grade := grade;
               Folder.program := program;
               Folder.color := default "#2c5aa0" (FolderBody.color b);
               Folder.icon := default "folder" (FolderBody.icon b);
               Folder.isPublic := default false (FolderBody.isPublic b);
               Folder.sharedWith := [];
               Folder.tags := trim <$> default [] (FolderBody.tags b);
               Folder.path := "" |} in
          match Folder.save (folders st) newId folder with
          | Some (saved, fs') => (Sent 201 (newId, saved), set_folders fs' st)
          | None => (server_error, st)
          end
      end
  | _, _, _, _ => (Invalid (folder_create_errors b), st)
  end.

Module FolderPatch.
Record t := {
  name : option string;
  description : option string;
  color : option string;
  icon : option string;
  isPublic : option bool;
  tags : option (list string)
}.
End FolderPatch.

(** The fields of the patch applied in the order of the handler. *)
Definition apply_folder_patch (name : option string) (b : FolderPatch.t)
    (f : Folder.t) : Folder.t :=
  {| Folder.name := default (Folder.name f) (trim <$> name);
     Folder.description :=
       match FolderPatch.description b with
       | Some d => Some (trim d)
       | None => Folder.description f
       end;
     Folder.parentFolder := Folder.parentFolder f;
     Folder.owner := Folder.owner f;
     Folder.course := Folder.course f;
     Folder.grade := Folder.grade f;
     Folder.program := Folder.program f;
     Folder.color := default (Folder.color f) (truthy (FolderPatch.color b));
     Folder.icon := default (Folder.icon f) (truthy (FolderPatch.icon b));
     Folder.isPublic := default (Folder.isPublic f) (FolderPatch.isPublic b);
     Folder.sharedWith := Folder.sharedWith f;
     Folder.tags :=
       match FolderPatch.tags b with
       | Some l => trim <$> l
       | None => Folder.tags f
       end;
     Folder.path := Folder.path f |}.

(** [PUT /api/folders/:id]. *)
Definition updateFolder (u : User.t) (id : nat) (b : FolderPatch.t)
    (st : Store) : Reply (nat * Folder.t) * Store :=
  (* body('name').optional().trim().isLength({ min: 1 }) *)
  let name := trim <$> FolderPatch.name b in
  if decide (name = Some "") then (Invalid ["Folder name cannot be empty"], st)
  else
    match folders st !! id with
    | Some folder =>
        if decide (Folder.owner folder = User._id u) then
          let renamed :=
            match name with
            | Some n => if decide (n = Folder.name folder) then None else Some n
            | None => None
            end in
          let existingFolder :=
            match renamed with
            | Some n =>
                findOne (λ i f, bool_decide (Folder.name f = n
                                   ∧ Folder.parentFolder f = Folder.parentFolder folder
                                   ∧ Folder.owner f = User._id u
                                   ∧ i ≠ id))
                        (folders st)
            | None => None
            end in
          match existingFolder with
          | Some _ =>
              (Message 400 "Folder with this name already exists in this location", st)
          | None =>
              match Folder.save (folders st) id (apply_folder_patch renamed b folder) with
              | Some (saved, fs') => (Sent 200 (id, saved), set_folders fs' st)
              | None => (server_error, st)
              end
          end
        else (Message 404 "Folder not found", st)
    | None => (Message 404 "Folder not found", st)
    end.

(** *** Recursive deletion *)

(** What the deletion does to the outside world, in order. *)
Inductive Event :=
  | Unlinked (p : string)
  | UnlinkFailed (p : string)
  | MaterialsDeleted (folderId : nat)
  | FolderDeleted (folderId : nat).

(** The folders whose record a trace deletes, in order. *)
Definition deleted_folders (tr : list Event) : list nat :=
  omap (λ e, match e with FolderDeleted f => Some f | _ => None end) tr.

(** [for (const x of l) { await body(x) }] over a snapshot [l]. *)
Fixpoint forEach {A} (body : A → Store → option (Store * list Event))
    (l : list A) (st : Store) : option (Store * list Event) :=
  match l with
  | [] => Some (st, [])
  | x :: l' =>
      '(st1, tr1) ← body x st;
      '(st2, tr2) ← forEach body l' st1;
      Some (st2, tr1 ++ tr2)
  end.

Section BlobStore.
(** [fs.unlink] rejects when the file is not there, and may reject for
    any other reason the operating system has: [unlinkFails] says for
    which paths it does. *)
Variable unlinkFails : string → bool.

Definition unlink (p : string) (d : gset string) : option (gset string) :=
  if decide (p ∈ d) then
    if unlinkFails p then None else Some (d ∖ {[p]})
  else None.

(** The loop over the materials of one folder: every rejection is
    caught and logged, and the loop goes on. *)
Fixpoint unlinkAll (ms : list (nat * Material.t)) (d : gset string)
  : gset string * list Event :=
  match ms with
  | [] => (d, [])
  | (_, material) :: ms' =>
      match truthy (Material.filePath material) with
      | Some p =>
          match unlink p d with
          | Some d' =>
              let '(d'', tr) := unlinkAll ms' d' in (d'', Unlinked p :: tr)
          | None =>
              let '(d'', tr) := unlinkAll ms' d in (d'', UnlinkFailed p :: tr)
          end
      | None => unlinkAll ms' d
      end
  end.

(** [async function deleteFolder(folderId)].  The recursion follows the
    parent pointers of the collection, so it is bounded by [fuel];
    [None] stands for a call that has not returned within the bound. *)
Fixpoint deleteFolder (fuel : nat) (folderId : nat) (st : Store)
  : option (Store * list Event) :=
  match fuel with
  | 0 => None
  | S fuel' =>
      let subfolders :=
        find (λ _ f, bool_decide (Folder.parentFolder f = Some folderId))
             (folders st) in
      '(st1, tr1) ← forEach (deleteFolder fuel') subfolders.*1 st;
      let mats :=
        find (λ _ m, bool_decide (Material.folder m = Some folderId))
             (materials st1) in
      let '(d, tr2) := unlinkAll mats (disk st1) in
      let st2 :=
        set_materials
          (filter (λ kv, Material.folder kv.2 ≠ Some folderId) (materials st1))
          (set_disk d st1) in
      let st3 := set_folders (delete folderId (folders st2)) st2 in
      Some (st3, tr1 ++ tr2 ++ [MaterialsDeleted folderId; FolderDeleted folderId])
  end.

(** [DELETE /api/folders/:id]. *)
Definition deleteFolderRoute (fuel : nat) (u : User.t) (id : nat) (st : Store)
  : option (Reply unit * Store * list Event) :=
  match folders st !! id with
  | Some folder =>
      if decide (Folder.owner folder = User._id u) then
        '(st', tr) ← deleteFolder fuel id st;
        Some (Message 200 "Folder deleted successfully", st', tr)
      else Some (Message 404 "Folder not found", st, [])
  | None => Some (Message 404 "Folder not found", st, [])
  end.
End BlobStore.


(** [GET /api/folders/:id/materials]: the owner, anyone when the folder
    is public, and the users of its share list may read; the reply holds
    the materials of the folder (sorted by creation time on the way
    out). *)
Definition getFolderMaterials (u : User.t) (id : nat) (st : Store)
    : Reply (list (nat * Material.t)) :=
  match folders st !! id with
  | None => Message 404 "Folder not found"
  | Some folder =>
      if bool_decide (Folder.owner folder ≠ User._id u)
         && negb (Folder.isPublic folder)
         && negb (existsb (λ share, bool_decide (user share = User._id u))
                          (Folder.sharedWith folder))
      then Message 403 "Access denied"
      else Sent 200 (find (λ _ m, bool_decide (Material.folder m = Some id))
                          (materials st))
  end.

(** ** Material routes (routes/materials) *)

(** [{ isPublic: true }] or [{ 'sharedWith.user': req.user._id }]: the
    [$or] of the student's listing, which MongoDB matches against the
    stored document. *)
Definition shown (u : User.t) (material : Material.t) : bool :=
  Material.isPublic material
  || existsb (λ share, bool_decide (user share = User._id u))
             (Material.sharedWith material).

(** [material.isPublic || material.sharedWith.some(share => share.user
    == req.user._id)] of [GET /:id] and [GET /:id/download], on the
    loaded document: [||] answers at a public material without
    evaluating its right operand; at any other material the right
    operand calls [some] on [undefined] and throws ([None]). *)
Definition hasAccess (u : User.t) (material : Material.t) : option bool :=
  if Material.isPublic material then Some true
  else
    sharedWith ← Material.loaded_sharedWith material;
    Some (existsb (λ share, bool_decide (user share = User._id u)) sharedWith).

(** How the access check of the two routes ends: the handler goes on,
    it sends 403, or the check throws into the handler's [catch].  A
    student needs [hasAccess], anyone else must be the owner. *)
Inductive Access := Granted | Denied | Thrown.

#[global] Instance Access_eq_dec : EqDecision Access.
Proof. solve_decision. Defined.

Definition accessCheck (u : User.t) (material : Material.t) : Access :=
  if decide (User.role u = student) then
    match hasAccess u material with
    | Some true => Granted
    | Some false => Denied
    | None => Thrown
    end
  else if decide (Material.owner material = User._id u) then Granted
  else Denied.

(** [true] when the check sends 403. *)
Definition accessDenied (u : User.t) (material : Material.t) : bool :=
  bool_decide (accessCheck u material = Denied).

(** The grade and program clause of the student query. *)
Definition eligible (u : User.t) (material : Material.t) : bool :=
  bool_decide (Material.grade material = User.grade (User.studentInfo u))
  || bool_decide (Material.program material = User.program (User.studentInfo u))
  || bool_decide (Material.program material = Both).

Module MaterialFilter.
Record t := {
  course : option string;
  grade : option string;
  program : option string;
  type : option string;
  folder : option nat;
  search : option string
}.
End MaterialFilter.

(** [if (x) query.field = x]: an absent or empty parameter adds no
    condition; a present one must equal the stored value. *)
Definition field_is {A} `{EqDecision A} (parse : string → option A)
    (o : option string) (stored : A) : bool :=
  match truthy o with
  | Some s => bool_decide (parse s = Some stored)
  | None => true
  end.

Section TextIndex.
(** The [$text] operator over the text index of the collection. *)
Variable textSearch : string → Material.t → bool.

(** The conditions that the request parameters add to the query. *)
Definition requestFilters (q : MaterialFilter.t) (material : Material.t) : bool :=
  field_is parse_course (MaterialFilter.course q) (Material.course material)
  && field_is parse_grade (MaterialFilter.grade q) (Material.grade material)
  && field_is parse_program (MaterialFilter.program q) (Material.program material)
  && field_is parse_type (MaterialFilter.type q) (Material.type material)
  && match MaterialFilter.folder q with
     | Some f => bool_decide (Material.folder material = Some f)
     | None => true
     end
  && match truthy (MaterialFilter.search q) with
     | Some s => textSearch s material
     | None => true
     end.

(** The query object built by [GET /api/materials]; its top-level keys
    ([$or], [$and] or [owner], and the request's fields) are conjoined. *)
Definition listQuery (u : User.t) (q : MaterialFilter.t) (material : Material.t)
    : bool :=
  (if decide (User.role u = student) then
     shown u material && eligible u material
   else bool_decide (Material.owner material = User._id u))
  && requestFilters q material.

(** [GET /api/materials]: the documents matching the query and their
    number; [sort], [skip] and [limit] then cut one page out of them. *)
Definition listMaterials (u : User.t) (q : MaterialFilter.t) (st : Store)
    : list (nat * Material.t) * nat :=
  let matching := find (λ _ m, listQuery u q m) (materials st) in
  (matching, length matching).
End TextIndex.

(** [GET /api/materials/:id], in the two parts that an [await] separates:
    what happens up to the access check on the loaded document, and the
    increment with [save()], which writes the one modified path. *)
Definition getMaterial_load (u : User.t) (id : nat) (st : Store)
    : Reply Material.t + Material.t :=
  match materials st !! id with
  | None => inl (Message 404 "Material not found")
  | Some material =>
      match accessCheck u material with
      | Denied => inl (Message 403 "Access denied")
      | Thrown => inl server_error
      | Granted => inr material
      end
  end.

Definition getMaterial_save (id : nat) (material : Material.t) (st : Store)
    : Reply Material.t * Store :=
  let viewCount := Material.viewCount material + 1 in
  (Sent 200 (Material.set_viewCount viewCount material),
   set_materials (alter (Material.set_viewCount viewCount) id (materials st)) st).

Definition getMaterial (u : User.t) (id : nat) (st : Store)
    : Reply Material.t * Store :=
  match getMaterial_load u id st with
  | inl reply => (reply, st)
  | inr material => getMaterial_save id material st
  end.

(** [GET /api/materials/:id/download], split in the same way; the body
    sent on success is the file path handed to [res.download]. *)
Definition download_load (u : User.t) (id : nat) (st : Store)
    : Reply string + Material.t :=
  match materials st !! id with
  | None => inl (Message 404 "Material not found")
  | Some material =>
      match accessCheck u material with
      | Denied => inl (Message 403 "Access denied")
      | Thrown => inl server_error
      | Granted =>
          match truthy (Material.filePath material) with
          | None => inl (Message 400 "No file available for download")
          | Some p =>
              if decide (p ∈ disk st) then inr material
              else inl (Message 404 "File not found on server")
          end
      end
  end.

Definition download_save (id : nat) (material : Material.t) (st : Store)
    : Reply string * Store :=
  let downloadCount := Material.downloadCount material + 1 in
  (Sent 200 (default "" (Material.filePath material)),
   set_materials
     (alter (Material.set_downloadCount downloadCount) id (materials st)) st).

Definition downloadMaterial (u : User.t) (id : nat) (st : Store)
    : Reply string * Store :=
  match download_load u id st with
  | inl reply => (reply, st)
  | inr material => download_save id material st
  end.

(** *** Creation *)

(** [req.file], as multer leaves it. *)
Module Upload.
Record t := { originalname : string; path : string; size : nat }.
End Upload.

(** [upload.single('file')], which the two upload routes run before
    their validators and their handler: a file that the request carries
    and the filter accepts is written to the upload directory under the
    path that [req.file] then shows, whatever the handler goes on to
    answer.  (A file that the filter refuses ends the request before the
    handler, which is not a request of this model.) *)
Definition received (file : option Upload.t) (st : Store) : Store :=
  match file with
  | Some f => set_disk ({[ Upload.path f ]} ∪ disk st) st
  | None => st
  end.

Module MaterialBody.
Record t := {
  title : option string;
  description : option string;
  type : option string;
  url : option string;
  folder : option nat;
  course : option string;
  grade : option string;
  program : option string;
  tags : option string;
  dueDate : option nat;
  priority : option string;
  isPublic : option string
}.
End MaterialBody.

(** [s.split(',')]. *)
Fixpoint split_commas_go (cur : string) (s : string) : list string :=
  match s with
  | EmptyString => [String.rev cur]
  | String c s' =>
      if decide (c = ","%char) then String.rev cur :: split_commas_go "" s'
      else split_commas_go (String c cur) s'
  end.
Definition split_commas (s : string) : list string := split_commas_go "" s.

Definition material_create_errors (b : MaterialBody.t) : list string :=
  check (nonempty (trim (default "" (MaterialBody.title b)))) "Material title is required"
  ++ check (MaterialBody.type b ≫= parse_type) "Invalid material type"
  ++ check (MaterialBody.course b ≫= parse_course) "Invalid course"
  ++ check (MaterialBody.grade b ≫= parse_grade) "Invalid grade"
  ++ check (MaterialBody.program b ≫= parse_program) "Invalid program".

(** [materialData] before the type-specific fields are added. *)
Definition materialData (u : User.t) (b : MaterialBody.t) (title : string)
    (type : MaterialType) (course : Course) (grade : Grade) (program : Program)
    (priority : Priority) : Material.t :=
  {| Material.title := trim title;
     Material.description := trim <$> MaterialBody.description b;
     Material.type := type;
     Material.fileName := None;
     Material.filePath := None;
     Material.fileSize := None;
     Material.url := None;
     Material.folder := MaterialBody.folder b;
     Material.owner := User._id u;
     Material.course := course;
     Material.grade := grade;
     Material.program := program;
     Material.tags :=
       match truthy (MaterialBody.tags b) with
       | Some tags => trim <$> split_commas tags
       | None => []
       end;
     Material.isPublic := bool_decide (MaterialBody.isPublic b = Some "true");
     Material.sharedWith := [];
     Material.downloadCount := 0;
     Material.viewCount := 0;
     Material.dueDate := MaterialBody.dueDate b;
     Material.priority := priority |}.

Definition with_url (url : string) (m : Material.t) : Material.t :=
  {| Material.title := Material.title m;
     Material.description := Material.description m;
     Material.type := Material.type m; Material.fileName := Material.fileName m;
     Material.filePath := Material.filePath m;
     Material.fileSize := Material.fileSize m; Material.url := Some url;
     Material.folder := Material.folder m; Material.owner := Material.owner m;
     Material.course := Material.course m; Material.grade := Material.grade m;
     Material.program := Material.program m; Material.tags := Material.tags m;
     Material.isPublic := Material.isPublic m;
     Material.sharedWith := Material.sharedWith m;
     Material.downloadCount := Material.downloadCount m;
     Material.viewCount := Material.viewCount m;
     Material.dueDate := Material.dueDate m;
     Material.priority := Material.priority m |}.

Definition with_file (file : Upload.t) (m : Material.t) : Material.t :=
  {| Material.title := Material.title m;
     Material.description := Material.description m;
     Material.type := Material.type m;
     Material.fileName := Some (Upload.originalname file);
     Material.filePath := Some (Upload.path file);
     Material.fileSize := Some (Upload.size file); Material.url := Material.url m;
     Material.folder := Material.folder m; Material.owner := Material.owner m;
     Material.course := Material.course m; Material.grade := Material.grade m;
     Material.program := Material.program m; Material.tags := Material.tags m;
     Material.isPublic := Material.isPublic m;
     Material.sharedWith := Material.sharedWith m;
     Material.downloadCount := Material.downloadCount m;
     Material.viewCount := Material.viewCount m;
     Material.dueDate := Material.dueDate m;
     Material.priority := Material.priority m |}.

(** [new Material(materialData).save()]: the schema validators, then the
    insertion; a validation error is thrown into the handler's [catch]. *)
Definition insertMaterial (newId : nat) (m : Material.t) (st : Store)
    : Reply (nat * Material.t) * Store :=
  if Material.validate m then
    (Sent 201 (newId, m), set_materials (<[newId := m]> (materials st)) st)
  else (server_error, st).

(** [POST /api/materials], after [upload.single('file')].  A priority
    outside the schema's enum is rejected by [save()], like any other
    validation error. *)
Definition createMaterial (newId : nat) (u : User.t) (b : MaterialBody.t)
    (file : option Upload.t) (st0 : Store) : Reply (nat * Material.t) * Store :=
  let st := received file st0 in
  match nonempty (trim (default "" (MaterialBody.title b))),
        MaterialBody.type b ≫= parse_type,
        MaterialBody.course b ≫= parse_course,
        MaterialBody.grade b ≫= parse_grade,
        MaterialBody.program b ≫= parse_program with
  | Some title, Some type, Some course, Some grade, Some program =>
      let folderDoc :=
        match MaterialBody.folder b with
        | Some f =>
            findOne (λ i fd, bool_decide (i = f ∧ Folder.owner fd = User._id u))
                    (folders st)
        | None => None
        end in
      if bool_decide (is_Some (MaterialBody.folder b) ∧ folderDoc = None) then
        (Message 400 "Invalid folder", st)
      else
        let data priority := materialData u b title type course grade program priority in
        let priority := parse_priority (default "medium" (truthy (MaterialBody.priority b))) in
        if decide (type = link) then
          match truthy (MaterialBody.url b) with
          | None => (Message 400 "URL is required for link type", st)
          | Some url =>
              match priority with
              | Some p => insertMaterial newId (with_url url (data p)) st
              | None => (server_error, st)
              end
          end
        else
          match file with
          | Some f =>
              match priority with
              | Some p => insertMaterial newId (with_file f (data p)) st
              | None => (server_error, st)
              end
          | None => (Message 400 "File is required for this material type", st)
          end
  | _, _, _, _, _ => (Invalid (material_create_errors b), st)
  end.

(** *** Overlapping requests

    Node runs the handlers of two requests on one thread and switches
    between them at each [await]: a request is [Pending] until its
    document is loaded, then [Holding] that document in memory until it
    saves, then [Replied]. *)
Inductive Thread (A : Type) : Type :=
  | Pending
  | Holding (material : Material.t)
  | Replied (reply : Reply A).
Arguments Pending {A}.
Arguments Holding {A} material.
Arguments Replied {A} reply.

Record Handler (A : Type) := {
  h_load : Store → Reply A + Material.t;
  h_save : Material.t → Store → Reply A * Store
}.
Arguments h_load {A} h st.
Arguments h_save {A} h material st.

Definition getHandler (u : User.t) (id : nat) : Handler Material.t :=
  {| h_load := getMaterial_load u id; h_save := getMaterial_save id |}.
Definition downloadHandler (u : User.t) (id : nat) : Handler string :=
  {| h_load := download_load u id; h_save := download_save id |}.

Definition thread_step {A} (h : Handler A) (t : Thread A) (st : Store)
    : Thread A * Store :=
  match t with
  | Pending =>
      match h_load h st with
      | inl reply => (Replied reply, st)
      | inr material => (Holding material, st)
      end
  | Holding material =>
      let '(reply, st') := h_save h material st in (Replied reply, st')
  | Replied reply => (Replied reply, st)
  end.

(** A schedule says which of the two requests runs next: [false] the
    first, [true] the second. *)
Definition system_step {A} (h1 h2 : Handler A) (s : Thread A * Thread A * Store)
    (second : bool) : Thread A * Thread A * Store :=
  let '(t1, t2, st) := s in
  if second then let '(t2', st') := thread_step h2 t2 st in (t1, t2', st')
  else let '(t1', st') := thread_step h1 t1 st in (t1', t2, st').

Definition run {A} (h1 h2 : Handler A) (schedule : list bool)
    (s : Thread A * Thread A * Store) : Thread A * Thread A * Store :=
  foldl (system_step h1 h2) s schedule.

(** A request that runs from start to end with nothing in between. *)
Definition handle {A} (h : Handler A) (st : Store) : Reply A * Store :=
  match h_load h st with
  | inl reply => (reply, st)
  | inr material => h_save h material st
  end.

(** What the two counter handlers have in common: the document they
    hold is the one stored at load time, a refusal is never a [Sent]
    reply, and the save writes the held count plus one. *)
Record read_modify_write {A} (count : Material.t → nat) (id : nat)
    (h : Handler A) : Prop := {
  rmw_load : ∀ st m, h_load h st = inr m → materials st !! id = Some m;
  rmw_refuse : ∀ st r, h_load h st = inl r → ∀ c b, r ≠ Sent c b;
  rmw_save : ∀ m st, ∃ b set,
    h_save h m st
    = (Sent 200 b, set_materials (alter set id (materials st)) st)
    ∧ ∀ d, count (set d) = count m + 1
}.

(** 1 for a request that has saved and answered, 0 otherwise. *)
Definition sent {A} (t : Thread A) : nat :=
  match t with Replied (Sent _ _) => 1 | _ => 0 end.

Definition held_within {A} (count : Material.t → nat) (lo hi : nat)
    (t : Thread A) : Prop :=
  match t with Holding m => lo ≤ count m ≤ hi | _ => True end.

(** The invariant of two overlapping requests on a counter that started
    at [n]. *)
Definition counter_inv {A} (count : Material.t → nat) (id n : nat)
    (s : Thread A * Thread A * Store) : Prop :=
  let '(t1, t2, st) := s in
  ∃ d, materials st !! id = Some d
       ∧ n ≤ count d ≤ n + (sent t1 + sent t2)
       ∧ (0 < sent t1 + sent t2 → n < count d)
       ∧ held_within count n (n + (sent t1 + sent t2)) t1
       ∧ held_within count n (n + (sent t1 + sent t2)) t2.

(** *** Sharing *)

Definition set_permission (p : Permission) (s : Share) : Share :=
  {| user := user s; permission := p |}.

(** One turn of the loop of [POST /:id/share]: [find] the first grant of
    the student; [push] a new one when there is none, otherwise assign
    the permission of the grant found. *)
Definition shareWith (permission : Permission) (sharedWith : list Share)
    (studentId : nat) : list Share :=
  match list_find (λ share, user share = studentId) sharedWith with
  | None => sharedWith ++ [{| user := studentId; permission := permission |}]
  | Some (i, existingShare) => alter (set_permission permission) i sharedWith
  end.

Definition parse_share_permission (s : string) : option Permission :=
  if decide (s = "read") then Some read
  else if decide (s = "write") then Some write
  else None.

Module ShareBody.
Record t := { studentIds : list nat; permission : option string }.
End ShareBody.

Definition share_errors (b : ShareBody.t) : list string :=
  (if decide (ShareBody.studentIds b = []) then
     ["At least one student ID is required"] else [])
  ++ check (ShareBody.permission b ≫= parse_share_permission)
           "Invalid permission level".

(** [POST /api/materials/:id/share].  The loop runs at least once, the
    validator having refused an empty array, and its first turn calls
    [find] on [material.sharedWith]: where that is [undefined] the call
    throws before anything is written. *)
Definition shareMaterial (u : User.t) (id : nat) (b : ShareBody.t) (st : Store)
    : Reply (list Share) * Store :=
  match ShareBody.studentIds b, ShareBody.permission b ≫= parse_share_permission with
  | _ :: _, Some permission =>
      match materials st !! id with
      | Some material =>
          if decide (Material.owner material = User._id u) then
            match Material.loaded_sharedWith material with
            | Some loaded =>
                let sharedWith :=
                  foldl (shareWith permission) loaded (ShareBody.studentIds b) in
                (Sent 200 sharedWith,
                 set_materials
                   (<[id := Material.set_sharedWith sharedWith material]>
                      (materials st))
                   st)
            | None => (server_error, st)
            end
          else (Message 404 "Material not found", st)
      | None => (Message 404 "Material not found", st)
      end
  | _, _ => (Invalid (share_errors b), st)
  end.

(** ** Session routes (routes/zoom) *)

(** The body of the update.  The route has no validator chain, so
    [duration] is whatever number the JSON body carries, taken here to
    be an integer: negative numbers included. *)
Module SessionPatch.
Record t := {
  title : option string;
  description : option string;
  scheduledTime : option nat;
  duration : option Z;
  status : option string
}.
End SessionPatch.

(** [PUT /api/zoom/sessions/:id].  The fields present in the body are
    assigned one by one, a number being assigned unless it is zero;
    [save()] then checks the schema: a title is required and the status
    must be one of the enum (the duration has no bound there).  The
    PATCH sent to the conferencing provider is best effort and changes
    nothing here. *)
Definition updateSession (u : User.t) (id : nat) (b : SessionPatch.t)
    (st : Store) : Reply (nat * ZoomSession.t) * Store :=
  match sessions st !! id with
  | Some session =>
      if decide (ZoomSession.teacher session = User._id u) then
        let title :=
          match truthy (SessionPatch.title b) with
          | Some t => trim t
          | None => ZoomSession.title session
          end in
        let status :=
          match truthy (SessionPatch.status b) with
          | Some s => parse_status s
          | None => Some (ZoomSession.status session)
          end in
        match nonempty title, status with
        | Some title, Some status =>
            let session' :=
              {| ZoomSession.title := title;
                 ZoomSession.description :=
                   match SessionPatch.description b with
                   | Some d => Some (trim d)
                   | None => ZoomSession.description session
                   end;
                 ZoomSession.course := ZoomSession.course session;
                 ZoomSession.grade := ZoomSession.grade session;
                 ZoomSession.program := ZoomSession.program session;
                 ZoomSession.teacher := ZoomSession.teacher session;
                 ZoomSession.zoomMeetingId := ZoomSession.zoomMeetingId session;
                 ZoomSession.scheduledTime :=
                   default (ZoomSession.scheduledTime session)
                           (SessionPatch.scheduledTime b);
                 ZoomSession.duration :=
                   match SessionPatch.duration b with
                   | Some n => if decide (n = 0%Z)
                               then ZoomSession.duration session else n
                   | None => ZoomSession.duration session
                   end;
                 ZoomSession.status := status;
                 ZoomSession.attendees := ZoomSession.attendees session;
                 ZoomSession.materials := ZoomSession.materials session |} in
            (Sent 200 (id, session'),
             set_sessions (<[id := session']> (sessions st)) st)
        | _, _ => (server_error, st)
        end
      else (Message 404 "Session not found", st)
  | None => (Message 404 "Session not found", st)
  end.

(** The order the status is expected to follow: scheduled, started,
    ended, with cancelled reachable from the others and left by none. *)
Definition forward (s s' : Status) : bool :=
  match s, s' with
  | scheduled, _ => true
  | started, (started | ended | cancelled) => true
  | ended, (ended | cancelled) => true
  | cancelled, cancelled => true
  | _, _ => false
  end.

Definition print_status (s : Status) : string :=
  match s with
  | scheduled => "scheduled"
  | started => "started"
  | ended => "ended"
  | cancelled => "cancelled"
  end.

Definition statusOnly (s : Status) : SessionPatch.t :=
  {| SessionPatch.title := None; SessionPatch.description := None;
     SessionPatch.scheduledTime := None; SessionPatch.duration := None;
     SessionPatch.status := Some (print_status s) |}.

(** ** The SQLite server (server.js over database/schema.sql) *)

Module Sql.
Record User := { id : Z; role : Role }.

Record MaterialRow := {
  title : string;
  description : option string;
  type : string;
  file_name : option string;
  file_path : option string;
  file_size : option nat;
  url : option string;
  folder_id : option Z;
  course_id : Z;
  owner_id : Z;
  grade : option string;
  program : option string;
  tags : option string;
  is_public : nat;
  priority : string
}.

Record Db := {
  courses : gset Z;
  folders : gset Z;
  users : gset Z;
  materials : gmap Z MaterialRow;
  lastID : Z
}.

(** A [CHECK (col IN (...))] constraint: NULL passes. *)
Definition check_in {A} (parse : string → option A) (o : option string) : bool :=
  match o with
  | Some s => bool_decide (is_Some (parse s))
  | None => true
  end.

(** [INSERT INTO materials]: the CHECK and FOREIGN KEY constraints of the
    table, then the row under the next AUTOINCREMENT id. *)
Definition insert_material (row : MaterialRow) (db : Db) : option (Z * Db) :=
  if bool_decide (is_Some (parse_type (type row)))
     && check_in parse_grade (grade row)
     && check_in parse_program (program row)
     && bool_decide (is_Some (parse_priority (priority row)))
     && bool_decide (course_id row ∈ courses db)
     && bool_decide (owner_id row ∈ users db)
     && match folder_id row with
        | Some f => bool_decide (f ∈ folders db)
        | None => true
        end
  then
    let newId := (lastID db + 1)%Z in
    Some (newId,
          {| courses := courses db; folders := folders db; users := users db;
             materials := <[newId := row]> (materials db); lastID := newId |})
  else None.

Module Body.
Record t := {
  title : option string;
  description : option string;
  course_id : option Z;
  folder_id : option Z;
  type : option string;
  url : option string;
  grade : option string;
  program : option string;
  tags : option string;
  is_public : option string;
  priority : option string
}.
End Body.

Definition create_errors (b : Body.t) : list string :=
  check (nonempty (trim (default "" (Body.title b)))) "Title is required"
  ++ check (Body.course_id b) "Valid course ID is required"
  ++ check (Body.type b ≫= parse_type) "Invalid type".

(** [POST /api/materials] of the SQLite server, behind
    [requireRole(['teacher', 'admin'])].  [course_id] and [folder_id]
    are the integers the fields parse to. *)
Definition createMaterial (u : User) (b : Body.t) (file : option Upload.t)
    (db : Db) : Reply (Z * MaterialRow) * Db :=
  if decide (role u = student) then (Message 403 "Insufficient permissions", db)
  else
    match nonempty (trim (default "" (Body.title b))), Body.course_id b,
          Body.type b with
    | Some title, Some course_id, Some type =>
        if bool_decide (is_Some (parse_type type)) then
          let materialData file_name file_path file_size url :=
            {| title := title;
               description := Body.description b;
               type := type;
               file_name := file_name;
               file_path := file_path;
               file_size := file_size;
               url := url;
               folder_id := Body.folder_id b;
               course_id := course_id;
               owner_id := id u;
               grade := Body.grade b;
               program := Body.program b;
               tags := Body.tags b;
               is_public := if decide (Body.is_public b = Some "true") then 1 else 0;
               priority := default "medium" (truthy (Body.priority b)) |} in
          let insert row :=
            match insert_material row db with
            | Some (newId, db') => (Sent 201 (newId, row), db')
            | None => (server_error, db)
            end in
          if decide (type = "link") then
            insert (materialData None None None (Body.url b))
          else
            match file with
            | Some f =>
                insert (materialData (Some (Upload.originalname f))
                                     (Some (Upload.path f))
                                     (Some (Upload.size f)) None)
            | None => (Message 400 "File is required for this material type", db)
            end
        else (Invalid (create_errors b), db)
    | _, _, _ => (Invalid (create_errors b), db)
    end.
End Sql.

(** *** The folder tree *)

(** [in_subtree fs root d]: following parent pointers from [d] reaches
    [root] (in zero or more steps). *)
Inductive in_subtree (fs : gmap nat Folder.t) (root : nat) : nat → Prop :=
  | subtree_root : in_subtree fs root root
  | subtree_child d rec p :
      fs !! d = Some rec → Folder.parentFolder rec = Some p →
      in_subtree fs root p → in_subtree fs root d.

(** [height_le fs f n]: every chain of child folders below [f] has fewer
    than [n] folders, [f] included; in particular no parent pointer below
    [f] closes a cycle. *)
Inductive height_le (fs : gmap nat Folder.t) : nat → nat → Prop :=
  | height_le_S f n :
      (∀ c rec, fs !! c = Some rec → Folder.parentFolder rec = Some f →
                height_le fs c n) →
      height_le fs f (S n).

(** [e1] occurs in [tr] before every occurrence of [e2]. *)
Definition precedes (tr : list Event) (e1 e2 : Event) : Prop :=
  ∀ t1 t2, tr = t1 ++ e2 :: t2 → e1 ∈ t1.

(** What one run of the deletion may do to the store, relative to the
    folders [roots] it was asked to delete. *)
Record cascade (roots : list nat) (st st' : Store) (tr : list Event) : Prop := {
  cascade_folders : folders st' ⊆ folders st;
  cascade_materials : materials st' ⊆ materials st;
  cascade_sessions : sessions st' = sessions st;
  cascade_orphans : ∀ d rec p,
    folders st' !! d = Some rec → Folder.parentFolder rec = Some p →
    is_Some (folders st !! p) → is_Some (folders st' !! p);
  cascade_strays : ∀ m mat g,
    materials st' !! m = Some mat → Material.folder mat = Some g →
    is_Some (folders st !! g) → is_Some (folders st' !! g);
  cascade_logged : ∀ d,
    is_Some (folders st !! d) → folders st' !! d = None →
    FolderDeleted d ∈ tr ∧ MaterialsDeleted d ∈ tr;
  cascade_confined : ∀ d,
    is_Some (folders st !! d) → folders st' !! d = None →
    ∃ c, c ∈ roots ∧ in_subtree (folders st) c d;
  cascade_confined_materials : ∀ m mat,
    materials st !! m = Some mat → materials st' !! m = None →
    ∃ g c, Material.folder mat = Some g ∧ c ∈ roots
           ∧ in_subtree (folders st) c g;
  cascade_order : ∀ c rec d,
    folders st !! c = Some rec → Folder.parentFolder rec = Some d →
    precedes tr (FolderDeleted c) (FolderDeleted d);
  cascade_children_first : ∀ c rec d,
    folders st !! c = Some rec → Folder.parentFolder rec = Some d →
    precedes tr (FolderDeleted c) (MaterialsDeleted d);
  cascade_materials_first : ∀ d,
    precedes tr (MaterialsDeleted d) (FolderDeleted d)
}.

(** The executable form of [height_le]. *)
Fixpoint height_leb (fs : gmap nat Folder.t) (f n : nat) : bool :=
  match n with
  | 0 => false
  | S n' =>
      forallb (λ c, height_leb fs c n')
        (find (λ _ g, bool_decide (Folder.parentFolder g = Some f)) fs).*1
  end.

(** *** Stores that the routes build

    Every parent pointer names a folder of the collection, and the
    folders can be ranked so that a parent ranks below its children. *)
Definition parent_exists (fs : gmap nat Folder.t) (rec : Folder.t) : bool :=
  match Folder.parentFolder rec with
  | Some p => bool_decide (is_Some (fs !! p))
  | None => true
  end.

Definition parent_below (rank : nat → nat) (c : nat) (rec : Folder.t) : bool :=
  match Folder.parentFolder rec with
  | Some p => bool_decide (rank p < rank c)
  | None => true
  end.

Definition parents_exist (fs : gmap nat Folder.t) : Prop :=
  map_Forall (λ _ rec, parent_exists fs rec = true) fs.

Definition ranked (rank : nat → nat) (fs : gmap nat Folder.t) : Prop :=
  map_Forall (λ c rec, parent_below rank c rec = true) fs.

Definition forest (fs : gmap nat Folder.t) : Prop :=
  parents_exist fs ∧ ∃ rank, ranked rank fs.

#[global] Instance parents_exist_dec fs : Decision (parents_exist fs).
Proof. unfold parents_exist. apply _. Defined.
#[global] Instance ranked_dec rank fs : Decision (ranked rank fs).
Proof. unfold ranked. apply _. Defined.

(** One request served, or one change of the upload directory from
    outside (an upload, a file removed by hand). *)
Inductive step : Store → Store → Prop :=
  | step_createFolder newId u b st :
      folders st !! newId = None →
      step st (createFolder newId u b st).2
  | step_updateFolder u id b st :
      step st (updateFolder u id b st).2
  | step_deleteFolder unlinkFails fuel u id st reply st' tr :
      deleteFolderRoute unlinkFails fuel u id st = Some (reply, st', tr) →
      step st st'
  | step_createMaterial newId u b file st :
      materials st !! newId = None →
      step st (createMaterial newId u b file st).2
  | step_getMaterial u id st :
      step st (getMaterial u id st).2
  | step_downloadMaterial u id st :
      step st (downloadMaterial u id st).2
  | step_shareMaterial u id b st :
      step st (shareMaterial u id b st).2
  | step_updateSession u id b st :
      step st (updateSession u id b st).2
  | step_disk d st :
      step st (set_disk d st).

Definition empty_store (d : gset string) : Store :=
  {| folders := ∅; materials := ∅; sessions := ∅; disk := d |}.

(** ** Sample data *)

Definition sampleFolder (name : string) (parent : option nat) (path : string)
    : Folder.t :=
  {| Folder.name := name; Folder.description := None;
     Folder.parentFolder := parent; Folder.owner := 1;
     Folder.course := Biochemistry; Folder.grade := G12; Folder.program := Both;
     Folder.color := "#2c5aa0"; Folder.icon := "folder"; Folder.isPublic := false;
     Folder.sharedWith := []; Folder.tags := []; Folder.path := path |}.

Definition sampleMaterial (title : string) (folder : option nat)
    (file : option string) : Material.t :=
  {| Material.title := title; Material.description := None; Material.type := pdf;
     Material.fileName := file; Material.filePath := file;
     Material.fileSize := None; Material.url := None; Material.folder := folder;
     Material.owner := 1; Material.course := Biochemistry; Material.grade := G12;
     Material.program := Both; Material.tags := []; Material.isPublic := false;
     Material.sharedWith := []; Material.downloadCount := 0;
     Material.viewCount := 0; Material.dueDate := None;
     Material.priority := medium |}.

Definition publicSlides : Material.t :=
  {| Material.title := "Cell membrane slides"; Material.description := None;
     Material.type := pptx; Material.fileName := Some "slides.pptx";
     Material.filePath := Some "/uploads/1/d.pptx"; Material.fileSize := Some 2048;
     Material.url := None; Material.folder := Some 13; Material.owner := 1;
     Material.course := CellBiology; Material.grade := G10;
     Material.program := ACT; Material.tags := []; Material.isPublic := true;
     Material.sharedWith := []; Material.downloadCount := 7;
     Material.viewCount := 3; Material.dueDate := None;
     Material.priority := medium |}.

(** A grade 12 student in the EST program. *)
Definition sampleStudent : User.t :=
  {| User._id := 5; User.role := student;
     User.studentInfo := {| User.grade := G12; User.program := EST |} |}.


(** A teacher who owns none of the sample materials. *)
Definition otherTeacher : User.t :=
  {| User._id := 2; User.role := teacher;
     User.studentInfo := {| User.grade := G9; User.program := Both |} |}.

Definition publicFolder : Folder.t :=
  {| Folder.name := "Open house"; Folder.description := None;
     Folder.parentFolder := None; Folder.owner := 1;
     Folder.course := GeneralBiology; Folder.grade := G9; Folder.program := Both;
     Folder.color := "#2c5aa0"; Folder.icon := "folder"; Folder.isPublic := true;
     Folder.sharedWith := []; Folder.tags := []; Folder.path := "Open house" |}.

Definition noFilter : MaterialFilter.t :=
  {| MaterialFilter.course := None; MaterialFilter.grade := None;
     MaterialFilter.program := None; MaterialFilter.type := None;
     MaterialFilter.folder := None; MaterialFilter.search := None |}.

Definition drSalma : User.t :=
  {| User._id := 1; User.role := teacher;
     User.studentInfo := {| User.grade := G9; User.program := Both |} |}.

Definition cancelledSession : ZoomSession.t :=
  {| ZoomSession.title := "Enzymes review"; ZoomSession.description := None;
     ZoomSession.course := Biochemistry; ZoomSession.grade := G12;
     ZoomSession.program := Both; ZoomSession.teacher := 1;
     ZoomSession.zoomMeetingId := "demo_1"; ZoomSession.scheduledTime := 1000;
     ZoomSession.duration := 60; ZoomSession.status := cancelled;
     ZoomSession.attendees := []; ZoomSession.materials := [] |}.

(** "Lecture Materials" (10) holds "Week 1" (11), which holds "Labs" (12);
    "Archive" (13) and the public "Open house" (15) are other roots.  One file of the subtree is already
    missing from the disk. *)
Definition sampleStore : Store :=
  {| folders := list_to_map
       [(10, sampleFolder "Lecture Materials" None "Lecture Materials");
        (11, sampleFolder "Week 1" (Some 10) "Lecture Materials/Week 1");
        (12, sampleFolder "Labs" (Some 11) "Lecture Materials/Week 1/Labs");
        (13, sampleFolder "Archive" None "Archive");
        (15, publicFolder)];
     materials := list_to_map
       [(20, sampleMaterial "Enzyme Kinetics Lab" (Some 12) (Some "/uploads/1/a.pdf"));
        (21, sampleMaterial "Syllabus" (Some 10) (Some "/uploads/1/b.pdf"));
        (22, sampleMaterial "Old exam" (Some 13) (Some "/uploads/1/c.pdf"));
        (23, publicSlides)];
     sessions := {[ 30 := cancelledSession ]};
     disk := {[ "/uploads/1/b.pdf"; "/uploads/1/c.pdf"; "/uploads/1/d.pptx" ]} |}.

Definition week2 : FolderBody.t :=
  {| FolderBody.name := Some " Week 2 "; FolderBody.description := None;
     FolderBody.parentFolder := Some 10; FolderBody.course := Some "Biochemistry";
     FolderBody.grade := Some "12"; FolderBody.program := Some "Both";
     FolderBody.color := None; FolderBody.icon := None;
     FolderBody.isPublic := None; FolderBody.tags := None |}.

Definition week2Folder : Folder.t :=
  sampleFolder "Week 2" (Some 10) "Lecture Materials/Week 2".

Definition rootBody : FolderBody.t :=
  {| FolderBody.name := Some "Exams"; FolderBody.description := None;
     FolderBody.parentFolder := None; FolderBody.course := Some "Biochemistry";
     FolderBody.grade := Some "12"; FolderBody.program := Some "Both";
     FolderBody.color := None; FolderBody.icon := None;
     FolderBody.isPublic := None; FolderBody.tags := None |}.

Definition orphanBody : FolderBody.t :=
  {| FolderBody.name := Some "Exams"; FolderBody.description := None;
     FolderBody.parentFolder := Some 99; FolderBody.course := Some "Biochemistry";
     FolderBody.grade := Some "12"; FolderBody.program := Some "Both";
     FolderBody.color := None; FolderBody.icon := None;
     FolderBody.isPublic := None; FolderBody.tags := None |}.

Definition renameBody : FolderPatch.t :=
  {| FolderPatch.name := Some "Lectures"; FolderPatch.description := None;
     FolderPatch.color := None; FolderPatch.icon := None;
     FolderPatch.isPublic := None; FolderPatch.tags := None |}.

Definition renamedFolder : Folder.t := sampleFolder "Lectures" None "Lectures".

Definition shareRead : ShareBody.t :=
  {| ShareBody.studentIds := [5]; ShareBody.permission := Some "read" |}.
Definition shareWrite : ShareBody.t :=
  {| ShareBody.studentIds := [5]; ShareBody.permission := Some "write" |}.

Definition linkBody (url : option string) : MaterialBody.t :=
  {| MaterialBody.title := Some "Krebs cycle animation";
     MaterialBody.description := None; MaterialBody.type := Some "link";
     MaterialBody.url := url; MaterialBody.folder := Some 10;
     MaterialBody.course := Some "Cell Respiration";
     MaterialBody.grade := Some "11"; MaterialBody.program := Some "ACT";
     MaterialBody.tags := Some "video, krebs"; MaterialBody.dueDate := None;
     MaterialBody.priority := None; MaterialBody.isPublic := None |}.

Definition someUpload : Upload.t :=
  {| Upload.originalname := "notes.pdf"; Upload.path := "/uploads/1/file-1.pdf";
     Upload.size := 512 |}.

(** The SQLite database after the seed: course 1, user 1 (the teacher). *)
Definition sqlDb : Sql.Db :=
  {| Sql.courses := {[ 1%Z ]}; Sql.folders := ∅; Sql.users := {[ 1%Z ]};
     Sql.materials := ∅; Sql.lastID := 0 |}.

Definition sqlTeacher : Sql.User := {| Sql.id := 1; Sql.role := teacher |}.

Definition sqlLinkBody (url : option string) : Sql.Body.t :=
  {| Sql.Body.title := Some "Krebs cycle animation";
     Sql.Body.description := None; Sql.Body.course_id := Some 1%Z;
     Sql.Body.folder_id := None; Sql.Body.type := Some "link";
     Sql.Body.url := url; Sql.Body.grade := None; Sql.Body.program := None;
     Sql.Body.tags := None; Sql.Body.is_public := None;
     Sql.Body.priority := None |}.

(** The replies with status 400. *)
Definition is_400 {A} (r : Reply A) : Prop :=
  match r with
  | Message 400 _ | Invalid _ => True
  | _ => False
  end.

(** * The other handlers of the routes *)

(** ** Materials: update and delete (routes/materials) *)

(** The body of the update; [dueDate] is the date that the field denotes
    and [isPublic] the boolean of the JSON body. *)
Module MaterialPatch.
Record t := {
  title : option string;
  description : option string;
  url : option string;
  tags : option string;
  dueDate : option nat;
  priority : option string;
  isPublic : option bool
}.
End MaterialPatch.

(** The assignments of [PUT /api/materials/:id], in the order of the
    handler; [priority] is the member of the enum that the request names,
    or the stored one. *)
Definition apply_material_patch (b : MaterialPatch.t) (priority : Priority)
    (m : Material.t) : Material.t :=
  {| Material.title :=
       default (Material.title m) (trim <$> (trim <$> MaterialPatch.title b));
     Material.description :=
       match MaterialPatch.description b with
       | Some d => Some (trim d)
       | None => Material.description m
       end;
     Material.type := Material.type m;
     Material.fileName := Material.fileName m;
     Material.filePath := Material.filePath m;
     Material.fileSize := Material.fileSize m;
     Material.url :=
       match truthy (MaterialPatch.url b) with
       | Some url => if decide (Material.type m = link) then Some url
                     else Material.url m
       | None => Material.url m
       end;
     Material.folder := Material.folder m;
     Material.owner := Material.owner m;
     Material.course := Material.course m;
     Material.grade := Material.grade m;
     Material.program := Material.program m;
     Material.tags :=
       match truthy (MaterialPatch.tags b) with
       | Some tags => trim <$> split_commas tags
       | None => Material.tags m
       end;
     Material.isPublic := default (Material.isPublic m) (MaterialPatch.isPublic b);
     Material.sharedWith := Material.sharedWith m;
     Material.downloadCount := Material.downloadCount m;
     Material.viewCount := Material.viewCount m;
     Material.dueDate :=
       match MaterialPatch.dueDate b with
       | Some d => Some d
       | None => Material.dueDate m
       end;
     Material.priority := priority |}.

(** [PUT /api/materials/:id].  [save()] runs the schema validators: a
    priority outside the enum, like any other validation error, ends in
    the handler's [catch]. *)
Definition updateMaterial (u : User.t) (id : nat) (b : MaterialPatch.t)
    (st : Store) : Reply (nat * Material.t) * Store :=
  (* body('title').optional().trim().isLength({ min: 1 }) *)
  if decide (trim <$> MaterialPatch.title b = Some "") then
    (Invalid ["Material title cannot be empty"], st)
  else
    match materials st !! id with
    | Some material =>
        if decide (Material.owner material = User._id u) then
          let priority :=
            match truthy (MaterialPatch.priority b) with
            | Some p => parse_priority p
            | None => Some (Material.priority material)
            end in
          match priority with
          | Some priority =>
              let material' := apply_material_patch b priority material in
              if Material.validate material' then
                (Sent 200 (id, material'),
                 set_materials (<[id := material']> (materials st)) st)
              else (server_error, st)
          | None => (server_error, st)
          end
        else (Message 404 "Material not found", st)
    | None => (Message 404 "Material not found", st)
    end.

(** [DELETE /api/materials/:id]: the file is unlinked when the material
    has one, a rejection is logged, and the record is deleted either
    way. *)
Definition deleteMaterial (unlinkFails : string → bool) (u : User.t) (id : nat)
    (st : Store) : Reply unit * Store * list Event :=
  match materials st !! id with
  | Some material =>
      if decide (Material.owner material = User._id u) then
        let '(d, tr) :=
          match truthy (Material.filePath material) with
          | Some p =>
              match unlink unlinkFails p (disk st) with
              | Some d' => (d', [Unlinked p])
              | None => (disk st, [UnlinkFailed p])
              end
          | None => (disk st, [])
          end in
        (Message 200 "Material deleted successfully",
         set_materials (delete id (materials st)) (set_disk d st), tr)
      else (Message 404 "Material not found", st, [])
  | None => (Message 404 "Material not found", st, [])
  end.

(** ** Folders: upload into a folder and listing (routes/folders) *)

Module UploadBody.
Record t := {
  title : option string;
  description : option string;
  type : option string;
  url : option string;
  tags : option string;
  dueDate : option nat;
  priority : option string
}.
End UploadBody.

Definition upload_errors (b : UploadBody.t) : list string :=
  check (nonempty (trim (default "" (UploadBody.title b)))) "Material title is required"
  ++ check (UploadBody.type b ≫= parse_type) "Invalid material type".

(** [POST /api/folders/:id/materials], after [upload.single('file')].
    The material takes course, grade and program from the folder.  For a link the URL of the body is
    assigned as it is, present or not; the schema's [required] validator
    on [url] then decides at [save()].  A priority left out takes the
    schema default. *)
Definition uploadMaterial (newId : nat) (u : User.t) (id : nat)
    (b : UploadBody.t) (file : option Upload.t) (st0 : Store)
    : Reply (nat * Material.t) * Store :=
  let st := received file st0 in
  match nonempty (trim (default "" (UploadBody.title b))),
        UploadBody.type b ≫= parse_type with
  | Some title, Some type =>
      match folders st !! id with
      | Some folder =>
          if decide (Folder.owner folder = User._id u) then
            let priority :=
              match UploadBody.priority b with
              | Some p => parse_priority p
              | None => Some medium
              end in
            let data file_name file_path file_size url priority :=
              {| Material.title := trim title;
                 Material.description := trim <$> UploadBody.description b;
                 Material.type := type;
                 Material.fileName := file_name;
                 Material.filePath := file_path;
                 Material.fileSize := file_size;
                 Material.url := url;
                 Material.folder := Some id;
                 Material.owner := User._id u;
                 Material.course := Folder.course folder;
                 Material.grade := Folder.grade folder;
                 Material.program := Folder.program folder;
                 Material.tags :=
                   match truthy (UploadBody.tags b) with
                   | Some tags => trim <$> split_commas tags
                   | None => []
                   end;
                 Material.isPublic := false;
                 Material.sharedWith := [];
                 Material.downloadCount := 0;
                 Material.viewCount := 0;
                 Material.dueDate := UploadBody.dueDate b;
                 Material.priority := priority |} in
            if decide (type = link) then
              match priority with
              | Some p =>
                  insertMaterial newId (data None None None (UploadBody.url b) p) st
              | None => (server_error, st)
              end
            else
              match file with
              | Some f =>
                  match priority with
                  | Some p =>
                      insertMaterial newId
                        (data (Some (Upload.originalname f)) (Some (Upload.path f))
                              (Some (Upload.size f)) None p) st
                  | None => (server_error, st)
                  end
              | None => (Message 400 "File is required for this material type", st)
              end
          else (Message 404 "Folder not found", st)
      | None => (Message 404 "Folder not found", st)
      end
  | _, _ => (Invalid (upload_errors b), st)
  end.

(** ** Sessions: listing, creation, deletion, joining (routes/zoom) *)

(** [canJoin] of the join handler, which is also the [$or] of the
    student's listing. *)
Definition canJoin (u : User.t) (session : ZoomSession.t) : bool :=
  bool_decide (ZoomSession.grade session = User.grade (User.studentInfo u))
  || bool_decide (ZoomSession.program session = User.program (User.studentInfo u))
  || bool_decide (ZoomSession.program session = Both).

Module SessionFilter.
Record t := {
  course : option string;
  grade : option string;
  program : option string;
  status : option string;
  upcoming : option string
}.
End SessionFilter.

(** The query object of [GET /api/zoom/sessions]; [now] is [new Date()]. *)
Definition sessionQuery (now : nat) (u : User.t) (q : SessionFilter.t)
    (session : ZoomSession.t) : bool :=
  (if decide (User.role u = student) then canJoin u session
   else bool_decide (ZoomSession.teacher session = User._id u))
  && field_is parse_course (SessionFilter.course q) (ZoomSession.course session)
  && field_is parse_grade (SessionFilter.grade q) (ZoomSession.grade session)
  && field_is parse_program (SessionFilter.program q) (ZoomSession.program session)
  && field_is parse_status (SessionFilter.status q) (ZoomSession.status session)
  && (if decide (SessionFilter.upcoming q = Some "true")
      then bool_decide (now ≤ ZoomSession.scheduledTime session) else true).

(** [GET /api/zoom/sessions]: the matching sessions (sorted by scheduled
    time on the way out). *)
Definition listSessions (now : nat) (u : User.t) (q : SessionFilter.t)
    (st : Store) : list (nat * ZoomSession.t) :=
  find (λ _ s, sessionQuery now u q s) (sessions st).

Module SessionBody.
Record t := {
  title : option string;
  description : option string;
  course : option string;
  grade : option string;
  program : option string;
  scheduledTime : option nat;
  duration : option Z
}.
End SessionBody.

(** [isInt({ min: 15, max: 480 })]. *)
Definition valid_duration (o : option Z) : option Z :=
  match o with
  | Some n => if bool_decide (15 ≤ n ≤ 480)%Z then Some n else None
  | None => None
  end.

Definition session_create_errors (b : SessionBody.t) : list string :=
  check (nonempty (trim (default "" (SessionBody.title b)))) "Session title is required"
  ++ check (SessionBody.course b ≫= parse_course) "Invalid course"
  ++ check (SessionBody.grade b ≫= parse_grade) "Invalid grade"
  ++ check (SessionBody.program b ≫= parse_program) "Invalid program"
  ++ check (SessionBody.scheduledTime b) "Valid scheduled time is required"
  ++ check (valid_duration (SessionBody.duration b))
           "Duration must be between 15 and 480 minutes".

(** [POST /api/zoom/sessions].  [scheduledTime] is the date that the
    ISO 8601 string denotes and [duration] the integer of the field.
    [provider] is the meeting id that the conferencing provider answers
    with, [None] when the call fails; [demo] is the placeholder id that
    the handler then builds from the clock.  The schema requires a
    meeting id, so [save()] rejects an empty one. *)
Definition createSession (newId : nat) (provider : option string) (demo : string)
    (u : User.t) (b : SessionBody.t) (st : Store)
    : Reply (nat * ZoomSession.t) * Store :=
  match nonempty (trim (default "" (SessionBody.title b))),
        SessionBody.course b ≫= parse_course,
        SessionBody.grade b ≫= parse_grade,
        SessionBody.program b ≫= parse_program,
        SessionBody.scheduledTime b,
        valid_duration (SessionBody.duration b) with
  | Some title, Some course, Some grade, Some program, Some scheduledTime,
    Some duration =>
      let zoomMeetingId := default demo provider in
      if decide (zoomMeetingId = "") then (server_error, st)
      else
        let session :=
          {| ZoomSession.title := trim title;
             ZoomSession.description := trim <$> SessionBody.description b;
             ZoomSession.course := course;
             ZoomSession.grade := grade;
             ZoomSession.program := program;
             ZoomSession.teacher := User._id u;
             ZoomSession.zoomMeetingId := zoomMeetingId;
             ZoomSession.scheduledTime := scheduledTime;
             ZoomSession.duration := duration;
             ZoomSession.status := scheduled;
             ZoomSession.attendees := [];
             ZoomSession.materials := [] |} in
        (Sent 201 (newId, session),
         set_sessions (<[newId := session]> (sessions st)) st)
  | _, _, _, _, _, _ => (Invalid (session_create_errors b), st)
  end.

(** [DELETE /api/zoom/sessions/:id].  [providerFails] says whether the
    DELETE sent to the provider is rejected; the rejection is logged and
    the record is deleted either way. *)
Definition deleteSession (providerFails : bool) (u : User.t) (id : nat)
    (st : Store) : Reply unit * Store * list string :=
  match sessions st !! id with
  | Some session =>
      if decide (ZoomSession.teacher session = User._id u) then
        (Message 200 "Session deleted successfully",
         set_sessions (delete id (sessions st)) st,
         if providerFails then ["Zoom delete error:"] else [])
      else (Message 404 "Session not found", st, [])
  | None => (Message 404 "Session not found", st, [])
  end.

(** What the join handler sends back about the session. *)
Record SessionInfo := {
  info_title : string;
  info_description : option string;
  info_scheduledTime : nat;
  info_duration : Z
}.

Definition set_attendees (l : list ZoomSession.Attendee) (s : ZoomSession.t)
    : ZoomSession.t :=
  {| ZoomSession.title := ZoomSession.title s;
     ZoomSession.description := ZoomSession.description s;
     ZoomSession.course := ZoomSession.course s;
     ZoomSession.grade := ZoomSession.grade s;
     ZoomSession.program := ZoomSession.program s;
     ZoomSession.teacher := ZoomSession.teacher s;
     ZoomSession.zoomMeetingId := ZoomSession.zoomMeetingId s;
     ZoomSession.scheduledTime := ZoomSession.scheduledTime s;
     ZoomSession.duration := ZoomSession.duration s;
     ZoomSession.status := ZoomSession.status s;
     ZoomSession.attendees := l;
     ZoomSession.materials := ZoomSession.materials s |}.

(** [POST /api/zoom/sessions/:id/join]; [now] is [new Date()].  Only a
    student is checked for eligibility; whoever passes is recorded, once.
    Recording is a [save()], which checks the required paths of the
    document again: a session without a title or a meeting id is not
    saved and the handler's [catch] answers 500. *)
Definition joinSession (now : nat) (u : User.t) (id : nat) (st : Store)
    : Reply SessionInfo * Store :=
  match sessions st !! id with
  | None => (Message 404 "Session not found", st)
  | Some session =>
      if bool_decide (User.role u = student) && negb (canJoin u session) then
        (Message 403 "You are not eligible for this session", st)
      else
        let existingAttendee :=
          list_find (λ a, ZoomSession.student a = User._id u)
                    (ZoomSession.attendees session) in
        let sessionInfo :=
          {| info_title := ZoomSession.title session;
             info_description := ZoomSession.description session;
             info_scheduledTime := ZoomSession.scheduledTime session;
             info_duration := ZoomSession.duration session |} in
        match existingAttendee with
        | None =>
            let attendees :=
              ZoomSession.attendees session
              ++ [{| ZoomSession.student := User._id u;
                     ZoomSession.joinedAt := now |}] in
            if decide (ZoomSession.title session = ""
                       ∨ ZoomSession.zoomMeetingId session = "")
            then (server_error, st)
            else
              (Sent 200 sessionInfo,
               set_sessions (<[id := set_attendees attendees session]> (sessions st))
                            st)
        | Some _ => (Sent 200 sessionInfo, st)
        end
  end.

(** ** Materials: analytics overview (routes/materials) *)

Module AnalyticsFilter.
Record t := {
  course : option string;
  grade : option string;
  program : option string
}.
End AnalyticsFilter.

(** [{ owner: req.user._id }] and the fields of the request. *)
Definition analyticsQuery (u : User.t) (q : AnalyticsFilter.t) (m : Material.t)
    : bool :=
  bool_decide (Material.owner m = User._id u)
  && field_is parse_course (AnalyticsFilter.course q) (Material.course m)
  && field_is parse_grade (AnalyticsFilter.grade q) (Material.grade m)
  && field_is parse_program (AnalyticsFilter.program q) (Material.program m).

(** [{ $group: { _id: key, count: { $sum: 1 } } }]: one more for the
    group of [k], a new group when there is none yet. *)
Fixpoint bump {K} `{EqDecision K} (k : K) (groups : list (K * nat))
    : list (K * nat) :=
  match groups with
  | [] => [(k, 1)]
  | (k', n) :: groups' =>
      if decide (k = k') then (k', S n) :: groups'
      else (k', n) :: bump k groups'
  end.

Definition groupCount {A K} `{EqDecision K} (key : A → K) (docs : list A)
    : list (K * nat) :=
  foldl (λ groups d, bump (key d) groups) [] docs.

(** The order of [.sort({ count: -1 })]: larger counts first. *)
Definition more_counted (count : Material.t → nat)
    : relation (nat * Material.t) :=
  λ a b, count b.2 ≤ count a.2.

#[global] Instance more_counted_dec count : RelDecision (more_counted count).
Proof. intros a b. unfold more_counted. apply _. Defined.

(** [.sort({ count: -1 }).limit(10)]. *)
Definition top10 (count : Material.t → nat) (docs : list (nat * Material.t))
    : list (nat * Material.t) :=
  take 10 (merge_sort (more_counted count) docs).

Record Analytics := {
  totalMaterials : nat;
  totalViews : nat;
  totalDownloads : nat;
  materialsByType : list (MaterialType * nat);
  materialsByCourse : list (Course * nat);
  mostViewed : list (nat * Material.t);
  mostDownloaded : list (nat * Material.t)
}.

(** [GET /api/materials/analytics/overview] (the [select] that trims the
    listed documents to five fields is left out). *)
Definition materialsAnalytics (u : User.t) (q : AnalyticsFilter.t) (st : Store)
    : Analytics :=
  let docs := find (λ _ m, analyticsQuery u q m) (materials st) in
  {| totalMaterials := length docs;
     totalViews := sum_list (Material.viewCount <$> docs.*2);
     totalDownloads := sum_list (Material.downloadCount <$> docs.*2);
     materialsByType := groupCount Material.type docs.*2;
     materialsByCourse := groupCount Material.course docs.*2;
     mostViewed := top10 Material.viewCount docs;
     mostDownloaded := top10 Material.downloadCount docs |}.

(** ** Student progress ([GET /api/students/:id/progress]) *)

(** A JavaScript number is a binary64 floating-point number; its
    arithmetic is the one that [SpecFloat] specifies for 53 bits of
    precision, rounding to nearest with ties to even. *)
Module Number.
Definition t : Type := SpecFloat.spec_float.

(** A count as a number. *)
Definition of_nat (n : nat) : t :=
  SpecFloat.binary_normalize 53 1024 (Z.of_nat n) 0 false.

Definition div : t → t → t := SpecFloat.SFdiv 53 1024.
Definition mul : t → t → t := SpecFloat.SFmul 53 1024.

(** [Math.round]: the integer nearest to the number, a half rounding
    towards +∞, computed exactly from mantissa and exponent.  [None]
    stands for NaN and the infinities, which [Math.round] hands back. *)
Definition round (x : t) : option Z :=
  match x with
  | SpecFloat.S754_zero _ => Some 0%Z
  | SpecFloat.S754_finite s m e =>
      let v := if s then Z.neg m else Z.pos m in
      Some (match e with
            | Z.neg k => (2 * v + 2 ^ Z.pos k) `div` 2 ^ (Z.pos k + 1)
            | _ => v * 2 ^ e
            end)%Z
  | _ => None
  end.
End Number.

(** The two queries of [GET /api/students/:id/progress] on the sessions;
    [student] is the user that [User.findOne] has loaded and [now] is
    [new Date()]. *)
Definition sessionsAttended (student : User.t) (st : Store)
    : list (nat * ZoomSession.t) :=
  find (λ _ s, bool_decide (User._id student
                              ∈ ZoomSession.student <$> ZoomSession.attendees s))
       (sessions st).

Definition totalSessions (now : nat) (student : User.t) (st : Store) : nat :=
  length (find (λ _ s, canJoin student s
                       && bool_decide (ZoomSession.scheduledTime s ≤ now))
               (sessions st)).

(** [totalSessions > 0 ? (sessionsAttended.length / totalSessions) * 100
    : 0]. *)
Definition percentage (attended total : nat) : Number.t :=
  if decide (0 < total) then
    Number.mul (Number.div (Number.of_nat attended) (Number.of_nat total))
               (Number.of_nat 100)
  else Number.of_nat 0.

(** [attendanceRate: Math.round(attendanceRate)] of the reply. *)
Definition attendanceRate (now : nat) (student : User.t) (st : Store)
    : option Z :=
  Number.round (percentage (length (sessionsAttended student st))
                           (totalSessions now student st)).





(** ** All the requests *)

(** One request served by any of the handlers. *)
Inductive serve : Store → Store → Prop :=
  | serve_step st st' :
      step st st' → serve st st'
  | serve_updateMaterial u id b st :
      serve st (updateMaterial u id b st).2
  | serve_deleteMaterial unlinkFails u id st :
      serve st (deleteMaterial unlinkFails u id st).1.2
  | serve_uploadMaterial newId u id b file st :
      materials st !! newId = None →
      serve st (uploadMaterial newId u id b file st).2
  | serve_createSession newId provider demo u b st :
      sessions st !! newId = None →
      serve st (createSession newId provider demo u b st).2
  | serve_deleteSession providerFails u id st :
      serve st (deleteSession providerFails u id st).1.2
  | serve_joinSession now u id st :
      serve st (joinSession now u id st).2.

(** The stores that the handlers build from empty collections when the
    requests are served one after the other.  (Two handlers that overlap
    interleave at their awaits, as [system_step] has it for the
    counters; such runs are not runs of [serve].) *)
Definition served (st : Store) : Prop :=
  ∃ d, rtc serve (empty_store d) st.

(** A link has a URL and no file; any other material has a file and no
    URL. *)
Definition file_xor_url (m : Material.t) : Prop :=
  if decide (Material.type m = link) then
    is_Some (truthy (Material.url m)) ∧ Material.fileName m = None
    ∧ Material.filePath m = None ∧ Material.fileSize m = None
  else
    Material.url m = None ∧ is_Some (truthy (Material.fileName m))
    ∧ is_Some (truthy (Material.filePath m)).

(** The material sits in a folder of the collection that belongs to the
    material's owner. *)
Definition filed (fs : gmap nat Folder.t) (m : Material.t) : Prop :=
  ∃ f folder, Material.folder m = Some f ∧ fs !! f = Some folder
              ∧ Folder.owner folder = Material.owner m.

(** A store built by two requests: a session is created, and a student
    joins it. *)
Definition sessionBody : SessionBody.t :=
  {| SessionBody.title := Some "Enzymes live"; SessionBody.description := None;
     SessionBody.course := Some "Biochemistry"; SessionBody.grade := Some "12";
     SessionBody.program := Some "Both"; SessionBody.scheduledTime := Some 5000;
     SessionBody.duration := Some 60%Z |}.

Definition sessionStore : Store :=
  (createSession 30 None "demo_3000" drSalma sessionBody (empty_store ∅)).2.
Definition joinedStore : Store := (joinSession 4000 sampleStudent 30 sessionStore).2.

(** The SQLite table never holds an id above the last one given out. *)
Definition sql_ids_bounded (db : Sql.Db) : Prop :=
  map_Forall (λ k _, (k ≤ Sql.lastID db)%Z) (Sql.materials db).

#[global] Instance sql_ids_bounded_dec db : Decision (sql_ids_bounded db).
Proof. unfold sql_ids_bounded. apply _. Defined.

Definition syllabus : Material.t :=
  sampleMaterial "Syllabus" (Some 10) (Some "/uploads/1/b.pdf").

Definition retitle : MaterialPatch.t :=
  {| MaterialPatch.title := Some " Syllabus 2026 ";
     MaterialPatch.description := None; MaterialPatch.url := Some "https://x";
     MaterialPatch.tags := None; MaterialPatch.dueDate := None;
     MaterialPatch.priority := Some "high"; MaterialPatch.isPublic := None |}.

(** A link uploaded into a folder, with or without its URL. *)
Definition linkUpload (url : option string) : UploadBody.t :=
  {| UploadBody.title := Some "Khan Academy: enzymes";
     UploadBody.description := None; UploadBody.type := Some "link";
     UploadBody.url := url; UploadBody.tags := Some "video, enzymes";
     UploadBody.dueDate := None; UploadBody.priority := None |}.

(** What the schema and the handlers together keep true of a stored
    material. *)
Definition well_stored (fs : gmap nat Folder.t) (m : Material.t) : Prop :=
  Material.validate m = true ∧ file_xor_url m ∧ filed fs m.

(** The link that [POST /api/materials] stores for [linkBody] with a
    URL. *)
Definition krebsLink : Material.t :=
  with_url "https://x"
    (materialData drSalma (linkBody (Some "https://x")) "Krebs cycle animation"
       link CellRespiration G11 ACT medium).

(** The session of [joinedStore], before and after the student joined. *)
Definition liveSession (attendees : list ZoomSession.Attendee) : ZoomSession.t :=
  {| ZoomSession.title := "Enzymes live"; ZoomSession.description := None;
     ZoomSession.course := Biochemistry; ZoomSession.grade := G12;
     ZoomSession.program := Both; ZoomSession.teacher := 1;
     ZoomSession.zoomMeetingId := "demo_3000"; ZoomSession.scheduledTime := 5000;
     ZoomSession.duration := 60; ZoomSession.status := scheduled;
     ZoomSession.attendees := attendees; ZoomSession.materials := [] |}.

(** A listing request without parameters. *)
Definition allSessions : SessionFilter.t :=
  {| SessionFilter.course := None; SessionFilter.grade := None;
     SessionFilter.program := None; SessionFilter.status := None;
     SessionFilter.upcoming := None |}.

(** What every [save()] requires of a session. *)
Definition session_sound (s : ZoomSession.t) : Prop :=
  ZoomSession.title s ≠ "" ∧ ZoomSession.zoomMeetingId s ≠ "".

(** [GET /api/zoom/sessions/:id/attendees]: the attendance list, for the
    session's teacher. *)
Definition getAttendees (u : User.t) (id : nat) (st : Store)
    : Reply (list ZoomSession.Attendee) :=
  match sessions st !! id with
  | Some session =>
      if decide (ZoomSession.teacher session = User._id u) then
        Sent 200 (ZoomSession.attendees session)
      else Message 404 "Session not found"
  | None => Message 404 "Session not found"
  end.

(** * Properties *)

(** ** Strings *)

Lemma rtrim_idemp s : rtrim (rtrim s) = rtrim s.
Proof.
  induction s as [|c s IH]; [done|]. simpl.
  destruct (rtrim s) as [|c' r] eqn:Hr.
  - destruct (Ascii.is_space c) eqn:Hc; [done|]. simpl. by rewrite Hc.
  - remember (String c' r) as t eqn:Ht.
    simpl. rewrite IH. by subst t.
Qed.

Lemma ltrim_rtrim s : ltrim (rtrim (ltrim s)) = rtrim (ltrim s).
Proof.
  induction s as [|c s IH]; [done|]. simpl.
  destruct (Ascii.is_space c) eqn:Hc; [done|]. simpl.
  destruct (rtrim s); simpl; rewrite ?Hc; simpl; by rewrite ?Hc.
Qed.

Lemma trim_idemp s : trim (trim s) = trim s.
Proof. unfold trim. by rewrite ltrim_rtrim, rtrim_idemp. Qed.

Example trim_sample : trim "  Week 1 	" = "Week 1".
Proof. reflexivity. Qed.

(** ** Collections *)

Lemma elem_of_find {A} (P : nat → A → bool) (c : gmap nat A) i x :
  (i, x) ∈ find P c ↔ c !! i = Some x ∧ P i x = true.
Proof.
  unfold find. rewrite elem_of_map_to_list, map_lookup_filter_Some. done.
Qed.

Lemma findOne_None {A} (P : nat → A → bool) (c : gmap nat A) :
  (∀ i x, c !! i = Some x → P i x = false) → findOne P c = None.
Proof.
  intros H. unfold findOne. destruct (find P c) as [|[i x] l] eqn:Hf; [done|].
  assert ((i, x) ∈ find P c) as Hin by (rewrite Hf; left).
  apply elem_of_find in Hin as [Hi HP]. rewrite (H i x Hi) in HP. done.
Qed.

(** ** The folder tree *)

Lemma in_subtree_trans fs a b c :
  in_subtree fs a b → in_subtree fs b c → in_subtree fs a c.
Proof.
  intros Hab Hbc. induction Hbc; [done|]. by eapply subtree_child.
Qed.

Lemma in_subtree_weaken fs fs' a d :
  fs' ⊆ fs → in_subtree fs' a d → in_subtree fs a d.
Proof.
  intros Hsub H. induction H; [constructor|].
  eapply subtree_child; [|done..]. by eapply lookup_weaken.
Qed.

Lemma in_subtree_inv fs a d :
  in_subtree fs a d → d = a ∨ is_Some (fs !! d).
Proof. destruct 1; eauto. Qed.

Lemma height_le_weaken fs fs' f n :
  fs' ⊆ fs → height_le fs f n → height_le fs' f n.
Proof.
  intros Hsub H. induction H as [f n _ IH]. constructor.
  intros c rec Hc Hp. eapply IH; [|done]. by eapply lookup_weaken.
Qed.

Lemma height_le_succ fs f n : height_le fs f n → height_le fs f (S n).
Proof.
  induction 1 as [f n _ IH]. constructor. eauto.
Qed.

(** ** Recursive deletion *)

Lemma precedes_nil e1 e2 : precedes [] e1 e2.
Proof. intros t1 t2 H. by destruct t1. Qed.

Lemma precedes_absent tr e1 e2 : e2 ∉ tr → precedes tr e1 e2.
Proof.
  intros Hnot t1 t2 ->. destruct Hnot. apply elem_of_app. right. left.
Qed.

Lemma precedes_last (tr : list Event) e1 e2 :
  e2 ∉ tr → e1 ≠ e2 → precedes (tr ++ [e1; e2]) e1 e2.
Proof.
  intros Hout Hne. induction tr as [|x tr IH]; intros t1 t2 Heq.
  - destruct t1 as [|y t1]; simplify_eq/=. left.
  - destruct t1 as [|y t1]; simplify_eq/=.
    + exfalso. apply Hout. left.
    + right. eapply IH; [|done]. intros Hin. apply Hout. by right.
Qed.

Lemma precedes_app tr1 tr2 e1 e2 :
  precedes tr1 e1 e2 → e1 ∈ tr1 ∨ precedes tr2 e1 e2 →
  precedes (tr1 ++ tr2) e1 e2.
Proof.
  intros H1 H2 t1 t2 Heq.
  apply app_eq_inv in Heq as [(k & -> & Hk)|(k & -> & ->)].
  - destruct k as [|e k]; simpl in Hk.
    + rewrite (right_id_L [] (++)) in H2. destruct H2 as [?|H2]; [done|].
      exfalso. apply (not_elem_of_nil e1), (H2 [] t2). by rewrite Hk.
    + simplify_eq. by apply (H1 t1 k).
  - apply elem_of_app. destruct H2 as [?|H2]; [by left|].
    right. by apply (H2 k t2).
Qed.

Lemma cascade_refl roots st : cascade roots st st [].
Proof.
  split; try done.
  - intros d [x Hx] Hn. congruence.
  - intros d [x Hx] Hn. congruence.
  - intros m mat Hm Hn. congruence.
  - intros. apply precedes_nil.
  - intros. apply precedes_nil.
  - intros. apply precedes_nil.
Qed.

Lemma cascade_trans r1 r2 st st1 st2 tr1 tr2 :
  cascade r1 st st1 tr1 → cascade r2 st1 st2 tr2 →
  cascade (r1 ++ r2) st st2 (tr1 ++ tr2).
Proof.
  intros H1 H2. split.
  - etrans; [apply H2 | apply H1].
  - etrans; [apply H2 | apply H1].
  - etrans; [apply H2 | apply H1].
  - intros d rec p Hd Hp Hin.
    eapply (cascade_orphans _ _ _ _ H2); [done..|].
    eapply (cascade_orphans _ _ _ _ H1); [|done..].
    eapply lookup_weaken; [done | apply H2].
  - intros m mat g Hm Hg Hin.
    eapply (cascade_strays _ _ _ _ H2); [done..|].
    eapply (cascade_strays _ _ _ _ H1); [|done..].
    eapply lookup_weaken; [done | apply H2].
  - intros d Hin Hn. rewrite !elem_of_app.
    destruct (folders st1 !! d) eqn:Hd1.
    + destruct (cascade_logged _ _ _ _ H2 d); eauto.
    + destruct (cascade_logged _ _ _ _ H1 d); eauto.
  - intros d Hin Hn. setoid_rewrite elem_of_app.
    destruct (folders st1 !! d) eqn:Hd1.
    + destruct (cascade_confined _ _ _ _ H2 d) as (c & Hc & Hsub); eauto.
      exists c. split; [by right|].
      eapply in_subtree_weaken; [apply H1 | done].
    + destruct (cascade_confined _ _ _ _ H1 d) as (c & Hc & Hsub); eauto.
  - intros m mat Hm Hn. setoid_rewrite elem_of_app.
    destruct (materials st1 !! m) as [mat'|] eqn:Hm1.
    + assert (mat' = mat) as ->.
      { pose proof (lookup_weaken _ _ _ _ Hm1 (cascade_materials _ _ _ _ H1)).
        congruence. }
      destruct (cascade_confined_materials _ _ _ _ H2 m mat)
        as (g & c & Hg & Hc & Hsub); [done..|].
      exists g, c. split_and!; [done | by right |].
      eapply in_subtree_weaken; [apply H1 | done].
    + destruct (cascade_confined_materials _ _ _ _ H1 m mat)
        as (g & c & Hg & Hc & Hsub); [done..|].
      exists g, c. eauto.
  - intros c rec d Hc Hp. apply precedes_app.
    + by eapply (cascade_order _ _ _ _ H1).
    + destruct (folders st1 !! c) as [rec'|] eqn:Hc1.
      * right. eapply (cascade_order _ _ _ _ H2); [done|].
        pose proof (lookup_weaken _ _ _ _ Hc1 (cascade_folders _ _ _ _ H1)).
        congruence.
      * left. by destruct (cascade_logged _ _ _ _ H1 c).
  - intros c rec d Hc Hp. apply precedes_app.
    + by eapply (cascade_children_first _ _ _ _ H1).
    + destruct (folders st1 !! c) as [rec'|] eqn:Hc1.
      * right. eapply (cascade_children_first _ _ _ _ H2); [done|].
        pose proof (lookup_weaken _ _ _ _ Hc1 (cascade_folders _ _ _ _ H1)).
        congruence.
      * left. by destruct (cascade_logged _ _ _ _ H1 c).
  - intros d. apply precedes_app.
    + apply (cascade_materials_first _ _ _ _ H1).
    + right. apply (cascade_materials_first _ _ _ _ H2).
Qed.

Lemma cascade_gone roots st st' tr x :
  cascade roots st st' tr → folders st !! x = None → folders st' !! x = None.
Proof.
  intros H Hx. destruct (folders st' !! x) eqn:Hx'; [|done].
  pose proof (lookup_weaken _ _ _ _ Hx' (cascade_folders _ _ _ _ H)). congruence.
Qed.

Lemma forEach_cascade (body : nat → Store → option (Store * list Event)) l :
  (∀ x st st' tr, body x st = Some (st', tr) →
     cascade [x] st st' tr ∧ folders st' !! x = None) →
  ∀ st st' tr, forEach body l st = Some (st', tr) →
  cascade l st st' tr ∧ ∀ x, x ∈ l → folders st' !! x = None.
Proof.
  intros Hbody. induction l as [|x l IH]; intros st st' tr H; simpl in H.
  - simplify_eq. split; [apply cascade_refl | by intros x ?%elem_of_nil].
  - destruct (body x st) as [[st1 tr1]|] eqn:Hx; simplify_eq/=.
    destruct (forEach body l st1) as [[st2 tr2]|] eqn:Hl; simplify_eq/=.
    destruct (Hbody _ _ _ _ Hx) as [Hc1 Hg1].
    destruct (IH _ _ _ Hl) as [Hc2 Hg2].
    split; [apply (cascade_trans [x] l _ st1); done|].
    intros y [->|Hy]%elem_of_cons; [|by auto].
    by eapply cascade_gone.
Qed.

Lemma unlinkAll_log uf ms d d' tr :
  unlinkAll uf ms d = (d', tr) →
  d' ⊆ d ∧ ∀ e, e ∈ tr → ∃ p, e = Unlinked p ∨ e = UnlinkFailed p.
Proof.
  revert d d' tr. induction ms as [|[i m] ms IH]; intros d d' tr H; simpl in H.
  - simplify_eq. split; [done | by intros e ?%elem_of_nil].
  - destruct (truthy (Material.filePath m)) as [p|]; [|by eauto].
    destruct (unlink uf p d) as [d1|] eqn:Hu.
    + destruct (unlinkAll uf ms d1) as [d2 tr2] eqn:Hr; simplify_eq.
      destruct (IH _ _ _ Hr) as [Hd Htr]. split.
      * unfold unlink in Hu. repeat case_decide; simplify_eq.
        destruct (uf p); simplify_eq.
        etrans; [exact Hd|]. by apply subseteq_difference_l.
      * intros e [->|He]%elem_of_cons; eauto.
    + destruct (unlinkAll uf ms d) as [d2 tr2] eqn:Hr; simplify_eq.
      destruct (IH _ _ _ Hr) as [Hd Htr]. split; [done|].
      intros e [->|He]%elem_of_cons; eauto.
Qed.

Lemma deleteFolder_spec uf fuel : ∀ f st st' tr,
  deleteFolder uf fuel f st = Some (st', tr) →
  cascade [f] st st' tr
  ∧ folders st' !! f = None
  ∧ (∀ m mat, materials st' !! m = Some mat → Material.folder mat ≠ Some f)
  ∧ (∀ c rec, folders st !! c = Some rec → Folder.parentFolder rec = Some f →
              folders st' !! c = None)
  ∧ ∃ tr0, tr = tr0 ++ [FolderDeleted f] ∧ MaterialsDeleted f ∈ tr0
      ∧ ∀ d, d ≠ f → is_Some (folders st !! d) → folders st' !! d = None →
             FolderDeleted d ∈ tr0 ∧ MaterialsDeleted d ∈ tr0.
Proof.
  induction fuel as [|fuel IH]; intros f st st' tr H; [done|].
  simpl in H.
  set (cs := (find (λ _ g, bool_decide (Folder.parentFolder g = Some f))
                   (folders st)).*1) in *.
  destruct (forEach (deleteFolder uf fuel) cs st) as [[st1 tr1]|] eqn:Hloop;
    simplify_eq/=.
  destruct (unlinkAll uf _ (disk st1)) as [dk tr2] eqn:Hu. simplify_eq/=.
  destruct (forEach_cascade (deleteFolder uf fuel) cs) with (1 := λ x a b c Hx,
    let H := IH x a b c Hx in conj (proj1 H) (proj1 (proj2 H))) (2 := Hloop)
    as [Hc Hgone].
  assert (Hchild : ∀ c rec, folders st !! c = Some rec →
            Folder.parentFolder rec = Some f → c ∈ cs).
  { intros c rec Hcr Hp. unfold cs. apply list_elem_of_fmap.
    exists (c, rec). split; [done|]. apply elem_of_find.
    split; [done|]. by apply bool_decide_eq_true. }
  assert (Hcs : ∀ c, c ∈ cs → in_subtree (folders st) f c).
  { intros c Hin. apply list_elem_of_fmap in Hin as ([c' rec] & -> & Hin).
    apply elem_of_find in Hin as [Hcr Hp]. apply bool_decide_eq_true in Hp.
    eapply subtree_child; [done..|constructor]. }
  split_and!.
  - split; simpl.
    + etrans; [apply delete_subseteq | apply Hc].
    + etrans; [apply map_filter_subseteq | apply Hc].
    + apply Hc.
    + intros d rec p Hd Hp Hin.
      apply lookup_delete_Some in Hd as [Hne Hd].
      destruct (decide (p = f)) as [->|Hpf].
      * pose proof (lookup_weaken _ _ _ _ Hd (cascade_folders _ _ _ _ Hc)) as Hd0.
        rewrite (Hgone d) in Hd; [done|]. by eapply Hchild.
      * rewrite lookup_delete_ne by done.
        by eapply (cascade_orphans _ _ _ _ Hc).
    + intros m mat g Hm Hg Hin.
      apply map_lookup_filter_Some in Hm as [Hm Hne]. simpl in Hne.
      rewrite lookup_delete_ne by congruence.
      by eapply (cascade_strays _ _ _ _ Hc).
    + intros d Hin Hn. rewrite !elem_of_app, !elem_of_cons.
      destruct (decide (d = f)) as [->|Hne]; [by auto 10|].
      rewrite lookup_delete_ne in Hn by done.
      destruct (cascade_logged _ _ _ _ Hc d); auto.
    + intros d Hin Hn. exists f. split; [left|].
      destruct (decide (d = f)) as [->|Hne]; [constructor|].
      rewrite lookup_delete_ne in Hn by done.
      destruct (cascade_confined _ _ _ _ Hc d) as (c & Hcin & Hsub); [done..|].
      eapply in_subtree_trans; [by apply Hcs | done].
    + intros m mat Hm Hn.
      destruct (materials st1 !! m) as [mat'|] eqn:Hm1.
      * assert (mat' = mat) as ->.
        { pose proof (lookup_weaken _ _ _ _ Hm1 (cascade_materials _ _ _ _ Hc)).
          congruence. }
        exists f, f. split_and!; [|left|constructor].
        destruct (decide (Material.folder mat = Some f)) as [|Hne]; [done|].
        assert (filter (λ kv, Material.folder kv.2 ≠ Some f) (materials st1) !! m
                = Some mat) by (by apply map_lookup_filter_Some).
        congruence.
      * destruct (cascade_confined_materials _ _ _ _ Hc m mat)
          as (g & c & Hg & Hcin & Hsub); [done..|].
        exists g, f. split_and!; [done|left|].
        eapply in_subtree_trans; [by apply Hcs | done].
    + intros c rec d Hcr Hp. apply precedes_app.
      * by eapply (cascade_order _ _ _ _ Hc).
      * destruct (decide (d = f)) as [->|Hne].
        -- left. destruct (cascade_logged _ _ _ _ Hc c); [by eauto | |done].
           apply Hgone. by eapply Hchild.
        -- right. apply precedes_absent.
           rewrite elem_of_app, !elem_of_cons, elem_of_nil.
           intros [Hin|[?|[?|[]]]]; [|done|congruence].
           destruct (unlinkAll_log _ _ _ _ _ Hu) as [_ Hlog].
           by destruct (Hlog _ Hin) as [q [?|?]].
    + intros c rec d Hcr Hp. apply precedes_app.
      * by eapply (cascade_children_first _ _ _ _ Hc).
      * destruct (decide (d = f)) as [->|Hne].
        -- left. destruct (cascade_logged _ _ _ _ Hc c); [by eauto | |done].
           apply Hgone. by eapply Hchild.
        -- right. apply precedes_absent.
           rewrite elem_of_app, !elem_of_cons, elem_of_nil.
           intros [Hin|[?|[?|[]]]]; [|congruence|done].
           destruct (unlinkAll_log _ _ _ _ _ Hu) as [_ Hlog].
           by destruct (Hlog _ Hin) as [q [?|?]].
    + intros d. apply precedes_app.
      * apply (cascade_materials_first _ _ _ _ Hc).
      * right. destruct (unlinkAll_log _ _ _ _ _ Hu) as [_ Hlog].
        destruct (decide (d = f)) as [->|Hne].
        -- apply precedes_last; [|done].
           intros Hin. by destruct (Hlog _ Hin) as [q [?|?]].
        -- apply precedes_absent.
           rewrite elem_of_app, !elem_of_cons, elem_of_nil.
           intros [Hin|[?|[?|[]]]]; [|done|congruence].
           by destruct (Hlog _ Hin) as [q [?|?]].
  - simpl. apply lookup_delete_eq.
  - simpl. intros m mat [Hm Hne]%map_lookup_filter_Some. done.
  - simpl. intros c rec Hcr Hp.
    destruct (decide (c = f)) as [->|Hne]; [apply lookup_delete_eq|].
    rewrite lookup_delete_ne by done. apply Hgone. by eapply Hchild.
  - exists (tr1 ++ tr2 ++ [MaterialsDeleted f]). split_and!.
    + by rewrite <-!(assoc_L (++)).
    + rewrite !elem_of_app, list_elem_of_singleton. auto.
    + simpl. intros d Hne Hin Hn. rewrite lookup_delete_ne in Hn by done.
      destruct (cascade_logged _ _ _ _ Hc d) as [? ?]; [done..|].
      rewrite !elem_of_app. auto.
Qed.

Lemma forEach_returns uf fuel st0 l :
  (∀ c st, folders st ⊆ folders st0 → c ∈ l →
           is_Some (deleteFolder uf fuel c st)) →
  ∀ st, folders st ⊆ folders st0 → is_Some (forEach (deleteFolder uf fuel) l st).
Proof.
  induction l as [|c l IH]; intros Hbody st Hsub; simpl; [done|].
  destruct (Hbody c st) as [[st1 tr1] Hc]; [done | left |].
  rewrite Hc. simpl.
  destruct (IH) with (st := st1) as [[st2 tr2] Hl].
  - intros c' st' ? ?. apply Hbody; [done | by right].
  - etrans; [|exact Hsub].
    apply (cascade_folders [c] st st1 tr1), (deleteFolder_spec _ _ _ _ _ _ Hc).
  - rewrite Hl. done.
Qed.

Lemma deleteFolder_returns uf fuel : ∀ f st,
  height_le (folders st) f fuel → is_Some (deleteFolder uf fuel f st).
Proof.
  induction fuel as [|fuel IH]; intros f st Hh; [inversion Hh|].
  inversion Hh as [f' n Hch]; subst. simpl.
  destruct (forEach_returns uf fuel st
    (find (λ _ g, bool_decide (Folder.parentFolder g = Some f)) (folders st)).*1)
    with (st := st) as [[st1 tr1] Hl]; [|done|].
  - intros c st' Hsub Hin. apply IH.
    apply list_elem_of_fmap in Hin as ([c' rec] & -> & Hin).
    apply elem_of_find in Hin as [Hcr Hp]. apply bool_decide_eq_true in Hp.
    eapply height_le_weaken; [done|]. by eapply Hch.
  - rewrite Hl. simpl. by destruct (unlinkAll _ _ _).
Qed.

Lemma height_leb_sound fs n : ∀ f, height_leb fs f n = true → height_le fs f n.
Proof.
  induction n as [|n IH]; intros f H; [done|]. simpl in H.
  constructor. intros c rec Hc Hp. apply IH.
  apply Is_true_true, forallb_True in H. rewrite Forall_forall in H.
  apply Is_true_true, (H c), list_elem_of_fmap. exists (c, rec).
  split; [done|]. apply elem_of_find. split; [done|].
  by apply bool_decide_eq_true.
Qed.

Lemma subtree_deleted roots st st' tr f :
  cascade roots st st' tr →
  folders st' !! f = None →
  (∀ c rec, folders st !! c = Some rec → Folder.parentFolder rec = Some f →
            folders st' !! c = None) →
  ∀ d, in_subtree (folders st) f d → folders st' !! d = None.
Proof.
  intros Hc Hf Hch d Hd. induction Hd as [|d rec p Hrec Hp Hsub IH]; [done|].
  destruct (decide (p = f)) as [->|Hne]; [by eapply Hch|].
  destruct (folders st' !! d) as [rec'|] eqn:Hd'; [|done].
  assert (rec' = rec) as ->.
  { pose proof (lookup_weaken _ _ _ _ Hd' (cascade_folders _ _ _ _ Hc)).
    congruence. }
  destruct (cascade_orphans _ _ _ _ Hc d rec p) as [x Hx]; [done..| |congruence].
  by destruct (in_subtree_inv _ _ _ Hsub).
Qed.

(** [DELETE /api/folders/:id] with a bound that covers the height of the
    tree below the folder. *)
Lemma deleteFolderRoute_bounded (unlinkFails : string → bool) fuel u id
    folder st :
  folders st !! id = Some folder →
  Folder.owner folder = User._id u →
  height_le (folders st) id fuel →
  ∃ st' tr0,
    deleteFolderRoute unlinkFails fuel u id st
      = Some (Message 200 "Folder deleted successfully", st',
              tr0 ++ [FolderDeleted id])
    ∧ (∀ d, in_subtree (folders st) id d → folders st' !! d = None)
    ∧ (∀ m mat g, materials st' !! m = Some mat →
         Material.folder mat = Some g → ¬ in_subtree (folders st) id g)
    ∧ (∀ d, in_subtree (folders st) id d → d ≠ id →
         FolderDeleted d ∈ tr0 ∧ MaterialsDeleted d ∈ tr0)
    ∧ MaterialsDeleted id ∈ tr0
    ∧ (∀ c rec d, folders st !! c = Some rec →
         Folder.parentFolder rec = Some d →
         precedes (tr0 ++ [FolderDeleted id]) (MaterialsDeleted c) (FolderDeleted c)
         ∧ precedes (tr0 ++ [FolderDeleted id]) (FolderDeleted c) (MaterialsDeleted d)
         ∧ precedes (tr0 ++ [FolderDeleted id]) (MaterialsDeleted d) (FolderDeleted d))
    ∧ (∀ d, ¬ in_subtree (folders st) id d →
         folders st' !! d = folders st !! d)
    ∧ (∀ m mat, materials st !! m = Some mat →
         (∀ g, Material.folder mat = Some g → ¬ in_subtree (folders st) id g) →
         materials st' !! m = Some mat).
Proof.
  intros Hid Hown Hh. unfold deleteFolderRoute. rewrite Hid.
  rewrite decide_True by done.
  destruct (deleteFolder_returns unlinkFails fuel id st Hh) as [[st' tr] Hdel].
  rewrite Hdel. simpl.
  destruct (deleteFolder_spec _ _ _ _ _ _ Hdel)
    as (Hc & Hgone & Hmat & Hch & tr0 & -> & Hm0 & Hlog).
  pose proof (subtree_deleted _ _ _ _ _ Hc Hgone Hch) as Hsub.
  exists st', tr0. split_and!; [done | done | | | done | | |].
  - intros m mat g Hm Hg Hin.
    destruct (in_subtree_inv _ _ _ Hin) as [->|Hsome]; [by eapply Hmat|].
    destruct (cascade_strays _ _ _ _ Hc m mat g) as [x Hx]; [done..|].
    rewrite (Hsub g Hin) in Hx. done.
  - intros d Hin Hne. apply Hlog; [done | | by apply Hsub].
    by destruct (in_subtree_inv _ _ _ Hin).
  - intros c rec d Hcr Hp. split_and!.
    + apply (cascade_materials_first _ _ _ _ Hc).
    + by eapply (cascade_children_first _ _ _ _ Hc).
    + apply (cascade_materials_first _ _ _ _ Hc).
  - intros d Hout.
    destruct (folders st !! d) as [rec|] eqn:Hd.
    + destruct (folders st' !! d) as [rec'|] eqn:Hd'.
      * pose proof (lookup_weaken _ _ _ _ Hd' (cascade_folders _ _ _ _ Hc)).
        congruence.
      * destruct (cascade_confined _ _ _ _ Hc d) as (c & Hcin & Hin); [done..|].
        apply list_elem_of_singleton in Hcin as ->. done.
    + by eapply cascade_gone.
  - intros m mat Hm Hout.
    destruct (materials st' !! m) as [mat'|] eqn:Hm'.
    + pose proof (lookup_weaken _ _ _ _ Hm' (cascade_materials _ _ _ _ Hc)).
      congruence.
    + destruct (cascade_confined_materials _ _ _ _ Hc m mat)
        as (g & c & Hg & Hcin & Hin); [done..|].
      apply list_elem_of_singleton in Hcin as ->. by destruct (Hout g).
Qed.

Lemma height_le_le fs f n m : n ≤ m → height_le fs f n → height_le fs f m.
Proof. induction 1; [done|]. intros. by apply height_le_succ, IHle. Qed.

Lemma ranked_lt rank fs c rec p :
  ranked rank fs → fs !! c = Some rec → Folder.parentFolder rec = Some p →
  rank p < rank c.
Proof.
  intros Hr Hc Hp. specialize (Hr c rec Hc). unfold parent_below in Hr.
  rewrite Hp in Hr. by apply bool_decide_eq_true in Hr.
Qed.

Lemma parents_exist_lookup fs c rec p :
  parents_exist fs → fs !! c = Some rec → Folder.parentFolder rec = Some p →
  is_Some (fs !! p).
Proof.
  intros He Hc Hp. specialize (He c rec Hc). unfold parent_exists in He.
  rewrite Hp in He. by apply bool_decide_eq_true in He.
Qed.

(** In a ranked collection the trees have bounded height. *)
Lemma ranked_height rank fs :
  ranked rank fs → ∃ n, ∀ f, height_le fs f n.
Proof.
  intros Hr.
  set (top := max_list (rank <$> (map_to_list fs).*1)).
  assert (Htop : ∀ c rec, fs !! c = Some rec → rank c ≤ top).
  { intros c rec Hc. apply max_list_elem_of_le, list_elem_of_fmap.
    exists c. split; [done|]. apply list_elem_of_fmap. exists (c, rec).
    split; [done|]. by apply elem_of_map_to_list. }
  assert (Hk : ∀ k f, top ≤ rank f + k → height_le fs f (S k)).
  { induction k as [|k IH]; intros f Hf; constructor; intros c rec Hc Hp.
    - pose proof (ranked_lt _ _ _ _ _ Hr Hc Hp). pose proof (Htop _ _ Hc). lia.
    - apply IH. pose proof (ranked_lt _ _ _ _ _ Hr Hc Hp). lia. }
  exists (S top). intros f. apply Hk. lia.
Qed.

(** C2.  In a store whose folders form a forest, [DELETE
    /api/folders/:id] on a folder of the caller returns, once the
    recursion is given room for the height of the forest: it answers 200
    and leaves no folder and no material of the subtree in the store,
    whichever unlinks fail and whatever is on the disk.  Every folder of
    the subtree has its materials deleted and then its record, and the
    folder's own record is deleted last.  A child is removed completely
    before its parent is touched: the child's materials go before the
    child's record, the child's record before the parent's materials,
    and the parent's materials before the parent's record.  Nothing
    outside the subtree is deleted. *)
Theorem deleteFolder_removes_subtree (unlinkFails : string → bool) u id folder st :
  forest (folders st) →
  folders st !! id = Some folder →
  Folder.owner folder = User._id u →
  ∃ n, ∀ fuel, n ≤ fuel →
  ∃ st' tr0,
    deleteFolderRoute unlinkFails fuel u id st
      = Some (Message 200 "Folder deleted successfully", st',
              tr0 ++ [FolderDeleted id])
    ∧ (∀ d, in_subtree (folders st) id d → folders st' !! d = None)
    ∧ (∀ m mat g, materials st' !! m = Some mat →
         Material.folder mat = Some g → ¬ in_subtree (folders st) id g)
    ∧ (∀ d, in_subtree (folders st) id d → d ≠ id →
         FolderDeleted d ∈ tr0 ∧ MaterialsDeleted d ∈ tr0)
    ∧ MaterialsDeleted id ∈ tr0
    ∧ (∀ c rec d, folders st !! c = Some rec →
         Folder.parentFolder rec = Some d →
         precedes (tr0 ++ [FolderDeleted id]) (MaterialsDeleted c) (FolderDeleted c)
         ∧ precedes (tr0 ++ [FolderDeleted id]) (FolderDeleted c) (MaterialsDeleted d)
         ∧ precedes (tr0 ++ [FolderDeleted id]) (MaterialsDeleted d) (FolderDeleted d))
    ∧ (∀ d, ¬ in_subtree (folders st) id d →
         folders st' !! d = folders st !! d)
    ∧ (∀ m mat, materials st !! m = Some mat →
         (∀ g, Material.folder mat = Some g → ¬ in_subtree (folders st) id g) →
         materials st' !! m = Some mat).
Proof.
  intros [_ [rank Hr]] Hid Hown.
  destruct (ranked_height rank (folders st) Hr) as [n Hn].
  exists n. intros fuel Hfuel.
  apply (deleteFolderRoute_bounded unlinkFails fuel u id folder st); [done..|].
  eapply height_le_le; [exact Hfuel | apply Hn].
Qed.

Lemma deleteFolder_removes_subtree_witness :
  ∃ n, ∀ fuel, n ≤ fuel →
  ∃ st' tr0,
    deleteFolderRoute (λ _, true) fuel drSalma 10 sampleStore
      = Some (Message 200 "Folder deleted successfully", st',
              tr0 ++ [FolderDeleted 10])
    ∧ (∀ d, in_subtree (folders sampleStore) 10 d → folders st' !! d = None)
    ∧ (∀ m mat g, materials st' !! m = Some mat →
         Material.folder mat = Some g → ¬ in_subtree (folders sampleStore) 10 g)
    ∧ (∀ d, in_subtree (folders sampleStore) 10 d → d ≠ 10 →
         FolderDeleted d ∈ tr0 ∧ MaterialsDeleted d ∈ tr0)
    ∧ MaterialsDeleted 10 ∈ tr0
    ∧ (∀ c rec d, folders sampleStore !! c = Some rec →
         Folder.parentFolder rec = Some d →
         precedes (tr0 ++ [FolderDeleted 10]) (MaterialsDeleted c) (FolderDeleted c)
         ∧ precedes (tr0 ++ [FolderDeleted 10]) (FolderDeleted c) (MaterialsDeleted d)
         ∧ precedes (tr0 ++ [FolderDeleted 10]) (MaterialsDeleted d) (FolderDeleted d))
    ∧ (∀ d, ¬ in_subtree (folders sampleStore) 10 d →
         folders st' !! d = folders sampleStore !! d)
    ∧ (∀ m mat, materials sampleStore !! m = Some mat →
         (∀ g, Material.folder mat = Some g →
               ¬ in_subtree (folders sampleStore) 10 g) →
         materials st' !! m = Some mat).
Proof.
  apply (deleteFolder_removes_subtree (λ _, true) drSalma 10
           (sampleFolder "Lecture Materials" None "Lecture Materials")).
  - split.
    + apply (bool_decide_unpack (parents_exist (folders sampleStore))).
      vm_compute. exact I.
    + exists (λ i, i).
      apply (bool_decide_unpack (ranked (λ i, i) (folders sampleStore))).
      vm_compute. exact I.
  - reflexivity.
  - reflexivity.
Defined.

(** The sample tree, every unlink failing: the three folders of the
    subtree and their two materials are gone, "Archive" and its materials
    are kept, children are deleted before parents. *)
Example delete_lecture_materials :
  ∃ st' tr,
    deleteFolderRoute (λ _, true) 3 drSalma 10 sampleStore
    = Some (Message 200 "Folder deleted successfully", st', tr)
    ∧ (map_to_list (folders st')).*1 ≡ₚ [13; 15]
    ∧ (map_to_list (materials st')).*1 ≡ₚ [22; 23]
    ∧ disk st' = disk sampleStore
    ∧ deleted_folders tr = [12; 11; 10].
Proof.
  eexists _, _. split; [vm_compute; reflexivity|].
  split_and!; [by vm_compute | | by vm_compute | by vm_compute].
  vm_compute. apply Permutation_refl || apply perm_swap.
Qed.

(** ** Folder paths *)

Lemma preSave_path fs this saved :
  Folder.preSave fs this = Some saved →
  Folder.name saved = Folder.name this
  ∧ Folder.parentFolder saved = Folder.parentFolder this
  ∧ match Folder.parentFolder this with
    | Some p => ∃ parent, fs !! p = Some parent
        ∧ Folder.path saved = Folder.path parent +:+ "/" +:+ Folder.name this
    | None => Folder.path saved = Folder.name this
    end.
Proof.
  unfold Folder.preSave. intros H.
  destruct (Folder.parentFolder this) as [p|] eqn:Hp.
  - destruct (fs !! p) as [parent|] eqn:Hparent; simplify_eq/=.
    rewrite Hp. eauto.
  - simplify_eq/=. by rewrite Hp.
Qed.

(** The hook alone would give "Week 2" under "Lecture Materials" its
    path; the creation never gets that far. *)
Example preSave_week2 :
  Folder.preSave (folders sampleStore) (sampleFolder "Week 2" (Some 10) "")
  = Some week2Folder.
Proof. vm_compute. reflexivity. Qed.

Lemma createFolder_cases newId u b st :
  createFolder newId u b st = (Invalid (folder_create_errors b), st)
  ∨ createFolder newId u b st
    = (Message 400 "Folder with this name already exists in this location", st)
  ∨ createFolder newId u b st = (server_error, st).
Proof.
  unfold createFolder.
  destruct (nonempty _) as [name|]; [|by left].
  destruct (FolderBody.course b ≫= parse_course) as [course|]; [|by left].
  destruct (FolderBody.grade b ≫= parse_grade) as [grade|]; [|by left].
  destruct (FolderBody.program b ≫= parse_program) as [program|]; [|by left].
  destruct (findOne _ _); [by right; left|].
  right. right. unfold Folder.save, Folder.validate. simpl.
  by rewrite andb_false_r.
Qed.

(** C3.  [POST /api/folders] never writes a folder, so no folder gets a
    path at creation: the handler builds the document without [path],
    [path] is required, and the validation of [save()] runs before the
    hook that would compute it.  For every request the store is left as
    it was and the answer is the 400 of the validators, the 400 of the
    duplicate check or the 500 of the catch, never the 201; a valid
    request for a new name is answered 500, under an existing parent
    and as a root folder alike. *)
Theorem createFolder_never_saves newId u b st :
  (createFolder newId u b st).2 = st
  ∧ (∀ code body, (createFolder newId u b st).1 ≠ Sent code body)
  ∧ createFolder 14 drSalma week2 sampleStore = (server_error, sampleStore)
  ∧ createFolder 14 drSalma rootBody sampleStore = (server_error, sampleStore).
Proof.
  split_and!.
  - by destruct (createFolder_cases newId u b st) as [->|[->| ->]].
  - intros code body.
    by destruct (createFolder_cases newId u b st) as [->|[->| ->]].
  - vm_compute. reflexivity.
  - vm_compute. reflexivity.
Qed.

(** A parent id that names no folder changes nothing about the answer. *)
Example createFolder_missing_parent :
  createFolder 14 drSalma orphanBody sampleStore = (server_error, sampleStore).
Proof. vm_compute. reflexivity. Qed.

(** A valid request for a name the caller does not have under the parent
    is answered 500, whether or not the parent exists. *)
Lemma createFolder_valid_fails newId u b st name course grade program :
  nonempty (trim (default "" (FolderBody.name b))) = Some name →
  FolderBody.course b ≫= parse_course = Some course →
  FolderBody.grade b ≫= parse_grade = Some grade →
  FolderBody.program b ≫= parse_program = Some program →
  (∀ i f, folders st !! i = Some f →
     ¬ (Folder.name f = name
        ∧ Folder.parentFolder f = FolderBody.parentFolder b
        ∧ Folder.owner f = User._id u)) →
  createFolder newId u b st = (server_error, st).
Proof.
  intros Hn Hc Hg Hp Hdup. unfold createFolder.
  rewrite Hn, Hc, Hg, Hp. rewrite findOne_None.
  - unfold Folder.save, Folder.validate. simpl. by rewrite andb_false_r.
  - intros i f Hi. apply bool_decide_eq_false. by apply (Hdup i).
Qed.

(** C4.  When [PUT /api/folders/:id] answers 200, the folder's record is
    replaced by one whose name is the (trimmed) name of the request, or
    the old name when the request carries none, and whose path is rebuilt
    from the stored path of its parent and that name; every other folder
    record, so every descendant's stored path, and every material are
    exactly as before. *)
Theorem updateFolder_rename u id b st i folder' st' :
  updateFolder u id b st = (Sent 200 (i, folder'), st') →
  ∃ folder,
    folders st !! id = Some folder
    ∧ i = id
    ∧ folders st' = <[id := folder']> (folders st)
    ∧ Folder.name folder'
      = default (Folder.name folder) (trim <$> FolderPatch.name b)
    ∧ Folder.parentFolder folder' = Folder.parentFolder folder
    ∧ match Folder.parentFolder folder with
      | Some p => ∃ parent, folders st !! p = Some parent
          ∧ Folder.path folder'
            = Folder.path parent +:+ "/" +:+ Folder.name folder'
      | None => Folder.path folder' = Folder.name folder'
      end
    ∧ (∀ d, d ≠ id → folders st' !! d = folders st !! d)
    ∧ materials st' = materials st
    ∧ sessions st' = sessions st.
Proof.
  unfold updateFolder. intros H.
  case_decide as Hempty; [done|].
  destruct (folders st !! id) as [folder|] eqn:Hid; [|done].
  case_decide as Hown; [|done].
  match type of H with
  | context [apply_folder_patch ?r b folder] => remember r as renamed eqn:Hr
  end.
  destruct (match renamed with Some _ => _ | None => _ end); [done|].
  unfold Folder.save in H.
  destruct (Folder.validate _); [|done].
  destruct (Folder.preSave _ _) as [saved|] eqn:Hsave; simplify_eq/=.
  apply preSave_path in Hsave as (Hn & Hp & Hpath). simpl in *.
  exists folder. split_and!; try done.
  - rewrite Hn. destruct (FolderPatch.name b) as [n|]; simpl; [|done].
    case_decide as Heq; simpl; [done | by rewrite trim_idemp].
  - destruct (Folder.parentFolder folder) as [p|]; [|by rewrite Hn].
    destruct Hpath as (parent & ? & ?). exists parent. by rewrite Hn.
  - intros d Hne. by rewrite lookup_insert_ne.
Qed.

Lemma updateFolder_rename_witness :
  ∃ folder,
    folders sampleStore !! 10 = Some folder
    ∧ 10 = 10
    ∧ folders (updateFolder drSalma 10 renameBody sampleStore).2
      = <[10 := renamedFolder]> (folders sampleStore)
    ∧ Folder.name renamedFolder
      = default (Folder.name folder) (trim <$> FolderPatch.name renameBody)
    ∧ Folder.parentFolder renamedFolder = Folder.parentFolder folder
    ∧ match Folder.parentFolder folder with
      | Some p => ∃ parent, folders sampleStore !! p = Some parent
          ∧ Folder.path renamedFolder
            = Folder.path parent +:+ "/" +:+ Folder.name renamedFolder
      | None => Folder.path renamedFolder = Folder.name renamedFolder
      end
    ∧ (∀ d, d ≠ 10 →
         folders (updateFolder drSalma 10 renameBody sampleStore).2 !! d
         = folders sampleStore !! d)
    ∧ materials (updateFolder drSalma 10 renameBody sampleStore).2
      = materials sampleStore
    ∧ sessions (updateFolder drSalma 10 renameBody sampleStore).2
      = sessions sampleStore.
Proof.
  apply (updateFolder_rename drSalma 10 renameBody sampleStore 10 renamedFolder).
  vm_compute. reflexivity.
Defined.

(** The staleness after renaming an ancestor: "Week 1" keeps the path it
    had under the old name of its parent. *)
Example rename_leaves_child_path_stale :
  let st' := (updateFolder drSalma 10 renameBody sampleStore).2 in
  Folder.path <$> folders st' !! 10 = Some "Lectures"
  ∧ Folder.path <$> folders st' !! 11 = Some "Lecture Materials/Week 1"
  ∧ Folder.path <$> folders st' !! 12 = Some "Lecture Materials/Week 1/Labs".
Proof. vm_compute. done. Qed.

(** ** Read access to materials *)
(** ** Read access to materials *)

Lemma shown_spec u material :
  shown u material = true ↔
  Material.isPublic material = true
  ∨ ∃ share, share ∈ Material.sharedWith material ∧ user share = User._id u.
Proof.
  unfold shown. rewrite orb_true_iff, existsb_exists.
  setoid_rewrite bool_decide_eq_true. by setoid_rewrite list_elem_of_In.
Qed.

(** The check for a student: a public material passes before the share
    list is looked at; on any other material the read of the share list
    throws. *)
Lemma accessCheck_student u material :
  User.role u = student →
  accessCheck u material
  = if Material.isPublic material then Granted else Thrown.
Proof.
  intros Hrole. unfold accessCheck, hasAccess, Material.loaded_sharedWith.
  rewrite decide_True by done. by destruct (Material.isPublic material).
Qed.

Lemma accessCheck_staff u material :
  User.role u ≠ student →
  accessCheck u material
  = if decide (Material.owner material = User._id u) then Granted else Denied.
Proof. intros Hrole. unfold accessCheck. by rewrite decide_False. Qed.

Lemma getMaterial_access u id material st :
  materials st !! id = Some material →
  getMaterial u id st
  = match accessCheck u material with
    | Granted => getMaterial_save id material st
    | Denied => (Message 403 "Access denied", st)
    | Thrown => (server_error, st)
    end.
Proof.
  intros Hm. unfold getMaterial, getMaterial_load. rewrite Hm.
  by destruct (accessCheck u material).
Qed.

Lemma downloadMaterial_refused u id material st :
  materials st !! id = Some material →
  accessCheck u material ≠ Granted →
  downloadMaterial u id st
  = match accessCheck u material with
    | Denied => (Message 403 "Access denied", st)
    | _ => (server_error, st)
    end.
Proof.
  intros Hm Hacc. unfold downloadMaterial, download_load. rewrite Hm.
  by destruct (accessCheck u material).
Qed.

(** C1, as the handlers have it.  For a student, a material is among
    the documents matched by the listing exactly when it is public or
    the collection holds a share of it for the student, and it is
    eligible by grade or program, and it passes the filters of the
    request.  [GET /:id] sends a public material, eligible or not; a
    material that is not public is sent neither by [GET /:id] nor by the
    download, eligible or not: both end in the catch. *)
Theorem student_read_is_guarded (textSearch : string → Material.t → bool)
    u q st id material :
  User.role u = student →
  materials st !! id = Some material →
  ((id, material) ∈ (listMaterials textSearch u q st).1 ↔
     (Material.isPublic material = true
      ∨ ∃ share, share ∈ Material.sharedWith material ∧ user share = User._id u)
     ∧ eligible u material = true
     ∧ requestFilters textSearch q material = true)
  ∧ (Material.isPublic material = true →
     getMaterial u id st = getMaterial_save id material st)
  ∧ (Material.isPublic material = false →
     getMaterial u id st = (server_error, st)
     ∧ downloadMaterial u id st = (server_error, st)).
Proof.
  intros Hrole Hm. split_and!.
  - unfold listMaterials. simpl. rewrite elem_of_find. unfold listQuery.
    rewrite decide_True by done. rewrite !andb_true_iff, shown_spec.
    tauto.
  - intros Hpub. rewrite (getMaterial_access _ _ material) by done.
    by rewrite accessCheck_student, Hpub.
  - intros Hpub. split.
    + rewrite (getMaterial_access _ _ material) by done.
      by rewrite accessCheck_student, Hpub.
    + rewrite (downloadMaterial_refused _ _ material);
        rewrite ?accessCheck_student, ?Hpub; done.
Qed.

Lemma student_read_is_guarded_witness :
  ((20, sampleMaterial "Enzyme Kinetics Lab" (Some 12) (Some "/uploads/1/a.pdf"))
     ∈ (listMaterials (λ _ _, true) sampleStudent noFilter sampleStore).1 ↔
     (Material.isPublic
        (sampleMaterial "Enzyme Kinetics Lab" (Some 12) (Some "/uploads/1/a.pdf"))
      = true
      ∨ ∃ share,
          share ∈ Material.sharedWith
            (sampleMaterial "Enzyme Kinetics Lab" (Some 12) (Some "/uploads/1/a.pdf"))
          ∧ user share = User._id sampleStudent)
     ∧ eligible sampleStudent
         (sampleMaterial "Enzyme Kinetics Lab" (Some 12) (Some "/uploads/1/a.pdf"))
       = true
     ∧ requestFilters (λ _ _, true) noFilter
         (sampleMaterial "Enzyme Kinetics Lab" (Some 12) (Some "/uploads/1/a.pdf"))
       = true)
  ∧ (Material.isPublic
       (sampleMaterial "Enzyme Kinetics Lab" (Some 12) (Some "/uploads/1/a.pdf"))
     = true →
     getMaterial sampleStudent 20 sampleStore
     = getMaterial_save 20
         (sampleMaterial "Enzyme Kinetics Lab" (Some 12) (Some "/uploads/1/a.pdf"))
         sampleStore)
  ∧ (Material.isPublic
       (sampleMaterial "Enzyme Kinetics Lab" (Some 12) (Some "/uploads/1/a.pdf"))
     = false →
     getMaterial sampleStudent 20 sampleStore = (server_error, sampleStore)
     ∧ downloadMaterial sampleStudent 20 sampleStore = (server_error, sampleStore)).
Proof.
  apply (student_read_is_guarded (λ _ _, true) sampleStudent noFilter
           sampleStore 20
           (sampleMaterial "Enzyme Kinetics Lab" (Some 12) (Some "/uploads/1/a.pdf"))).
  - reflexivity.
  - reflexivity.
Defined.

(** The grade 12 student and "Enzyme Kinetics Lab" (grade 12, program
    Both, not public, shared with nobody): the material is eligible, yet
    [GET /:id] does not send it and the listing matches nothing. *)
Lemma eligible_student_is_refused :
  User.role sampleStudent = student
  ∧ materials sampleStore !! 20
    = Some (sampleMaterial "Enzyme Kinetics Lab" (Some 12) (Some "/uploads/1/a.pdf"))
  ∧ eligible sampleStudent
      (sampleMaterial "Enzyme Kinetics Lab" (Some 12) (Some "/uploads/1/a.pdf"))
    = true
  ∧ getMaterial sampleStudent 20 sampleStore = (server_error, sampleStore)
  ∧ listMaterials (λ _ _, true) sampleStudent noFilter sampleStore = ([], 0).
Proof. vm_compute. done. Qed.

(** The public slides are sent to the student although neither grade nor
    program matches. *)
Example public_slides_sent_to_student :
  eligible sampleStudent publicSlides = false
  ∧ (getMaterial sampleStudent 23 sampleStore).1
    = Sent 200 (Material.set_viewCount 4 publicSlides).
Proof. vm_compute. done. Qed.

(** C5, as the handlers have it.  On a public material the access check
    of [GET /:id] and of the download lets every student through; a
    teacher or an admin passes it exactly when they own the material, and
    gets 403 from both routes otherwise.  The materials of a public
    folder are listed for every principal. *)
Theorem public_read_students_and_owner u id material st :
  materials st !! id = Some material →
  Material.isPublic material = true →
  (∀ fid folder, folders st !! fid = Some folder →
     Folder.isPublic folder = true →
     ∃ l, getFolderMaterials u fid st = Sent 200 l)
  ∧ (User.role u = student →
     accessDenied u material = false
     ∧ getMaterial u id st = getMaterial_save id material st
     ∧ downloadMaterial u id st ≠ (Message 403 "Access denied", st))
  ∧ (User.role u ≠ student →
     (accessDenied u material = false ↔ Material.owner material = User._id u)
     ∧ (Material.owner material = User._id u →
        getMaterial u id st = getMaterial_save id material st)
     ∧ (Material.owner material ≠ User._id u →
        getMaterial u id st = (Message 403 "Access denied", st)
        ∧ downloadMaterial u id st = (Message 403 "Access denied", st))).
Proof.
  intros Hm Hpub. split_and!.
  - intros fid folder Hf Hfpub. unfold getFolderMaterials.
    rewrite Hf, Hfpub. rewrite andb_false_r. eauto.
  - intros Hrole.
    assert (accessCheck u material = Granted) as Hacc.
    { by rewrite accessCheck_student, Hpub. }
    split_and!.
    + unfold accessDenied. by rewrite Hacc.
    + rewrite (getMaterial_access _ _ material) by done. by rewrite Hacc.
    + unfold downloadMaterial, download_load. rewrite Hm, Hacc.
      destruct (truthy (Material.filePath material)); [|done]. by case_decide.
  - intros Hrole.
    pose proof (accessCheck_staff u material Hrole) as Hacc.
    split_and!.
    + unfold accessDenied. rewrite Hacc. by case_decide.
    + intros Hown. rewrite (getMaterial_access _ _ material) by done.
      by rewrite Hacc, decide_True.
    + intros Hown. rewrite decide_False in Hacc by done. split.
      * rewrite (getMaterial_access _ _ material) by done. by rewrite Hacc.
      * rewrite (downloadMaterial_refused _ _ material) by (done || by rewrite Hacc).
        by rewrite Hacc.
Qed.

Lemma public_read_students_and_owner_witness :
  (∀ fid folder, folders sampleStore !! fid = Some folder →
     Folder.isPublic folder = true →
     ∃ l, getFolderMaterials otherTeacher fid sampleStore = Sent 200 l)
  ∧ (User.role otherTeacher = student →
     accessDenied otherTeacher publicSlides = false
     ∧ getMaterial otherTeacher 23 sampleStore
       = getMaterial_save 23 publicSlides sampleStore
     ∧ downloadMaterial otherTeacher 23 sampleStore
       ≠ (Message 403 "Access denied", sampleStore))
  ∧ (User.role otherTeacher ≠ student →
     (accessDenied otherTeacher publicSlides = false
      ↔ Material.owner publicSlides = User._id otherTeacher)
     ∧ (Material.owner publicSlides = User._id otherTeacher →
        getMaterial otherTeacher 23 sampleStore
        = getMaterial_save 23 publicSlides sampleStore)
     ∧ (Material.owner publicSlides ≠ User._id otherTeacher →
        getMaterial otherTeacher 23 sampleStore
        = (Message 403 "Access denied", sampleStore)
        ∧ downloadMaterial otherTeacher 23 sampleStore
          = (Message 403 "Access denied", sampleStore))).
Proof.
  apply (public_read_students_and_owner otherTeacher 23 publicSlides sampleStore).
  - reflexivity.
  - reflexivity.
Defined.

(** A teacher who is not the owner asks for the public slides: both
    routes answer 403. *)
Lemma public_material_refused_to_other_teacher :
  materials sampleStore !! 23 = Some publicSlides
  ∧ Material.isPublic publicSlides = true
  ∧ getMaterial otherTeacher 23 sampleStore
    = (Message 403 "Access denied", sampleStore)
  ∧ downloadMaterial otherTeacher 23 sampleStore
    = (Message 403 "Access denied", sampleStore).
Proof. vm_compute. done. Qed.

(** ** The share list *)

Lemma shareWith_cons p s l studentId :
  shareWith p (s :: l) studentId
  = if decide (user s = studentId) then set_permission p s :: l
    else s :: shareWith p l studentId.
Proof.
  unfold shareWith. simpl. case_decide; [done|].
  destruct (list_find _ l) as [[i x]|]; done.
Qed.

Lemma shareWith_users p l studentId :
  user <$> shareWith p l studentId
  = if decide (studentId ∈ user <$> l) then user <$> l
    else (user <$> l) ++ [studentId].
Proof.
  induction l as [|s l IH].
  - rewrite decide_False; [done|]. by intros ?%elem_of_nil.
  - rewrite shareWith_cons. destruct (decide (user s = studentId)) as [<-|Hne].
    + rewrite decide_True; [done|]. left.
    + rewrite fmap_cons, IH. destruct (decide (studentId ∈ user <$> l)).
      * rewrite decide_True; [done|]. by right.
      * rewrite decide_False; [done|]. by intros [?|?]%elem_of_cons.
Qed.

Lemma shareWith_NoDup p l studentId :
  NoDup (user <$> l) → NoDup (user <$> shareWith p l studentId).
Proof.
  intros Hl. rewrite shareWith_users. case_decide as Hin; [done|].
  apply NoDup_app. split_and!; [done | | apply NoDup_singleton].
  intros x Hx ->%list_elem_of_singleton. done.
Qed.

Lemma filter_user_absent (l : list Share) studentId :
  studentId ∉ user <$> l → filter (λ share, user share = studentId) l = [].
Proof.
  induction l as [|s l IH]; intros Hin; [done|].
  rewrite fmap_cons, not_elem_of_cons in Hin. destruct Hin as [Hne Hin].
  rewrite filter_cons_False by done. by apply IH.
Qed.

Lemma shareWith_grant p l studentId :
  NoDup (user <$> l) →
  filter (λ share, user share = studentId) (shareWith p l studentId)
  = [{| user := studentId; permission := p |}].
Proof.
  induction l as [|s l IH]; intros Hl.
  - unfold shareWith. simpl. by rewrite filter_cons_True.
  - rewrite shareWith_cons. rewrite fmap_cons in Hl.
    apply NoDup_cons in Hl as [Hs Hl].
    destruct (decide (user s = studentId)) as [<-|Hne].
    + rewrite filter_cons_True by done.
      by rewrite filter_user_absent.
    + rewrite filter_cons_False by done. by apply IH.
Qed.

Lemma foldl_shareWith_NoDup p ids : ∀ l,
  NoDup (user <$> l) → NoDup (user <$> foldl (shareWith p) l ids).
Proof.
  induction ids as [|i ids IH]; intros l Hl; [done|].
  simpl. by apply IH, shareWith_NoDup.
Qed.

(** The loop itself is an upsert: given an array, a grant at read and
    then at write for the same student leaves one grant, at write. *)
Example shareWith_read_then_write :
  shareWith write (shareWith read [] 5) 5 = [{| user := 5; permission := write |}].
Proof. vm_compute. reflexivity. Qed.

Lemma shareMaterial_cases u id b st :
  shareMaterial u id b st = (Invalid (share_errors b), st)
  ∨ shareMaterial u id b st = (Message 404 "Material not found", st)
  ∨ shareMaterial u id b st = (server_error, st).
Proof.
  unfold shareMaterial, Material.loaded_sharedWith.
  destruct (ShareBody.studentIds b) as [|s ids]; [by left|].
  destruct (ShareBody.permission b ≫= parse_share_permission) as [p|]; [|by left].
  destruct (materials st !! id) as [material|]; [|by right; left].
  case_decide; [by right; right | by right; left].
Qed.

(** A valid request of the owner ends in the catch. *)
Lemma shareMaterial_owner_fails u id b material s ids p st :
  ShareBody.studentIds b = s :: ids →
  ShareBody.permission b ≫= parse_share_permission = Some p →
  materials st !! id = Some material →
  Material.owner material = User._id u →
  shareMaterial u id b st = (server_error, st).
Proof.
  intros Hids Hp Hm Hown. unfold shareMaterial, Material.loaded_sharedWith.
  by rewrite Hids, Hp, Hm, decide_True.
Qed.

(** C8.  [POST /api/materials/:id/share] stores no grant at all: the
    material schema declares no [sharedWith], so the first turn of the
    loop calls [find] on [undefined] and the handler ends in the catch.
    For every request the store is left as it was and the answer is the
    400 of the validators, the 404 or the 500, never the 200; the owner
    who shares a material with a student at "read" is answered 500, and
    so is the same request at "write". *)
Theorem share_route_stores_no_grant u id b st :
  (shareMaterial u id b st).2 = st
  ∧ (∀ code l, (shareMaterial u id b st).1 ≠ Sent code l)
  ∧ shareMaterial drSalma 21 shareRead sampleStore = (server_error, sampleStore)
  ∧ shareMaterial drSalma 21 shareWrite sampleStore = (server_error, sampleStore).
Proof.
  split_and!.
  - by destruct (shareMaterial_cases u id b st) as [->|[->| ->]].
  - intros code l.
    by destruct (shareMaterial_cases u id b st) as [->|[->| ->]].
  - vm_compute. reflexivity.
  - vm_compute. reflexivity.
Qed.

(** ** Counters *)

Lemma getHandler_rmw u id : read_modify_write Material.viewCount id (getHandler u id).
Proof.
  split; simpl.
  - intros st m. unfold getMaterial_load.
    destruct (materials st !! id) as [d|]; [|done].
    destruct (accessCheck u d); naive_solver.
  - intros st r. unfold getMaterial_load.
    destruct (materials st !! id) as [d|]; [|naive_solver].
    destruct (accessCheck u d); naive_solver.
  - intros m st. unfold getMaterial_save. eauto.
Qed.

Lemma downloadHandler_rmw u id :
  read_modify_write Material.downloadCount id (downloadHandler u id).
Proof.
  split; simpl.
  - intros st m. unfold download_load.
    destruct (materials st !! id) as [d|]; [|done].
    destruct (accessCheck u d); [|done..].
    destruct (truthy (Material.filePath d)); [|done]. case_decide; naive_solver.
  - intros st r. unfold download_load.
    destruct (materials st !! id) as [d|]; [|naive_solver].
    destruct (accessCheck u d); [|naive_solver..].
    destruct (truthy (Material.filePath d)); [|naive_solver].
    case_decide; naive_solver.
  - intros m st. unfold download_save. eauto.
Qed.

Lemma thread_step_cases {A} count id (h : Handler A) t st t' st' d :
  read_modify_write count id h →
  thread_step h t st = (t', st') →
  materials st !! id = Some d →
  (sent t' = sent t ∧ st' = st
   ∧ (t' = t ∨ (t = Pending ∧ (t' = Holding d ∨ ∃ r, t' = Replied r))))
  ∨ (∃ m d', t = Holding m ∧ sent t' = 1 ∧ materials st' !! id = Some d'
             ∧ count d' = count m + 1).
Proof.
  intros Hh Hstep Hd. destruct t as [|m|r]; simpl in Hstep.
  - left. destruct (h_load h st) as [r|m] eqn:Hl; simplify_eq.
    + split_and!; [|done|by eauto].
      destruct r; simpl; [|done..]. by destruct (rmw_refuse _ _ _ Hh _ _ Hl code body).
    + apply (rmw_load _ _ _ Hh) in Hl. split_and!; [done..|]. right. split; [done|].
      left. congruence.
  - right. destruct (rmw_save _ _ _ Hh m st) as (b & set & Hs & Hc).
    rewrite Hs in Hstep. simplify_eq. exists m, (set d). split_and!; [done..| |done].
    simpl. by rewrite lookup_alter_eq, Hd.
  - left. simplify_eq. auto.
Qed.

Lemma held_within_weaken {A} count lo hi hi' (t : Thread A) :
  hi ≤ hi' → held_within count lo hi t → held_within count lo hi' t.
Proof. destruct t; simpl; lia. Qed.

Lemma held_within_sent {A} count lo hi (t : Thread A) :
  sent t = 1 → held_within count lo hi t.
Proof. by destruct t. Qed.

Lemma thread_step_inv {A} count id n (h : Handler A) t (other : Thread A) st t' st' :
  read_modify_write count id h →
  thread_step h t st = (t', st') →
  (∃ d, materials st !! id = Some d
        ∧ n ≤ count d ≤ n + (sent t + sent other)
        ∧ (0 < sent t + sent other → n < count d)
        ∧ held_within count n (n + (sent t + sent other)) t
        ∧ held_within count n (n + (sent t + sent other)) other) →
  ∃ d, materials st' !! id = Some d
       ∧ n ≤ count d ≤ n + (sent t' + sent other)
       ∧ (0 < sent t' + sent other → n < count d)
       ∧ held_within count n (n + (sent t' + sent other)) t'
       ∧ held_within count n (n + (sent t' + sent other)) other.
Proof.
  intros Hh Hstep (d & Hd & Hb & Hpos & Ht & Ho).
  destruct (thread_step_cases count id h t st t' st' d Hh Hstep Hd)
    as [(Hs & -> & Hcase)|(m & d' & -> & Hs & Hd' & Hc)].
  - exists d. rewrite Hs. split; [exact Hd|]. split; [exact Hb|].
    split; [exact Hpos|]. split; [|exact Ho].
    destruct Hcase as [->|[-> [->|[r ->]]]]; simpl; [exact Ht| |done].
    simpl in Hb. lia.
  - exists d'. rewrite Hs. simpl in Ht, Hb. split; [done|].
    split; [lia|]. split; [lia|]. split.
    + by apply held_within_sent.
    + eapply held_within_weaken; [|done]. simpl. lia.
Qed.

Lemma system_step_inv {A} count id n (h1 h2 : Handler A) s second :
  read_modify_write count id h1 → read_modify_write count id h2 →
  counter_inv count id n s → counter_inv count id n (system_step h1 h2 s second).
Proof.
  intros Hh1 Hh2. destruct s as [[t1 t2] st]. intros (d & Hd & Hb & Hpos & H1 & H2).
  unfold system_step. destruct second.
  - destruct (thread_step h2 t2 st) as [t2' st'] eqn:Hstep.
    destruct (thread_step_inv count id n h2 t2 t1 st t2' st' Hh2 Hstep)
      as (d' & Hd' & Hb' & Hpos' & H2' & H1').
    { exists d. rewrite (Nat.add_comm (sent t2)). eauto 10. }
    exists d'. rewrite (Nat.add_comm (sent t1)). eauto 10.
  - destruct (thread_step h1 t1 st) as [t1' st'] eqn:Hstep.
    destruct (thread_step_inv count id n h1 t1 t2 st t1' st' Hh1 Hstep)
      as (d' & Hd' & Hb' & Hpos' & H1' & H2'); [by eauto 10|].
    exists d'. eauto 10.
Qed.

Lemma run_inv {A} count id n (h1 h2 : Handler A) schedule : ∀ s,
  read_modify_write count id h1 → read_modify_write count id h2 →
  counter_inv count id n s → counter_inv count id n (run h1 h2 schedule s).
Proof.
  induction schedule as [|w schedule IH]; intros s Hh1 Hh2 Hs; [done|].
  simpl. apply IH; [done..|]. by apply system_step_inv.
Qed.

Lemma overlap_one_or_two {A} count id (h1 h2 : Handler A) schedule st d
    c1 b1 c2 b2 st' :
  read_modify_write count id h1 → read_modify_write count id h2 →
  materials st !! id = Some d →
  run h1 h2 schedule (Pending, Pending, st)
  = (Replied (Sent c1 b1), Replied (Sent c2 b2), st') →
  ∃ d', materials st' !! id = Some d'
        ∧ (count d' = count d + 1 ∨ count d' = count d + 2).
Proof.
  intros Hh1 Hh2 Hd Hrun.
  pose proof (run_inv count id (count d) h1 h2 schedule (Pending, Pending, st)
                Hh1 Hh2) as Hinv.
  rewrite Hrun in Hinv. destruct Hinv as (d' & Hd' & Hb & Hpos & _).
  - exists d. simpl. split; [done|]. split; [lia|]. split; [lia|]. done.
  - exists d'. simpl in Hb, Hpos. split; [done|lia].
Qed.

Lemma handle_counts {A} count id (h : Handler A) st d c b st' :
  read_modify_write count id h →
  materials st !! id = Some d →
  handle h st = (Sent c b, st') →
  ∃ d', materials st' !! id = Some d' ∧ count d' = count d + 1.
Proof.
  intros Hh Hd. unfold handle.
  destruct (h_load h st) as [r|m] eqn:Hl.
  - intros ?; simplify_eq. by destruct (rmw_refuse _ _ _ Hh _ _ Hl c b).
  - apply (rmw_load _ _ _ Hh) in Hl. simplify_eq.
    destruct (rmw_save _ _ _ Hh d st) as (b' & set & -> & Hc).
    intros ?; simplify_eq. exists (set d). split; [|done].
    simpl. by rewrite lookup_alter_eq, Hd.
Qed.

Lemma handle_twice {A} count id (h1 h2 : Handler A) st d c1 b1 st1 c2 b2 st2 :
  read_modify_write count id h1 → read_modify_write count id h2 →
  materials st !! id = Some d →
  handle h1 st = (Sent c1 b1, st1) →
  handle h2 st1 = (Sent c2 b2, st2) →
  ∃ d', materials st2 !! id = Some d' ∧ count d' = count d + 2.
Proof.
  intros Hh1 Hh2 Hd H1 H2.
  destruct (handle_counts _ _ _ _ _ _ _ _ Hh1 Hd H1) as (d1 & Hd1 & Hc1).
  destruct (handle_counts _ _ _ _ _ _ _ _ Hh2 Hd1 H2) as (d2 & Hd2 & Hc2).
  exists d2. split; [done|lia].
Qed.

(** C6, as the handlers have it.  Each download, and each view, loads
    the document, adds one to the count it loaded and saves that number.
    Two requests on one material that run one after the other raise the
    counter by exactly 2; two requests that overlap in any way and both
    answer raise it by 1 or by 2. *)
Theorem counters_are_read_modify_write u1 u2 id material st :
  materials st !! id = Some material →
  (∀ c1 b1 st1 c2 b2 st2,
     downloadMaterial u1 id st = (Sent c1 b1, st1) →
     downloadMaterial u2 id st1 = (Sent c2 b2, st2) →
     ∃ m', materials st2 !! id = Some m'
       ∧ Material.downloadCount m' = Material.downloadCount material + 2)
  ∧ (∀ schedule c1 b1 c2 b2 st',
     run (downloadHandler u1 id) (downloadHandler u2 id) schedule
         (Pending, Pending, st)
     = (Replied (Sent c1 b1), Replied (Sent c2 b2), st') →
     ∃ m', materials st' !! id = Some m'
       ∧ (Material.downloadCount m' = Material.downloadCount material + 1
          ∨ Material.downloadCount m' = Material.downloadCount material + 2))
  ∧ (∀ c1 b1 st1 c2 b2 st2,
     getMaterial u1 id st = (Sent c1 b1, st1) →
     getMaterial u2 id st1 = (Sent c2 b2, st2) →
     ∃ m', materials st2 !! id = Some m'
       ∧ Material.viewCount m' = Material.viewCount material + 2)
  ∧ (∀ schedule c1 b1 c2 b2 st',
     run (getHandler u1 id) (getHandler u2 id) schedule (Pending, Pending, st)
     = (Replied (Sent c1 b1), Replied (Sent c2 b2), st') →
     ∃ m', materials st' !! id = Some m'
       ∧ (Material.viewCount m' = Material.viewCount material + 1
          ∨ Material.viewCount m' = Material.viewCount material + 2)).
Proof.
  intros Hm. split_and!.
  - intros c1 b1 st1 c2 b2 st2 H1 H2.
    by eapply (handle_twice Material.downloadCount id
                 (downloadHandler u1 id) (downloadHandler u2 id));
      eauto using downloadHandler_rmw.
  - intros schedule c1 b1 c2 b2 st' Hrun.
    by eapply (overlap_one_or_two Material.downloadCount id);
      eauto using downloadHandler_rmw.
  - intros c1 b1 st1 c2 b2 st2 H1 H2.
    by eapply (handle_twice Material.viewCount id
                 (getHandler u1 id) (getHandler u2 id));
      eauto using getHandler_rmw.
  - intros schedule c1 b1 c2 b2 st' Hrun.
    by eapply (overlap_one_or_two Material.viewCount id);
      eauto using getHandler_rmw.
Qed.

Lemma counters_are_read_modify_write_witness :
  (∀ c1 b1 st1 c2 b2 st2,
     downloadMaterial sampleStudent 23 sampleStore = (Sent c1 b1, st1) →
     downloadMaterial drSalma 23 st1 = (Sent c2 b2, st2) →
     ∃ m', materials st2 !! 23 = Some m'
       ∧ Material.downloadCount m' = Material.downloadCount publicSlides + 2)
  ∧ (∀ schedule c1 b1 c2 b2 st',
     run (downloadHandler sampleStudent 23) (downloadHandler drSalma 23) schedule
         (Pending, Pending, sampleStore)
     = (Replied (Sent c1 b1), Replied (Sent c2 b2), st') →
     ∃ m', materials st' !! 23 = Some m'
       ∧ (Material.downloadCount m' = Material.downloadCount publicSlides + 1
          ∨ Material.downloadCount m' = Material.downloadCount publicSlides + 2))
  ∧ (∀ c1 b1 st1 c2 b2 st2,
     getMaterial sampleStudent 23 sampleStore = (Sent c1 b1, st1) →
     getMaterial drSalma 23 st1 = (Sent c2 b2, st2) →
     ∃ m', materials st2 !! 23 = Some m'
       ∧ Material.viewCount m' = Material.viewCount publicSlides + 2)
  ∧ (∀ schedule c1 b1 c2 b2 st',
     run (getHandler sampleStudent 23) (getHandler drSalma 23) schedule
         (Pending, Pending, sampleStore)
     = (Replied (Sent c1 b1), Replied (Sent c2 b2), st') →
     ∃ m', materials st' !! 23 = Some m'
       ∧ (Material.viewCount m' = Material.viewCount publicSlides + 1
          ∨ Material.viewCount m' = Material.viewCount publicSlides + 2)).
Proof.
  apply (counters_are_read_modify_write sampleStudent drSalma 23 publicSlides
           sampleStore).
  reflexivity.
Defined.

(** Two downloads, and two views, of the public slides (7 downloads and
    3 views so far) that both load before either saves: both answer 200
    and each counter has moved by one only. *)
Lemma overlapping_requests_lose_an_update :
  Material.downloadCount <$> materials sampleStore !! 23 = Some 7
  ∧ Material.viewCount <$> materials sampleStore !! 23 = Some 3
  ∧ (∃ st',
       run (downloadHandler sampleStudent 23) (downloadHandler drSalma 23)
           [false; true; false; true] (Pending, Pending, sampleStore)
       = (Replied (Sent 200 "/uploads/1/d.pptx"),
          Replied (Sent 200 "/uploads/1/d.pptx"), st')
       ∧ Material.downloadCount <$> materials st' !! 23 = Some 8)
  ∧ (∃ st',
       run (getHandler sampleStudent 23) (getHandler drSalma 23)
           [false; true; false; true] (Pending, Pending, sampleStore)
       = (Replied (Sent 200 (Material.set_viewCount 4 publicSlides)),
          Replied (Sent 200 (Material.set_viewCount 4 publicSlides)), st')
       ∧ Material.viewCount <$> materials st' !! 23 = Some 4).
Proof.
  split_and!; [reflexivity | reflexivity | |].
  - eexists. split; [vm_compute; reflexivity|]. vm_compute. reflexivity.
  - eexists. split; [vm_compute; reflexivity|]. vm_compute. reflexivity.
Qed.

(** The same two downloads one after the other. *)
Example sequential_downloads_count_two :
  Material.downloadCount <$>
    materials (run (downloadHandler sampleStudent 23) (downloadHandler drSalma 23)
                   [false; false; true; true] (Pending, Pending, sampleStore)).2
      !! 23
  = Some 9.
Proof. vm_compute. reflexivity. Qed.

(** ** Creation of materials *)

(** What [POST /api/materials] of the Mongoose server does with the
    type-specific fields: a link without URL and a non-link type without
    file are answered 400 and store no material; a link with a URL, in a
    folder of the caller, is stored with its URL and without file
    reference, uploaded file or not. *)
Lemma createMaterial_type_fields newId u b file st :
  (MaterialBody.type b = Some "link" → truthy (MaterialBody.url b) = None →
   is_400 (createMaterial newId u b file st).1
   ∧ (createMaterial newId u b file st).2 = received file st)
  ∧ (MaterialBody.type b ≠ Some "link" → file = None →
     is_400 (createMaterial newId u b file st).1
     ∧ (createMaterial newId u b file st).2 = st)
  ∧ (∀ url i m st',
       MaterialBody.type b = Some "link" → truthy (MaterialBody.url b) = Some url →
       createMaterial newId u b file st = (Sent 201 (i, m), st') →
       materials st' !! newId = Some m
       ∧ Material.type m = link ∧ Material.url m = Some url
       ∧ Material.fileName m = None ∧ Material.filePath m = None
       ∧ Material.fileSize m = None).
Proof.
  unfold createMaterial. split_and!.
  - intros Ht Hu. rewrite Ht, Hu. simpl.
    generalize (received file st). intros st1.
    destruct (nonempty _); [|done].
    destruct (_ ≫= parse_course); [|done].
    destruct (_ ≫= parse_grade); [|done].
    destruct (_ ≫= parse_program); [|done].
    by case_bool_decide.
  - intros Ht ->.
    destruct (nonempty _); [|done].
    destruct (MaterialBody.type b) as [ty|] eqn:Hty; [|done]. simpl.
    destruct (parse_type ty) as [mt|] eqn:Hmt; [|done].
    destruct (_ ≫= parse_course); [|done].
    destruct (_ ≫= parse_grade); [|done].
    destruct (_ ≫= parse_program); [|done].
    case_bool_decide; [done|].
    destruct (decide (mt = link)) as [->|]; [|done].
    destruct Ht. f_equal. unfold parse_type in Hmt.
    repeat case_decide; simplify_eq. done.
  - intros url i m st' Ht Hu. rewrite Ht, Hu. simpl.
    destruct (nonempty _); [|done].
    destruct (_ ≫= parse_course); [|done].
    destruct (_ ≫= parse_grade); [|done].
    destruct (_ ≫= parse_program); [|done].
    case_bool_decide; [done|].
    destruct (parse_priority _); [|done].
    unfold insertMaterial. destruct (Material.validate _); [|done].
    intros ?; simplify_eq. simpl. split; [apply lookup_insert_eq | done].
Qed.

Example createMaterial_link_without_url :
  createMaterial 24 drSalma (linkBody None) None sampleStore
  = (Message 400 "URL is required for link type", sampleStore).
Proof. vm_compute. reflexivity. Qed.

Example createMaterial_link_with_url :
  ∃ m st',
    createMaterial 24 drSalma (linkBody (Some "https://x")) (Some someUpload)
                   sampleStore
    = (Sent 201 (24, m), st')
    ∧ Material.url m = Some "https://x" ∧ Material.filePath m = None
    ∧ Material.tags m = ["video"; "krebs"].
Proof. eexists _, _. split; [vm_compute; reflexivity | done]. Qed.

(** C7 on the SQLite server: the same request, a link without URL, is
    inserted and answered 201, with NULL for the URL and for the file. *)
Lemma sqlite_link_without_url_is_created :
  ∃ row db',
    Sql.createMaterial sqlTeacher (sqlLinkBody None) None sqlDb
    = (Sent 201 (1%Z, row), db')
    ∧ Sql.materials db' !! 1%Z = Some row
    ∧ Sql.type row = "link"
    ∧ Sql.url row = None
    ∧ Sql.file_path row = None.
Proof. eexists _, _. split; [vm_compute; reflexivity | done]. Qed.

(** ** Session status *)

Lemma parse_print_status s : parse_status (print_status s) = Some s.
Proof. by destruct s. Qed.

Lemma truthy_print_status s : truthy (Some (print_status s)) = Some (print_status s).
Proof. by destruct s. Qed.

(** C9, as the handler has it.  An update that answers 200 leaves the
    session with the status named in the request when there is one, and
    with its old status when there is none; and from any status of a
    session of the caller, an update that names any of the four statuses
    answers 200 and sets it: no transition is refused. *)
Theorem updateSession_status_unchecked u id session st :
  sessions st !! id = Some session →
  ZoomSession.teacher session = User._id u →
  ZoomSession.title session ≠ "" →
  (∀ b i session' st',
     updateSession u id b st = (Sent 200 (i, session'), st') →
     sessions st' !! id = Some session'
     ∧ Some (ZoomSession.status session')
       = match truthy (SessionPatch.status b) with
         | Some s => parse_status s
         | None => Some (ZoomSession.status session)
         end)
  ∧ (∀ target, ∃ session' st',
       updateSession u id (statusOnly target) st = (Sent 200 (id, session'), st')
       ∧ sessions st' !! id = Some session'
       ∧ ZoomSession.status session' = target).
Proof.
  intros Hs Hteacher Htitle. split.
  - intros b i session' st'. unfold updateSession.
    rewrite Hs, decide_True by done.
    destruct (nonempty _); [|done].
    destruct (truthy (SessionPatch.status b)) as [s'|].
    + destruct (parse_status s') as [status|]; [|done].
      intros ?; simplify_eq. simpl. split; [apply lookup_insert_eq | done].
    + intros ?; simplify_eq. simpl. split; [apply lookup_insert_eq | done].
  - intros target. unfold updateSession.
    rewrite Hs, decide_True by done.
    unfold statusOnly at 1 2. simpl SessionPatch.title. simpl SessionPatch.status.
    rewrite truthy_print_status, parse_print_status. simpl truthy.
    unfold nonempty. rewrite decide_False by done.
    eexists _, _. split; [done|]. simpl. split; [apply lookup_insert_eq | done].
Qed.

Lemma updateSession_status_unchecked_witness :
  (∀ b i session' st',
     updateSession drSalma 30 b sampleStore = (Sent 200 (i, session'), st') →
     sessions st' !! 30 = Some session'
     ∧ Some (ZoomSession.status session')
       = match truthy (SessionPatch.status b) with
         | Some s => parse_status s
         | None => Some (ZoomSession.status cancelledSession)
         end)
  ∧ (∀ target, ∃ session' st',
       updateSession drSalma 30 (statusOnly target) sampleStore
       = (Sent 200 (30, session'), st')
       ∧ sessions st' !! 30 = Some session'
       ∧ ZoomSession.status session' = target).
Proof.
  apply (updateSession_status_unchecked drSalma 30 cancelledSession sampleStore).
  - reflexivity.
  - reflexivity.
  - discriminate.
Defined.

(** The cancelled session of the sample store is put back to scheduled
    by one update, a step that the expected order does not have. *)
Lemma cancelled_session_is_rescheduled :
  ZoomSession.status <$> sessions sampleStore !! 30 = Some cancelled
  ∧ (∃ session' st',
       updateSession drSalma 30 (statusOnly scheduled) sampleStore
       = (Sent 200 (30, session'), st')
       ∧ ZoomSession.status <$> sessions st' !! 30 = Some scheduled)
  ∧ forward cancelled scheduled = false.
Proof.
  split_and!; [reflexivity | | reflexivity].
  eexists _, _. split; [vm_compute; reflexivity|]. vm_compute. reflexivity.
Qed.

(** ** Attendance rate *)







(** One session attended of eight: the exact percentage is 12.5, and
    the reply says 13; the store of the samples after the student has
    joined its one session, before and after the session's time. *)
Example attendanceRate_samples :
  Number.round (percentage 1 8) = Some 13%Z
  ∧ attendanceRate 5000 sampleStudent joinedStore = Some 100%Z
  ∧ attendanceRate 4000 sampleStudent joinedStore = Some 0%Z.
Proof. vm_compute. done. Qed.

(** ** What one request keeps true of the store *)

Lemma parents_exist_spec fs :
  parents_exist fs ↔
  ∀ c rec p, fs !! c = Some rec → Folder.parentFolder rec = Some p →
             is_Some (fs !! p).
Proof.
  split.
  - intros H c rec p. by apply parents_exist_lookup.
  - intros H c rec Hc. unfold parent_exists.
    destruct (Folder.parentFolder rec) as [p|] eqn:Hp; [|done].
    apply bool_decide_eq_true. by eapply H.
Qed.

Lemma ranked_spec rank fs :
  ranked rank fs ↔
  ∀ c rec p, fs !! c = Some rec → Folder.parentFolder rec = Some p →
             rank p < rank c.
Proof.
  split.
  - intros H c rec p. by apply ranked_lt.
  - intros H c rec Hc. unfold parent_below.
    destruct (Folder.parentFolder rec) as [p|] eqn:Hp; [|done].
    apply bool_decide_eq_true. by eapply H.
Qed.

Lemma forest_insert_same_parent fs id old saved :
  forest fs → fs !! id = Some old →
  Folder.parentFolder saved = Folder.parentFolder old →
  forest (<[id := saved]> fs).
Proof.
  intros [He [rank Hr]] Hold Hsame.
  rewrite parents_exist_spec in He. rewrite ranked_spec in Hr. split.
  - apply parents_exist_spec. intros c rec p Hc Hp.
    apply lookup_insert_is_Some'. right.
    apply lookup_insert_Some in Hc as [[<- <-]|[Hne Hc]].
    + eapply He; [done|]. congruence.
    + by eapply He.
  - exists rank. apply ranked_spec. intros c rec p Hc Hp.
    apply lookup_insert_Some in Hc as [[<- <-]|[Hne Hc]].
    + eapply Hr; [done|]. congruence.
    + by eapply Hr.
Qed.

Lemma forest_cascade roots st st' tr :
  cascade roots st st' tr → forest (folders st) → forest (folders st').
Proof.
  intros Hc [He [rank Hr]].
  rewrite parents_exist_spec in He. rewrite ranked_spec in Hr. split.
  - apply parents_exist_spec. intros c rec p Hcr Hp.
    eapply (cascade_orphans _ _ _ _ Hc); [done..|].
    eapply He; [|done]. eapply lookup_weaken; [done | apply Hc].
  - exists rank. apply ranked_spec. intros c rec p Hcr Hp.
    eapply Hr; [|done]. eapply lookup_weaken; [done | apply Hc].
Qed.

Lemma createFolder_unchanged newId u b st :
  (createFolder newId u b st).2 = st.
Proof. by destruct (createFolder_cases newId u b st) as [->|[->| ->]]. Qed.

Lemma shareMaterial_unchanged u id b st :
  (shareMaterial u id b st).2 = st.
Proof. by destruct (shareMaterial_cases u id b st) as [->|[->| ->]]. Qed.

Lemma updateFolder_folders u id b st :
  folders (updateFolder u id b st).2 = folders st
  ∨ ∃ old saved, folders st !! id = Some old
      ∧ folders (updateFolder u id b st).2 = <[id := saved]> (folders st)
      ∧ Folder.parentFolder saved = Folder.parentFolder old.
Proof.
  unfold updateFolder.
  case_decide; [by left|].
  destruct (folders st !! id) as [folder|] eqn:Hid; [|by left].
  case_decide; [|by left].
  destruct (match _ with Some n => findOne _ _ | None => None end); [by left|].
  unfold Folder.save. destruct (Folder.validate _); [|by left].
  destruct (Folder.preSave _ _) as [saved|] eqn:Hsave; [|by left].
  right. exists folder, saved. split_and!; [done..|].
  by apply preSave_path in Hsave as (_ & Hp & _).
Qed.

Lemma updateFolder_materials u id b st :
  materials (updateFolder u id b st).2 = materials st.
Proof.
  unfold updateFolder, Folder.save.
  repeat (case_decide || case_match); simplify_eq/=; done.
Qed.

Lemma received_effect file st :
  folders (received file st) = folders st
  ∧ materials (received file st) = materials st
  ∧ sessions (received file st) = sessions st.
Proof. by destruct file. Qed.


Lemma createMaterial_effect newId u b file st :
  folders (createMaterial newId u b file st).2 = folders st
  ∧ (materials (createMaterial newId u b file st).2 = materials st
     ∨ ∃ m, materials (createMaterial newId u b file st).2
            = <[newId := m]> (materials st)).
Proof.
  unfold createMaterial, insertMaterial.
  destruct (received_effect file st) as (Hf & Hm & _).
  revert Hf Hm. generalize (received file st). intros st1 Hf Hm.
  repeat (case_bool_decide || case_decide || case_match);
    simplify_eq/=; (split; [done|]); (by left) || (right; rewrite Hm; eauto).
Qed.

Lemma getMaterial_effect u id st :
  folders (getMaterial u id st).2 = folders st
  ∧ ∃ n, materials (getMaterial u id st).2 = materials st
         ∨ materials (getMaterial u id st).2
           = alter (Material.set_viewCount n) id (materials st).
Proof.
  unfold getMaterial, getMaterial_load, getMaterial_save.
  repeat case_match; simplify_eq/=; (split; [done|]);
    first [by exists 0; left | eexists; by right].
Qed.

Lemma downloadMaterial_effect u id st :
  folders (downloadMaterial u id st).2 = folders st
  ∧ ∃ n, materials (downloadMaterial u id st).2 = materials st
         ∨ materials (downloadMaterial u id st).2
           = alter (Material.set_downloadCount n) id (materials st).
Proof.
  unfold downloadMaterial, download_load, download_save.
  repeat (case_decide || case_match); simplify_eq/=; (split; [done|]);
    first [by exists 0; left | eexists; by right].
Qed.

Lemma updateSession_effect u id b st :
  folders (updateSession u id b st).2 = folders st
  ∧ materials (updateSession u id b st).2 = materials st.
Proof.
  unfold updateSession. repeat (case_decide || case_match); simplify_eq/=; done.
Qed.

Lemma deleteFolderRoute_cascade uf fuel u id st reply st' tr :
  deleteFolderRoute uf fuel u id st = Some (reply, st', tr) →
  cascade [id] st st' tr.
Proof.
  unfold deleteFolderRoute. intros H.
  destruct (folders st !! id); [|simplify_eq; apply cascade_refl].
  case_decide; [|simplify_eq; apply cascade_refl].
  destruct (deleteFolder uf fuel id st) as [[st1 tr1]|] eqn:Hdel; simplify_eq/=.
  by apply deleteFolder_spec in Hdel as [? _].
Qed.

(** No request of the folder and material routes breaks the forest. *)
Lemma step_forest st st' :
  step st st' → forest (folders st) → forest (folders st').
Proof.
  intros Hstep Hf. destruct Hstep.
  - by rewrite createFolder_unchanged.
  - destruct (updateFolder_folders u id b st) as [->|(old & saved & Ho & -> & Hp)];
      [done|]. by eapply forest_insert_same_parent.
  - eapply forest_cascade; [|done]. by eapply deleteFolderRoute_cascade.
  - by rewrite (proj1 (createMaterial_effect _ _ _ _ _)).
  - by rewrite (proj1 (getMaterial_effect _ _ _)).
  - by rewrite (proj1 (downloadMaterial_effect _ _ _)).
  - by rewrite shareMaterial_unchanged.
  - by rewrite (proj1 (updateSession_effect _ _ _ _)).
  - done.
Qed.

(** * The other handlers *)

Lemma findOne_elim {A} (P : nat → A → bool) (c : gmap nat A) i x :
  findOne P c = Some (i, x) → c !! i = Some x ∧ P i x = true.
Proof.
  unfold findOne. intros H. apply elem_of_find.
  destruct (find P c) as [|y l]; simplify_eq/=. left.
Qed.

Lemma findOne_absent {A} (P : nat → A → bool) (c : gmap nat A) i x :
  findOne P c = None → c !! i = Some x → P i x = false.
Proof.
  unfold findOne. intros H Hi. destruct (P i x) eqn:HP; [|done].
  assert ((i, x) ∈ find P c) as Hin by (by apply elem_of_find).
  destruct (find P c); [by apply elem_of_nil in Hin | done].
Qed.

(** ** Materials: update and delete *)

(** X1.  Whatever the request, [PUT /api/materials/:id] leaves the
    folders, the sessions, the disk and every other material as they
    were, and the material itself keeps its type, owner, folder, file,
    counters, share list, course, grade and program; a field that the
    body leaves out keeps its value, and the URL changes for a link
    only.  A caller who is not the owner changes nothing and is not
    answered with the material. *)
Theorem updateMaterial_frame u id b material st :
  materials st !! id = Some material →
  let r := updateMaterial u id b st in
  folders r.2 = folders st
  ∧ sessions r.2 = sessions st
  ∧ disk r.2 = disk st
  ∧ (∀ j, j ≠ id →
       materials r.2 !! j = materials st !! j)
  ∧ (Material.owner material ≠ User._id u →
       r.2 = st
       ∧ ∀ c body, r.1 ≠ Sent c body)
  ∧ ((∀ c body, r.1 ≠ Sent c body) →
       r.2 = st)
  ∧ ∃ material',
      materials r.2 !! id = Some material'
      ∧ Material.type material' = Material.type material
      ∧ Material.owner material' = Material.owner material
      ∧ Material.folder material' = Material.folder material
      ∧ Material.fileName material' = Material.fileName material
      ∧ Material.filePath material' = Material.filePath material
      ∧ Material.fileSize material' = Material.fileSize material
      ∧ Material.viewCount material' = Material.viewCount material
      ∧ Material.downloadCount material' = Material.downloadCount material
      ∧ Material.sharedWith material' = Material.sharedWith material
      ∧ Material.course material' = Material.course material
      ∧ Material.grade material' = Material.grade material
      ∧ Material.program material' = Material.program material
      ∧ (MaterialPatch.title b = None →
           Material.title material' = Material.title material)
      ∧ (MaterialPatch.description b = None →
           Material.description material' = Material.description material)
      ∧ (MaterialPatch.tags b = None →
           Material.tags material' = Material.tags material)
      ∧ (MaterialPatch.dueDate b = None →
           Material.dueDate material' = Material.dueDate material)
      ∧ (MaterialPatch.priority b = None →
           Material.priority material' = Material.priority material)
      ∧ (MaterialPatch.isPublic b = None →
           Material.isPublic material' = Material.isPublic material)
      ∧ (MaterialPatch.url b = None ∨ Material.type material ≠ link →
           Material.url material' = Material.url material).
Proof.
  intros Hm. cbv zeta. unfold updateMaterial. rewrite Hm.
  destruct (decide (trim <$> MaterialPatch.title b = Some "")) as [|_].
  { simpl. split_and!; try done. exists material. by split_and!. }
  destruct (decide (Material.owner material = User._id u)) as [Hown|Hown];
    [|simpl; split_and!; try done; exists material; by split_and!].
  destruct (match truthy (MaterialPatch.priority b) with
            | Some p => parse_priority p
            | None => Some (Material.priority material)
            end) as [priority|] eqn:Hp;
    [|simpl; split_and!; try done; exists material; by split_and!].
  destruct (Material.validate _) eqn:Hv;
    [|simpl; split_and!; try done; exists material; by split_and!].
  simpl. split_and!; try done.
  - intros j Hj. by rewrite lookup_insert_ne.
  - intros H. by destruct (H 200 (id, apply_material_patch b priority material)).
  - eexists. split; [apply lookup_insert_eq|]. simpl.
    split_and!; try done.
    + by intros ->.
    + by intros ->.
    + by intros ->.
    + by intros ->.
    + intros Hnone. rewrite Hnone in Hp. simpl in Hp. congruence.
    + by intros ->.
    + intros [->|Hl]; [done|].
      destruct (truthy (MaterialPatch.url b)); [|done]. by case_decide.
Qed.

Lemma updateMaterial_frame_witness :
  let r := updateMaterial drSalma 21 retitle sampleStore in
  folders r.2 = folders sampleStore
  ∧ sessions r.2 = sessions sampleStore
  ∧ disk r.2 = disk sampleStore
  ∧ (∀ j, j ≠ 21 →
       materials r.2 !! j = materials sampleStore !! j)
  ∧ (Material.owner syllabus ≠ User._id drSalma →
       r.2 = sampleStore
       ∧ ∀ c body, r.1 ≠ Sent c body)
  ∧ ((∀ c body, r.1 ≠ Sent c body) →
       r.2 = sampleStore)
  ∧ ∃ material',
      materials r.2 !! 21 = Some material'
      ∧ Material.type material' = Material.type syllabus
      ∧ Material.owner material' = Material.owner syllabus
      ∧ Material.folder material' = Material.folder syllabus
      ∧ Material.fileName material' = Material.fileName syllabus
      ∧ Material.filePath material' = Material.filePath syllabus
      ∧ Material.fileSize material' = Material.fileSize syllabus
      ∧ Material.viewCount material' = Material.viewCount syllabus
      ∧ Material.downloadCount material' = Material.downloadCount syllabus
      ∧ Material.sharedWith material' = Material.sharedWith syllabus
      ∧ Material.course material' = Material.course syllabus
      ∧ Material.grade material' = Material.grade syllabus
      ∧ Material.program material' = Material.program syllabus
      ∧ (MaterialPatch.title retitle = None →
           Material.title material' = Material.title syllabus)
      ∧ (MaterialPatch.description retitle = None →
           Material.description material' = Material.description syllabus)
      ∧ (MaterialPatch.tags retitle = None →
           Material.tags material' = Material.tags syllabus)
      ∧ (MaterialPatch.dueDate retitle = None →
           Material.dueDate material' = Material.dueDate syllabus)
      ∧ (MaterialPatch.priority retitle = None →
           Material.priority material' = Material.priority syllabus)
      ∧ (MaterialPatch.isPublic retitle = None →
           Material.isPublic material' = Material.isPublic syllabus)
      ∧ (MaterialPatch.url retitle = None ∨ Material.type syllabus ≠ link →
           Material.url material' = Material.url syllabus).
Proof.
  apply (updateMaterial_frame drSalma 21 retitle syllabus sampleStore).
  reflexivity.
Defined.

(** X2.  [DELETE /api/materials/:id] by the owner removes the record
    whether or not the file could be deleted, touches no other record
    and no file but the material's own, and a second request for the
    same id is answered 404 and changes nothing.  Anyone else is
    answered 404, and neither the record nor the file is touched. *)
Theorem deleteMaterial_removes unlinkFails u id material st :
  materials st !! id = Some material →
  let r := deleteMaterial unlinkFails u id st in
  (Material.owner material = User._id u →
     r.1.1 = Message 200 "Material deleted successfully"
     ∧ materials r.1.2 !! id = None
     ∧ (∀ j, j ≠ id → materials r.1.2 !! j = materials st !! j)
     ∧ folders r.1.2 = folders st
     ∧ sessions r.1.2 = sessions st
     ∧ disk r.1.2 ⊆ disk st
     ∧ (∀ p, p ∈ disk st → Material.filePath material ≠ Some p →
             p ∈ disk r.1.2)
     ∧ ∀ unlinkFails' u',
         deleteMaterial unlinkFails' u' id r.1.2
         = (Message 404 "Material not found", r.1.2, []))
  ∧ (Material.owner material ≠ User._id u →
     r = (Message 404 "Material not found", st, [])).
Proof.
  intros Hm. cbv zeta.
  destruct (deleteMaterial unlinkFails u id st) as [[reply st'] tr] eqn:Hr.
  unfold deleteMaterial in Hr. rewrite Hm in Hr. simpl.
  split; intros Hown; [|by rewrite decide_False in Hr].
  rewrite decide_True in Hr by done.
  assert (reply = Message 200 "Material deleted successfully"
          ∧ materials st' = delete id (materials st)
          ∧ folders st' = folders st ∧ sessions st' = sessions st
          ∧ disk st' ⊆ disk st
          ∧ (∀ p, p ∈ disk st → Material.filePath material ≠ Some p →
                  p ∈ disk st')) as (-> & Hms & ? & ? & ? & ?).
  { destruct (truthy (Material.filePath material)) as [p|] eqn:Hp;
      [|by simplify_eq/=].
    assert (Material.filePath material = Some p) as Hpath.
    { destruct (Material.filePath material) as [q|]; [|done]. simpl in Hp.
      by case_decide; simplify_eq. }
    unfold unlink in Hr. destruct (decide (p ∈ disk st)) as [Hin|Hin];
      [destruct (unlinkFails p)|]; simplify_eq/=; split_and!; try done.
    - intros q Hq. by apply elem_of_difference in Hq as [? _].
    - intros q Hq Hne. apply elem_of_difference. split; [done|].
      rewrite elem_of_singleton. congruence. }
  split_and!; try done.
  - rewrite Hms. apply lookup_delete_eq.
  - intros j Hj. rewrite Hms. by apply lookup_delete_ne.
  - intros. unfold deleteMaterial. by rewrite Hms, lookup_delete_eq.
Qed.

Lemma deleteMaterial_removes_witness :
  let r := deleteMaterial (λ _, true) drSalma 21 sampleStore in
  (Material.owner syllabus = User._id drSalma →
     r.1.1 = Message 200 "Material deleted successfully"
     ∧ materials r.1.2 !! 21 = None
     ∧ (∀ j, j ≠ 21 → materials r.1.2 !! j = materials sampleStore !! j)
     ∧ folders r.1.2 = folders sampleStore
     ∧ sessions r.1.2 = sessions sampleStore
     ∧ disk r.1.2 ⊆ disk sampleStore
     ∧ (∀ p, p ∈ disk sampleStore → Material.filePath syllabus ≠ Some p →
             p ∈ disk r.1.2)
     ∧ ∀ unlinkFails' u',
         deleteMaterial unlinkFails' u' 21 r.1.2
         = (Message 404 "Material not found", r.1.2, []))
  ∧ (Material.owner syllabus ≠ User._id drSalma →
     r = (Message 404 "Material not found", sampleStore, [])).
Proof.
  apply (deleteMaterial_removes (λ _, true) drSalma 21 syllabus sampleStore).
  reflexivity.
Defined.

(** ** Reading a material *)

Lemma truthy_Some o s : truthy o = Some s → o = Some s ∧ s ≠ "".
Proof.
  destruct o as [x|]; [|done]. simpl. case_decide; [done|].
  by intros [= ->].
Qed.




(** The student downloads the public slides; the grade 12 material that
    is not public ends in the catch for the same student, and in a 403
    for a teacher who does not own it. *)
Example read_three_ways :
  (downloadMaterial sampleStudent 23 sampleStore).1 = Sent 200 "/uploads/1/d.pptx"
  ∧ downloadMaterial sampleStudent 20 sampleStore = (server_error, sampleStore)
  ∧ downloadMaterial otherTeacher 20 sampleStore
    = (Message 403 "Access denied", sampleStore).
Proof. vm_compute. done. Qed.

(** ** Creating a material *)

Lemma validate_spec m :
  Material.validate m = true →
  Material.title m ≠ "" ∧ is_Some (Material.folder m)
  ∧ (Material.type m = link → is_Some (truthy (Material.url m)))
  ∧ (Material.type m ≠ link →
       is_Some (truthy (Material.fileName m))
       ∧ is_Some (truthy (Material.filePath m))).
Proof.
  unfold Material.validate. intros H.
  apply andb_prop in H as [H H3]. apply andb_prop in H as [H1 H2].
  apply bool_decide_eq_true_1 in H1. apply bool_decide_eq_true_1 in H2.
  split_and!; try done.
  - intros Hl. rewrite decide_True in H3 by done.
    by apply bool_decide_eq_true_1 in H3.
  - intros Hl. rewrite decide_False in H3 by done.
    apply andb_prop in H3 as [H3 H4].
    by split; eapply bool_decide_eq_true_1.
Qed.

Lemma insertMaterial_cases newId m st :
  (Material.validate m = true
   ∧ insertMaterial newId m st
     = (Sent 201 (newId, m), set_materials (<[newId := m]> (materials st)) st))
  ∨ insertMaterial newId m st = (server_error, st).
Proof. unfold insertMaterial. destruct (Material.validate m); auto. Qed.

Lemma received_disk file st :
  disk (received file st)
  = match file with
    | Some f => {[ Upload.path f ]} ∪ disk st
    | None => disk st
    end.
Proof. by destruct file. Qed.

(** What [POST /api/materials] stores when it stores anything; the
    uploaded file is in the upload directory either way. *)
Lemma createMaterial_cases newId u b file st0 :
  let st := received file st0 in
  (∃ m, createMaterial newId u b file st0
        = (Sent 201 (newId, m), set_materials (<[newId := m]> (materials st)) st)
      ∧ Material.validate m = true
      ∧ Material.owner m = User._id u
      ∧ Material.viewCount m = 0 ∧ Material.downloadCount m = 0
      ∧ Material.sharedWith m = []
      ∧ filed (folders st) m ∧ file_xor_url m)
  ∨ ((createMaterial newId u b file st0).2 = st
     ∧ ∀ c body, (createMaterial newId u b file st0).1 ≠ Sent c body).
Proof.
  unfold createMaterial. cbv zeta. generalize (received file st0). intros st.
  destruct (nonempty _) as [title|]; [|by right].
  destruct (_ ≫= parse_type) as [type|]; [|by right].
  destruct (_ ≫= parse_course) as [course|]; [|by right].
  destruct (_ ≫= parse_grade) as [grade|]; [|by right].
  destruct (_ ≫= parse_program) as [program|]; [|by right].
  case_bool_decide as Hf; [by right|].
  assert (∀ m, Material.folder m = MaterialBody.folder b →
               Material.owner m = User._id u →
               Material.validate m = true → filed (folders st) m) as Hfiled.
  { intros m Hfm Hom Hv. apply validate_spec in Hv as (_ & [f Hfol] & _).
    rewrite Hfm in Hfol. rewrite Hfol in Hf.
    destruct (findOne _ (folders st)) as [[i fd]|] eqn:Hfind;
      [|by destruct Hf].
    apply findOne_elim in Hfind as [Hi [-> Ho]%bool_decide_eq_true_1].
    exists f, fd. by rewrite Hfm, Hom. }
  destruct (decide (type = link)) as [->|Hl].
  - destruct (truthy (MaterialBody.url b)) as [url|] eqn:Hurl; [|by right].
    destruct (parse_priority _) as [p|]; [|by right].
    destruct (insertMaterial_cases newId
      (with_url url (materialData u b title link course grade program p)) st)
      as [[Hv ->]| ->]; [left|by right].
    eexists. split; [done|]. split_and!; try done.
    + by apply Hfiled.
    + unfold file_xor_url. apply validate_spec in Hv as (_ & _ & Hv & _).
      destruct (decide _) as [Hl|Hl]; [|by destruct Hl].
      split; [by apply Hv|done].
  - destruct file as [f|]; [|by right].
    destruct (parse_priority _) as [p|]; [|by right].
    destruct (insertMaterial_cases newId
      (with_file f (materialData u b title type course grade program p)) st)
      as [[Hv ->]| ->]; [left|by right].
    eexists. split; [done|]. split_and!; try done.
    + by apply Hfiled.
    + unfold file_xor_url. apply validate_spec in Hv as (_ & _ & _ & Hv).
      destruct (decide _) as [Hl'|Hl']; [by destruct Hl|].
      split; [done|]. by apply Hv.
Qed.

(** X4.  [POST /api/materials] leaves the folders and the sessions as
    they were; the uploaded file, when the request carries one, is in
    the upload directory whatever the answer, and no other file comes or
    goes.  The material collection changes only when the answer is 201:
    the new material is then stored under the new id beside the old
    ones, belongs to the caller, starts with both counters at zero and
    an empty share array, and sits in a folder that exists and belongs
    to the caller.  A folder id that names no folder, or somebody
    else's, is answered 400 and no material is stored. *)
Theorem createMaterial_into_own_folder newId u b file st :
  materials st !! newId = None →
  let r := createMaterial newId u b file st in
  folders r.2 = folders st ∧ sessions r.2 = sessions st
  ∧ (∀ f, file = Some f → disk r.2 = {[ Upload.path f ]} ∪ disk st)
  ∧ (file = None → disk r.2 = disk st)
  ∧ (∀ j m, materials st !! j = Some m → materials r.2 !! j = Some m)
  ∧ (∀ c i m, r.1 = Sent c (i, m) →
       c = 201 ∧ i = newId
       ∧ materials r.2 = <[newId := m]> (materials st)
       ∧ Material.owner m = User._id u
       ∧ Material.viewCount m = 0 ∧ Material.downloadCount m = 0
       ∧ Material.sharedWith m = []
       ∧ ∃ f folder, Material.folder m = Some f
                     ∧ MaterialBody.folder b = Some f
                     ∧ folders st !! f = Some folder
                     ∧ Folder.owner folder = User._id u)
  ∧ ((∀ c body, r.1 ≠ Sent c body) → r.2 = received file st)
  ∧ (∀ f, MaterialBody.folder b = Some f →
          (∀ folder, folders st !! f = Some folder →
                     Folder.owner folder ≠ User._id u) →
          r = (Message 400 "Invalid folder", received file st)
          ∨ r = (Invalid (material_create_errors b), received file st)).
Proof.
  intros Hfresh. cbv zeta.
  assert (∀ c i m, (createMaterial newId u b file st).1 = Sent c (i, m) →
                   Material.folder m = MaterialBody.folder b) as Hfolder.
  { unfold createMaterial, insertMaterial. intros c i m.
    repeat (case_match || case_decide || case_bool_decide);
      simpl; try done; by intros [= <- <- <-]. }
  destruct (received_effect file st) as (Hfs & Hms & Hss).
  pose proof (received_disk file st) as Hd.
  assert (disk (createMaterial newId u b file st).2 = disk (received file st))
    as Hdisk.
  { destruct (createMaterial_cases newId u b file st)
      as [(m & -> & _)|[-> _]]; done. }
  split_and!.
  - destruct (createMaterial_cases newId u b file st)
      as [(m & -> & _)|[-> _]]; done.
  - destruct (createMaterial_cases newId u b file st)
      as [(m & -> & _)|[-> _]]; done.
  - intros f ->. by rewrite Hdisk.
  - intros ->. by rewrite Hdisk.
  - intros j m Hj.
    destruct (createMaterial_cases newId u b file st)
      as [(m' & -> & _)|[-> _]]; [|by rewrite Hms].
    simpl. rewrite lookup_insert_ne, Hms; [done|]. congruence.
  - intros c i m Hr. specialize (Hfolder c i m Hr).
    destruct (createMaterial_cases newId u b file st)
      as [(m' & Heq & _ & ? & ? & ? & ? & (f & folder & Hf & Hl & Ho) & _)
         |[_ Hno]]; [|by destruct (Hno c (i, m))].
    rewrite Heq in Hr |- *. simpl in Hr. injection Hr as <- <- <-.
    rewrite Hfs in Hl. simpl. rewrite Hms.
    split_and!; try done. exists f, folder. split_and!; try done.
    + by rewrite <- Hfolder.
    + by rewrite Ho.
  - intros Hno.
    destruct (createMaterial_cases newId u b file st)
      as [(m' & Heq & _)|[-> _]]; [|done].
    rewrite Heq in Hno. by destruct (Hno 201 (newId, m')).
  - intros f Hf Hnone. unfold createMaterial. cbv zeta.
    destruct (nonempty _) as [title|]; [|by right].
    destruct (_ ≫= parse_type) as [type|]; [|by right].
    destruct (_ ≫= parse_course) as [course|]; [|by right].
    destruct (_ ≫= parse_grade) as [grade|]; [|by right].
    destruct (_ ≫= parse_program) as [program|]; [|by right].
    left. rewrite bool_decide_eq_true_2; [done|].
    rewrite Hf. split; [done|]. apply findOne_None. intros i x Hi.
    apply bool_decide_eq_false. intros [-> Ho]. rewrite Hfs in Hi.
    by apply (Hnone x).
Qed.

Lemma createMaterial_into_own_folder_witness :
  let r := createMaterial 24 drSalma (linkBody (Some "https://x"))
             (Some someUpload) sampleStore in
  folders r.2 = folders sampleStore ∧ sessions r.2 = sessions sampleStore
  ∧ (∀ f, Some someUpload = Some f →
          disk r.2 = {[ Upload.path f ]} ∪ disk sampleStore)
  ∧ (Some someUpload = None → disk r.2 = disk sampleStore)
  ∧ (∀ j m, materials sampleStore !! j = Some m → materials r.2 !! j = Some m)
  ∧ (∀ c i m, r.1 = Sent c (i, m) →
       c = 201 ∧ i = 24
       ∧ materials r.2 = <[24 := m]> (materials sampleStore)
       ∧ Material.owner m = User._id drSalma
       ∧ Material.viewCount m = 0 ∧ Material.downloadCount m = 0
       ∧ Material.sharedWith m = []
       ∧ ∃ f folder, Material.folder m = Some f
                     ∧ MaterialBody.folder (linkBody (Some "https://x")) = Some f
                     ∧ folders sampleStore !! f = Some folder
                     ∧ Folder.owner folder = User._id drSalma)
  ∧ ((∀ c body, r.1 ≠ Sent c body) →
     r.2 = received (Some someUpload) sampleStore)
  ∧ (∀ f, MaterialBody.folder (linkBody (Some "https://x")) = Some f →
          (∀ folder, folders sampleStore !! f = Some folder →
                     Folder.owner folder ≠ User._id drSalma) →
          r = (Message 400 "Invalid folder", received (Some someUpload) sampleStore)
          ∨ r = (Invalid (material_create_errors (linkBody (Some "https://x"))),
                 received (Some someUpload) sampleStore)).
Proof.
  apply (createMaterial_into_own_folder 24 drSalma (linkBody (Some "https://x"))
           (Some someUpload) sampleStore).
  reflexivity.
Defined.

(** A link without URL sent with a file: the answer is 400 and no
    material is stored, yet the file has reached the upload directory. *)
Example refused_upload_stays_on_disk :
  let r := createMaterial 24 drSalma (linkBody None) (Some someUpload) sampleStore in
  r.1 = Message 400 "URL is required for link type"
  ∧ materials r.2 = materials sampleStore
  ∧ (Upload.path someUpload ∉ disk sampleStore)
  ∧ (Upload.path someUpload ∈ disk r.2).
Proof.
  cbv zeta. split_and!; [vm_compute; reflexivity | vm_compute; reflexivity | |].
  - apply (bool_decide_unpack (Upload.path someUpload ∉ disk sampleStore)).
    vm_compute. exact I.
  - apply (bool_decide_unpack _). vm_compute. exact I.
Qed.

(** What [POST /api/folders/:id/materials] stores when it stores
    anything. *)
Lemma uploadMaterial_cases newId u id b file st0 :
  let st := received file st0 in
  (∃ m folder,
      uploadMaterial newId u id b file st0
      = (Sent 201 (newId, m), set_materials (<[newId := m]> (materials st)) st)
      ∧ Material.validate m = true
      ∧ folders st !! id = Some folder
      ∧ Folder.owner folder = User._id u
      ∧ Material.folder m = Some id
      ∧ Material.owner m = User._id u
      ∧ Material.course m = Folder.course folder
      ∧ Material.grade m = Folder.grade folder
      ∧ Material.program m = Folder.program folder
      ∧ Material.isPublic m = false
      ∧ Material.viewCount m = 0 ∧ Material.downloadCount m = 0
      ∧ Material.sharedWith m = []
      ∧ file_xor_url m)
  ∨ ((uploadMaterial newId u id b file st0).2 = st
     ∧ ∀ c body, (uploadMaterial newId u id b file st0).1 ≠ Sent c body).
Proof.
  unfold uploadMaterial. cbv zeta. generalize (received file st0). intros st.
  destruct (nonempty _) as [title|]; [|by right].
  destruct (_ ≫= parse_type) as [type|]; [|by right].
  destruct (folders st !! id) as [folder|] eqn:Hfolder; [|by right].
  destruct (decide (Folder.owner folder = User._id u)) as [Hown|]; [|by right].
  destruct (decide (type = link)) as [->|Hl].
  - destruct (match UploadBody.priority b with
              | Some p => parse_priority p | None => Some medium end)
      as [p|]; [|by right].
    match goal with |- context [insertMaterial newId ?m st] =>
      destruct (insertMaterial_cases newId m st) as [[Hv ->]| ->];
        [left|by right] end.
    eexists _, folder. split; [done|]. split_and!; try done.
    unfold file_xor_url. apply validate_spec in Hv as (_ & _ & Hv & _).
    destruct (decide _) as [Hl|Hl]; [|by destruct Hl].
    split; [by apply Hv|done].
  - destruct file as [f|]; [|by right].
    destruct (match UploadBody.priority b with
              | Some p => parse_priority p | None => Some medium end)
      as [p|]; [|by right].
    match goal with |- context [insertMaterial newId ?m st] =>
      destruct (insertMaterial_cases newId m st) as [[Hv ->]| ->];
        [left|by right] end.
    eexists _, folder. split; [done|]. split_and!; try done.
    unfold file_xor_url. apply validate_spec in Hv as (_ & _ & _ & Hv).
    destruct (decide _) as [Hl'|Hl']; [by destruct Hl|].
    split; [done|]. by apply Hv.
Qed.

(** X5.  A material uploaded into a folder takes the folder's course,
    grade and program, is private, and is stored only when the folder
    belongs to the caller.  The request leaves the folders, the sessions
    and the other materials as they were; the uploaded file, when the
    request carries one, is in the upload directory whatever the answer,
    and no other file comes or goes.  A link uploaded without a URL is
    not refused by the handler: it is the schema that rejects it, so the
    answer is 500 "Server error" and no material is stored. *)
Theorem uploadMaterial_inherits newId u id b file st :
  materials st !! newId = None →
  let r := uploadMaterial newId u id b file st in
  folders r.2 = folders st ∧ sessions r.2 = sessions st
  ∧ (∀ f, file = Some f → disk r.2 = {[ Upload.path f ]} ∪ disk st)
  ∧ (file = None → disk r.2 = disk st)
  ∧ (∀ j m, materials st !! j = Some m → materials r.2 !! j = Some m)
  ∧ (∀ c i m, r.1 = Sent c (i, m) →
       c = 201 ∧ i = newId
       ∧ materials r.2 = <[newId := m]> (materials st)
       ∧ ∃ folder, folders st !! id = Some folder
           ∧ Folder.owner folder = User._id u
           ∧ Material.folder m = Some id
           ∧ Material.owner m = User._id u
           ∧ Material.course m = Folder.course folder
           ∧ Material.grade m = Folder.grade folder
           ∧ Material.program m = Folder.program folder
           ∧ Material.isPublic m = false
           ∧ Material.sharedWith m = [])
  ∧ ((∀ c body, r.1 ≠ Sent c body) → r.2 = received file st)
  ∧ (∀ folder,
       folders st !! id = Some folder → Folder.owner folder = User._id u →
       trim (default "" (UploadBody.title b)) ≠ "" →
       UploadBody.type b = Some "link" →
       truthy (UploadBody.url b) = None →
       r = (server_error, received file st)).
Proof.
  intros Hfresh. cbv zeta.
  destruct (received_effect file st) as (Hfs & Hms & Hss).
  pose proof (received_disk file st) as Hd.
  assert (disk (uploadMaterial newId u id b file st).2 = disk (received file st))
    as Hdisk.
  { destruct (uploadMaterial_cases newId u id b file st)
      as [(m & folder & -> & _)|[-> _]]; done. }
  split; [|split; [|split; [by intros f ->; rewrite Hdisk
                           |split; [by intros ->; rewrite Hdisk|]]]].
  { destruct (uploadMaterial_cases newId u id b file st)
      as [(m & folder & -> & _)|[-> _]]; done. }
  { destruct (uploadMaterial_cases newId u id b file st)
      as [(m & folder & -> & _)|[-> _]]; done. }
  clear Hdisk Hd.
  destruct (uploadMaterial_cases newId u id b file st)
    as [(m & folder & Heq & _ & Hf & ? & ? & ? & ? & ? & ? & ? & _ & _ & ? & Hx)
       |[Heq Hno]].
  - rewrite Heq. simpl. rewrite Hfs in Hf. rewrite Hms. split_and!; try done.
    + intros j m' Hj. rewrite lookup_insert_ne; [done|]. congruence.
    + intros c i m' [= <- <- <-]. split_and!; try done. exists folder.
      by split_and!.
    + intros Hno. by destruct (Hno 201 (newId, m)).
    + intros folder' Hf' _ _ Ht Hurl. exfalso.
      assert (Material.type m = link) as Hl.
      { clear -Heq Ht. unfold uploadMaterial, insertMaterial in Heq.
        rewrite Ht in Heq. simpl in Heq.
        repeat (case_match || case_decide); by simplify_eq/=. }
      assert (Material.url m = UploadBody.url b) as Hu.
      { clear -Heq Ht. unfold uploadMaterial, insertMaterial in Heq.
        rewrite Ht in Heq. simpl in Heq.
        repeat (case_match || case_decide); by simplify_eq/=. }
      unfold file_xor_url in Hx. rewrite decide_True in Hx by done.
      destruct Hx as [[? Hx] _]. congruence.
  - rewrite Heq. rewrite Hms. split_and!; try done.
    + intros c i m Hr. by destruct (Hno c (i, m)).
    + intros folder Hf Hown Ht Hty Hurl. clear Heq Hno.
      unfold uploadMaterial, nonempty. cbv zeta. rewrite decide_False by done.
      rewrite Hty, Hfs, Hf. simpl. rewrite decide_True by done.
      unfold insertMaterial, Material.validate. simpl.
      rewrite Hurl. simpl. rewrite andb_false_r.
      by destruct (match UploadBody.priority b with
                   | Some p => parse_priority p | None => Some medium end).
Qed.

Lemma uploadMaterial_inherits_witness :
  let r := uploadMaterial 24 drSalma 10 (linkUpload None) (Some someUpload)
             sampleStore in
  folders r.2 = folders sampleStore ∧ sessions r.2 = sessions sampleStore
  ∧ (∀ f, Some someUpload = Some f →
          disk r.2 = {[ Upload.path f ]} ∪ disk sampleStore)
  ∧ (Some someUpload = None → disk r.2 = disk sampleStore)
  ∧ (∀ j m, materials sampleStore !! j = Some m → materials r.2 !! j = Some m)
  ∧ (∀ c i m, r.1 = Sent c (i, m) →
       c = 201 ∧ i = 24
       ∧ materials r.2 = <[24 := m]> (materials sampleStore)
       ∧ ∃ folder, folders sampleStore !! 10 = Some folder
           ∧ Folder.owner folder = User._id drSalma
           ∧ Material.folder m = Some 10
           ∧ Material.owner m = User._id drSalma
           ∧ Material.course m = Folder.course folder
           ∧ Material.grade m = Folder.grade folder
           ∧ Material.program m = Folder.program folder
           ∧ Material.isPublic m = false
           ∧ Material.sharedWith m = [])
  ∧ ((∀ c body, r.1 ≠ Sent c body) →
     r.2 = received (Some someUpload) sampleStore)
  ∧ (∀ folder,
       folders sampleStore !! 10 = Some folder →
       Folder.owner folder = User._id drSalma →
       trim (default "" (UploadBody.title (linkUpload None))) ≠ "" →
       UploadBody.type (linkUpload None) = Some "link" →
       truthy (UploadBody.url (linkUpload None)) = None →
       r = (server_error, received (Some someUpload) sampleStore)).
Proof.
  apply (uploadMaterial_inherits 24 drSalma 10 (linkUpload None)
           (Some someUpload) sampleStore).
  reflexivity.
Defined.

(** ** The folder tree through the requests *)

Ltac route_cases :=
  repeat (case_match || case_decide || case_bool_decide);
  simplify_eq/=; try done.

Lemma updateMaterial_folders u id b st :
  folders (updateMaterial u id b st).2 = folders st.
Proof. unfold updateMaterial. route_cases. Qed.

Lemma deleteMaterial_folders uf u id st :
  folders (deleteMaterial uf u id st).1.2 = folders st.
Proof. unfold deleteMaterial. route_cases. Qed.

Lemma uploadMaterial_folders newId u id b file st :
  folders (uploadMaterial newId u id b file st).2 = folders st.
Proof.
  destruct (received_effect file st) as (Hfs & _).
  destruct (uploadMaterial_cases newId u id b file st)
    as [(m & folder & -> & _)|[-> _]]; done.
Qed.

Lemma createSession_frame newId provider demo u b st :
  folders (createSession newId provider demo u b st).2 = folders st
  ∧ materials (createSession newId provider demo u b st).2 = materials st.
Proof. unfold createSession. route_cases. Qed.

Lemma deleteSession_frame pf u id st :
  folders (deleteSession pf u id st).1.2 = folders st
  ∧ materials (deleteSession pf u id st).1.2 = materials st.
Proof. unfold deleteSession. route_cases. Qed.

Lemma joinSession_frame now u id st :
  folders (joinSession now u id st).2 = folders st
  ∧ materials (joinSession now u id st).2 = materials st.
Proof. unfold joinSession. route_cases. Qed.

Lemma preSave_set_path fs this saved :
  Folder.preSave fs this = Some saved →
  ∃ p, saved = Folder.set_path p this.
Proof.
  unfold Folder.preSave. intros H. repeat case_match; simplify_eq; eauto.
Qed.

Lemma updateFolder_kept u id b st i f' :
  folders (updateFolder u id b st).2 !! i = Some f' →
  ∃ f, folders st !! i = Some f
       ∧ Folder.parentFolder f' = Folder.parentFolder f
       ∧ Folder.owner f' = Folder.owner f.
Proof.
  unfold updateFolder.
  case_decide; [by eauto|].
  destruct (folders st !! id) as [folder|] eqn:Hid; [|by eauto].
  case_decide; [|by eauto].
  destruct (match _ with Some n => findOne _ _ | None => None end); [by eauto|].
  unfold Folder.save. destruct (Folder.validate _); [|by eauto].
  destruct (Folder.preSave _ _) as [saved|] eqn:Hsave; [|by eauto].
  simpl. intros Hi. apply lookup_insert_Some in Hi as [[<- <-]|[Hne Hi]]; [|by eauto].
  exists folder. apply preSave_set_path in Hsave as [p ->]. by split_and!.
Qed.

(** No request stores a new folder, and none gives a folder another
    parent or another owner. *)
Lemma serve_folders_kept st st' :
  serve st st' →
  ∀ i f', folders st' !! i = Some f' →
    ∃ f, folders st !! i = Some f
         ∧ Folder.parentFolder f' = Folder.parentFolder f
         ∧ Folder.owner f' = Folder.owner f.
Proof.
  assert (∀ fs, fs ⊆ folders st →
            ∀ i f', fs !! i = Some f' →
              ∃ f, folders st !! i = Some f
                   ∧ Folder.parentFolder f' = Folder.parentFolder f
                   ∧ Folder.owner f' = Folder.owner f) as Hsub.
  { intros fs Hfs i f' Hi. exists f'. split; [|done].
    by eapply lookup_weaken. }
  destruct 1 as [? ? Hstep| | | | | |].
  - destruct Hstep.
    + apply Hsub. by rewrite createFolder_unchanged.
    + apply updateFolder_kept.
    + apply Hsub. eapply cascade_folders. by eapply deleteFolderRoute_cascade.
    + apply Hsub. by rewrite (proj1 (createMaterial_effect _ _ _ _ _)).
    + apply Hsub. by rewrite (proj1 (getMaterial_effect _ _ _)).
    + apply Hsub. by rewrite (proj1 (downloadMaterial_effect _ _ _)).
    + apply Hsub. by rewrite shareMaterial_unchanged.
    + apply Hsub. by rewrite (proj1 (updateSession_effect _ _ _ _)).
    + by apply Hsub.
  - apply Hsub. by rewrite updateMaterial_folders.
  - apply Hsub. by rewrite deleteMaterial_folders.
  - apply Hsub. by rewrite uploadMaterial_folders.
  - apply Hsub. by rewrite (proj1 (createSession_frame _ _ _ _ _ _)).
  - apply Hsub. by rewrite (proj1 (deleteSession_frame _ _ _ _)).
  - apply Hsub. by rewrite (proj1 (joinSession_frame _ _ _ _)).
Qed.

Lemma serve_forest st st' :
  serve st st' → forest (folders st) → forest (folders st').
Proof.
  destruct 1 as [? ? Hstep| | | | | |]; [by apply step_forest|..].
  - by rewrite updateMaterial_folders.
  - by rewrite deleteMaterial_folders.
  - by rewrite uploadMaterial_folders.
  - by rewrite (proj1 (createSession_frame _ _ _ _ _ _)).
  - by rewrite (proj1 (deleteSession_frame _ _ _ _)).
  - by rewrite (proj1 (joinSession_frame _ _ _ _)).
Qed.

Lemma forest_sampleStore : forest (folders sampleStore).
Proof.
  split.
  - apply (bool_decide_unpack (parents_exist (folders sampleStore))).
    vm_compute. exact I.
  - exists (λ i, i).
    apply (bool_decide_unpack (ranked (λ i, i) (folders sampleStore))).
    vm_compute. exact I.
Qed.

(** X9.  No request stores a new folder or gives a folder another parent
    or owner: every folder found after a request was there before it,
    under the same parent.  So folders that form a forest, every parent
    pointer naming a folder of the collection and no chain of them
    closing a cycle, still do after any one request, and the deletion of
    any folder then returns. *)
Theorem request_keeps_forest st st' :
  forest (folders st) → serve st st' →
  forest (folders st')
  ∧ (∀ i f', folders st' !! i = Some f' →
       ∃ f, folders st !! i = Some f
            ∧ Folder.parentFolder f' = Folder.parentFolder f
            ∧ Folder.owner f' = Folder.owner f)
  ∧ ∀ unlinkFails u id, ∃ fuel reply st'' tr,
      deleteFolderRoute unlinkFails fuel u id st' = Some (reply, st'', tr).
Proof.
  intros Hf0 Hserve.
  assert (forest (folders st')) as Hf by (by eapply serve_forest).
  split_and!; [done | by apply serve_folders_kept |].
  intros unlinkFails u id.
  destruct Hf as [_ [rank Hr]]. apply ranked_height in Hr as [n Hn].
  destruct (deleteFolder_returns unlinkFails n id st' (Hn id)) as [[st'' tr] Hdel].
  exists n. unfold deleteFolderRoute.
  destruct (folders st' !! id) as [folder|]; [|eauto].
  destruct (decide (Folder.owner folder = User._id u)); [|eauto].
  rewrite Hdel. simpl. eauto.
Qed.

Lemma request_keeps_forest_witness :
  forest (folders (updateFolder drSalma 10 renameBody sampleStore).2)
  ∧ (∀ i f',
       folders (updateFolder drSalma 10 renameBody sampleStore).2 !! i = Some f' →
       ∃ f, folders sampleStore !! i = Some f
            ∧ Folder.parentFolder f' = Folder.parentFolder f
            ∧ Folder.owner f' = Folder.owner f)
  ∧ ∀ unlinkFails u id, ∃ fuel reply st'' tr,
      deleteFolderRoute unlinkFails fuel u id
        (updateFolder drSalma 10 renameBody sampleStore).2
      = Some (reply, st'', tr).
Proof.
  apply (request_keeps_forest sampleStore
           (updateFolder drSalma 10 renameBody sampleStore).2).
  - apply forest_sampleStore.
  - apply serve_step, step_updateFolder.
Defined.

(** ** Stored materials *)

Lemma updateFolder_saved u id b st :
  folders (updateFolder u id b st).2 = folders st
  ∨ ∃ old saved, folders st !! id = Some old
      ∧ folders (updateFolder u id b st).2 = <[id := saved]> (folders st)
      ∧ Folder.owner saved = Folder.owner old.
Proof.
  unfold updateFolder.
  destruct (decide (_ = Some "")); [by left|].
  destruct (folders st !! id) as [old|] eqn:Hold; [|by left].
  destruct (decide (Folder.owner old = User._id u)) as [Hown|]; [|by left].
  destruct (match _ with Some n0 => findOne _ _ | None => None end);
    [by left|].
  unfold Folder.save. destruct (Folder.validate _); [|by left].
  destruct (Folder.preSave _ _) as [saved|] eqn:Hpre; [|by left].
  right. exists old, saved. split_and!; try done.
  by apply preSave_set_path in Hpre as [p ->].
Qed.

(** What [PUT /api/materials/:id] stores when it stores anything. *)
Lemma updateMaterial_cases u id b st :
  (∃ m m', materials st !! id = Some m
      ∧ updateMaterial u id b st
        = (Sent 200 (id, m'), set_materials (<[id := m']> (materials st)) st)
      ∧ Material.validate m' = true
      ∧ Material.type m' = Material.type m
      ∧ Material.owner m' = Material.owner m
      ∧ Material.folder m' = Material.folder m
      ∧ Material.fileName m' = Material.fileName m
      ∧ Material.filePath m' = Material.filePath m
      ∧ Material.fileSize m' = Material.fileSize m
      ∧ Material.sharedWith m' = Material.sharedWith m
      ∧ (Material.url m' = Material.url m
         ∨ Material.type m = link ∧ is_Some (truthy (Material.url m'))))
  ∨ ((updateMaterial u id b st).2 = st
     ∧ ∀ c body, (updateMaterial u id b st).1 ≠ Sent c body).
Proof.
  unfold updateMaterial.
  destruct (decide (_ = Some "")); [by right|].
  destruct (materials st !! id) as [m|] eqn:Hm; [|by right].
  destruct (decide (Material.owner m = User._id u)); [|by right].
  destruct (match truthy (MaterialPatch.priority b) with
            | Some p => parse_priority p
            | None => Some (Material.priority m) end) as [priority|];
    [|by right].
  destruct (Material.validate _) eqn:Hv; [|by right].
  left. exists m, (apply_material_patch b priority m).
  split_and!; try done. simpl.
  destruct (truthy (MaterialPatch.url b)) as [url|] eqn:Hurl; [|by left].
  case_decide; [right|by left]. split; [done|].
  apply truthy_Some in Hurl as [_ Hne]. simpl. by rewrite decide_False.
Qed.

Lemma well_stored_set_viewCount fs n m :
  well_stored fs m → well_stored fs (Material.set_viewCount n m).
Proof. by destruct m. Qed.

Lemma well_stored_set_downloadCount fs n m :
  well_stored fs m → well_stored fs (Material.set_downloadCount n m).
Proof. by destruct m. Qed.

Lemma well_stored_alter fs (g : Material.t → Material.t) (id : nat)
    (ms : gmap nat Material.t) :
  (∀ m, well_stored fs m → well_stored fs (g m)) →
  map_Forall (λ _ m, well_stored fs m) ms →
  map_Forall (λ _ m, well_stored fs m) (alter g id ms).
Proof.
  intros Hg Hinv i m Hi. apply lookup_alter_Some in Hi
    as [(-> & m0 & Hm0 & ->)|[_ Hi]]; [|by apply (Hinv i)].
  apply Hg. by apply (Hinv i).
Qed.

Lemma filed_insert fs id old saved m :
  fs !! id = Some old → Folder.owner saved = Folder.owner old →
  filed fs m → filed (<[id := saved]> fs) m.
Proof.
  intros Hold Ho (f & folder & Hf & Hfolder & Hown).
  destruct (decide (f = id)) as [->|Hne].
  - exists id, saved. rewrite lookup_insert_eq. split_and!; [done..|].
    congruence.
  - exists f, folder. by rewrite lookup_insert_ne.
Qed.

Lemma serve_well_stored st st' :
  serve st st' →
  map_Forall (λ _ m, well_stored (folders st) m) (materials st) →
  map_Forall (λ _ m, well_stored (folders st') m) (materials st').
Proof.
  intros Hserve Hinv.
  destruct Hserve as [? ? Hstep| | | | | |]; [destruct Hstep|..].
  - by rewrite createFolder_unchanged.
  - rewrite updateFolder_materials.
    destruct (updateFolder_saved u id b st) as [->|(old & saved & ? & -> & ?)];
      [done|].
    intros i m Hi. destruct (Hinv i m Hi) as (? & ? & ?).
    split_and!; [done..|]. by eapply filed_insert.
  - match goal with H : deleteFolderRoute _ _ _ _ _ = _ |- _ =>
      apply deleteFolderRoute_cascade in H as Hc end.
    intros i m Hi.
    pose proof (lookup_weaken _ _ _ _ Hi (cascade_materials _ _ _ _ Hc)) as Hi0.
    destruct (Hinv i m Hi0) as (? & ? & (f & folder & Hf & Hfolder & Hown)).
    split_and!; [done..|].
    destruct (cascade_strays _ _ _ _ Hc i m f Hi Hf) as [folder' Hfolder'];
      [by eexists|].
    pose proof (lookup_weaken _ _ _ _ Hfolder' (cascade_folders _ _ _ _ Hc)).
    exists f, folder'. split_and!; [done..|]. congruence.
  - destruct (received_effect file st) as (Hfs & Hms & _).
    destruct (createMaterial_cases newId u b file st)
      as [(m & -> & ? & _ & _ & _ & _ & ? & ?)|[-> _]];
      [|by rewrite Hfs, Hms].
    simpl. rewrite Hfs, Hms. rewrite Hfs in *.
    by apply map_Forall_insert_2.
  - rewrite (proj1 (getMaterial_effect _ _ _)).
    destruct (getMaterial_effect u id st) as [_ [n [->| ->]]]; [done|].
    apply well_stored_alter; [|done]. intros m. apply well_stored_set_viewCount.
  - rewrite (proj1 (downloadMaterial_effect _ _ _)).
    destruct (downloadMaterial_effect u id st) as [_ [n [->| ->]]]; [done|].
    apply well_stored_alter; [|done].
    intros m. apply well_stored_set_downloadCount.
  - by rewrite shareMaterial_unchanged.
  - destruct (updateSession_effect u id b st) as [-> ->]. done.
  - done.
  - destruct (updateMaterial_cases u id b st)
      as [(m & m' & Hm & -> & Hv & Ht & Ho & Hf & Hn & Hp & Hs & _ & Hu)
         |[-> _]]; [|done].
    apply map_Forall_insert_2; [|done]. simpl.
    destruct (Hinv id m Hm) as (_ & Hx & (f & folder & ? & ? & ?)).
    split_and!; [done| |].
    + unfold file_xor_url in *. rewrite Ht, Hn, Hp, Hs.
      destruct (decide (Material.type m = link)) as [Hl|Hl].
      * destruct Hu as [->|[_ ?]]; [done|]. by split_and!; try apply Hx.
      * destruct Hu as [->|[? _]]; done.
    + exists f, folder. split_and!; congruence.
  - rewrite deleteMaterial_folders. intros i m Hi. apply (Hinv i).
    unfold deleteMaterial in Hi. revert Hi.
    route_cases; intros Hi; by apply lookup_delete_Some in Hi as [_ Hi].
  - destruct (received_effect file st) as (Hfs & Hms & _).
    destruct (uploadMaterial_cases newId u id b file st)
      as [(m & folder & -> & ? & ? & ? & ? & ? & _ & _ & _ & _ & _ & _ & _ & ?)
         |[-> _]]; [|by rewrite Hfs, Hms].
    simpl. rewrite Hfs, Hms. rewrite Hfs in *.
    apply map_Forall_insert_2; [|done]. simpl. split_and!; [done..|].
    exists id, folder. split_and!; congruence.
  - by destruct (createSession_frame newId provider demo u b st) as [-> ->].
  - by destruct (deleteSession_frame providerFails u id st) as [-> ->].
  - by destruct (joinSession_frame now u id st) as [-> ->].
Qed.

Lemma well_stored_sampleStore :
  map_Forall (λ _ m, well_stored (folders sampleStore) m) (materials sampleStore).
Proof.
  assert (∀ title f file folder,
            title ≠ "" → file ≠ "" →
            folders sampleStore !! f = Some folder → Folder.owner folder = 1 →
            well_stored (folders sampleStore)
              (sampleMaterial title (Some f) (Some file))) as Hs.
  { intros title f file folder Ht Hfile Hf Ho.
    split_and!.
    - unfold Material.validate. simpl.
      destruct (decide (file = "")) as [|_]; [done|].
      by rewrite bool_decide_eq_true_2.
    - unfold file_xor_url. simpl.
      destruct (decide (file = "")) as [|_]; [done|]. split_and!; eauto.
    - by exists f, folder. }
  unfold sampleStore. simpl.
  repeat (apply map_Forall_insert_2; [|]); [..|apply map_Forall_empty].
  - by eapply Hs.
  - by eapply Hs.
  - by eapply Hs.
  - split_and!; [reflexivity | | ].
    + unfold file_xor_url. simpl. split_and!; eauto.
    + eexists _, _. split_and!; reflexivity.
Qed.

(** X10.  Every request keeps the materials well stored: when each
    material of the store passes the schema's validators, sits in a
    folder that exists and belongs to the material's owner, and has
    either a URL and no file (a link) or a file name and path and no URL
    (any other type), then so does each material of the store that the
    request leaves.  So the download of a link is answered 400 "No file
    available for download" to whoever passes the access check. *)
Theorem request_keeps_well_stored st st' i m :
  map_Forall (λ _ m, well_stored (folders st) m) (materials st) →
  serve st st' →
  materials st' !! i = Some m →
  Material.validate m = true
  ∧ file_xor_url m
  ∧ filed (folders st') m
  ∧ (Material.type m = link → ∀ u, accessCheck u m = Granted →
       downloadMaterial u i st'
       = (Message 400 "No file available for download", st')).
Proof.
  intros Hinv0 Hserve Hi.
  pose proof (serve_well_stored _ _ Hserve Hinv0) as Hinv.
  destruct (Hinv i m Hi) as (Hv & Hx & Hf). split_and!; try done.
  intros Hl u Ha. unfold downloadMaterial, download_load. rewrite Hi, Ha.
  unfold file_xor_url in Hx. rewrite decide_True in Hx by done.
  destruct Hx as (_ & _ & -> & _). done.
Qed.

Lemma request_keeps_well_stored_witness :
  Material.validate krebsLink = true
  ∧ file_xor_url krebsLink
  ∧ filed (folders (createMaterial 24 drSalma (linkBody (Some "https://x"))
                      (Some someUpload) sampleStore).2) krebsLink
  ∧ (Material.type krebsLink = link → ∀ u, accessCheck u krebsLink = Granted →
       downloadMaterial u 24
         (createMaterial 24 drSalma (linkBody (Some "https://x"))
            (Some someUpload) sampleStore).2
       = (Message 400 "No file available for download",
          (createMaterial 24 drSalma (linkBody (Some "https://x"))
             (Some someUpload) sampleStore).2)).
Proof.
  apply (request_keeps_well_stored sampleStore
           (createMaterial 24 drSalma (linkBody (Some "https://x"))
              (Some someUpload) sampleStore).2 24 krebsLink).
  - apply well_stored_sampleStore.
  - apply serve_step, step_createMaterial. reflexivity.
  - reflexivity.
Defined.

(** ** Sessions *)

Lemma list_find_attendee_None (uid : nat) (l : list ZoomSession.Attendee) :
  list_find (λ a, ZoomSession.student a = uid) l = None ↔
  uid ∉ ZoomSession.student <$> l.
Proof.
  rewrite list_find_None, Forall_forall. split.
  - intros H (a & -> & Hin)%list_elem_of_fmap. by apply (H a).
  - intros H a Hin Ha. apply H. apply list_elem_of_fmap. by exists a.
Qed.

(** X11.  [POST /api/zoom/sessions/:id/join] records a user at most
    once: a user already on the attendance list is answered without any
    write, a user who is not is appended to it, and a second request of
    the same user gets the same answer and changes nothing.  A student
    whose grade and program do not fit is answered 403 and not recorded;
    nothing but the attendance list of that session ever changes. *)
Theorem joinSession_records_once now u id session st :
  sessions st !! id = Some session →
  let r := joinSession now u id st in
  let me := {| ZoomSession.student := User._id u;
               ZoomSession.joinedAt := now |} in
  folders r.2 = folders st ∧ materials r.2 = materials st ∧ disk r.2 = disk st
  ∧ (∀ j, j ≠ id → sessions r.2 !! j = sessions st !! j)
  ∧ (User.role u = student → canJoin u session = false →
       r = (Message 403 "You are not eligible for this session", st))
  ∧ (User._id u ∈ ZoomSession.student <$> ZoomSession.attendees session →
       r.2 = st)
  ∧ ((∃ info, r.1 = Sent 200 info) →
     User._id u ∉ ZoomSession.student <$> ZoomSession.attendees session →
       sessions r.2 !! id
       = Some (set_attendees (ZoomSession.attendees session ++ [me]) session))
  ∧ ((∀ c info, r.1 ≠ Sent c info) → r.2 = st)
  ∧ (∀ now', joinSession now' u id r.2 = (r.1, r.2)).
Proof.
  intros Hs. cbv zeta.
  destruct (joinSession now u id st) as [reply st'] eqn:Hr. simpl.
  unfold joinSession in Hr. rewrite Hs in Hr.
  destruct (bool_decide (User.role u = student) && negb (canJoin u session))
    eqn:Hdenied.
  { simplify_eq. split_and!; try done.
    - intros [info ?]. done.
    - intros now'. unfold joinSession. by rewrite Hs, Hdenied. }
  assert (User.role u = student → canJoin u session = false → False) as Hok.
  { intros Hrole Hcan. rewrite Hcan, bool_decide_eq_true_2 in Hdenied; done. }
  destruct (list_find _ (ZoomSession.attendees session)) as [[k a]|] eqn:Hfind.
  { simplify_eq. split_and!; try done.
    - intros ? Hcan. by destruct Hok.
    - intros _ Hnot. apply list_find_attendee_None in Hnot. congruence.
    - intros now'. unfold joinSession. by rewrite Hs, Hdenied, Hfind. }
  pose proof (proj1 (list_find_attendee_None _ _) Hfind) as Hnot.
  case_decide as Hvalid.
  { simplify_eq. split_and!; try done.
    - intros ? Hcan. by destruct Hok.
    - intros [info ?]. done.
    - intros now'. unfold joinSession. rewrite Hs, Hdenied, Hfind.
      by rewrite decide_True. }
  simplify_eq. simpl. split_and!; try done.
  - intros j Hj. by rewrite lookup_insert_ne.
  - intros ? Hcan. by destruct Hok.
  - intros _ _. apply lookup_insert_eq.
  - intros H. by destruct (H 200 {|
      info_title := ZoomSession.title session;
      info_description := ZoomSession.description session;
      info_scheduledTime := ZoomSession.scheduledTime session;
      info_duration := ZoomSession.duration session |}).
  - intros now'. unfold joinSession. cbn [sessions set_sessions].
    rewrite lookup_insert_eq.
    change (canJoin u (set_attendees _ session)) with (canJoin u session).
    rewrite Hdenied. cbn [ZoomSession.attendees set_attendees].
    destruct (list_find _ (_ ++ _)) as [[k a]|] eqn:Hfind'; [done|].
    apply list_find_attendee_None in Hfind'. destruct Hfind'.
    rewrite fmap_app. apply elem_of_app. right. simpl. left.
Qed.

Lemma joinSession_records_once_witness :
  let r := joinSession 4000 sampleStudent 30 sessionStore in
  let me := {| ZoomSession.student := User._id sampleStudent;
               ZoomSession.joinedAt := 4000 |} in
  folders r.2 = folders sessionStore ∧ materials r.2 = materials sessionStore
  ∧ disk r.2 = disk sessionStore
  ∧ (∀ j, j ≠ 30 → sessions r.2 !! j = sessions sessionStore !! j)
  ∧ (User.role sampleStudent = student →
     canJoin sampleStudent (liveSession []) = false →
       r = (Message 403 "You are not eligible for this session", sessionStore))
  ∧ (User._id sampleStudent
       ∈ ZoomSession.student <$> ZoomSession.attendees (liveSession []) →
       r.2 = sessionStore)
  ∧ ((∃ info, r.1 = Sent 200 info) →
     User._id sampleStudent
       ∉ ZoomSession.student <$> ZoomSession.attendees (liveSession []) →
       sessions r.2 !! 30
       = Some (set_attendees (ZoomSession.attendees (liveSession []) ++ [me])
                 (liveSession [])))
  ∧ ((∀ c info, r.1 ≠ Sent c info) → r.2 = sessionStore)
  ∧ (∀ now', joinSession now' sampleStudent 30 r.2 = (r.1, r.2)).
Proof.
  apply (joinSession_records_once 4000 sampleStudent 30 (liveSession []) sessionStore).
  reflexivity.
Defined.

Lemma step_sessions st st' :
  step st st' →
  sessions st' = sessions st ∨ ∃ u id b, st' = (updateSession u id b st).2.
Proof.
  destruct 1.
  - left. by rewrite createFolder_unchanged.
  - left. unfold updateFolder, Folder.save. route_cases.
  - left. eapply cascade_sessions. by eapply deleteFolderRoute_cascade.
  - left. destruct (received_effect file st) as (_ & _ & Hss).
    destruct (createMaterial_cases newId u b file st)
      as [(m & -> & _)|[-> _]]; done.
  - left. unfold getMaterial, getMaterial_load, getMaterial_save. route_cases.
  - left. unfold downloadMaterial, download_load, download_save. route_cases.
  - left. by rewrite shareMaterial_unchanged.
  - right. eauto.
  - by left.
Qed.

Lemma updateSession_sessions u id b st :
  sessions (updateSession u id b st).2 = sessions st
  ∨ ∃ old new, sessions st !! id = Some old
      ∧ sessions (updateSession u id b st).2 = <[id := new]> (sessions st)
      ∧ ZoomSession.title new ≠ ""
      ∧ ZoomSession.zoomMeetingId new = ZoomSession.zoomMeetingId old
      ∧ ZoomSession.attendees new = ZoomSession.attendees old.
Proof.
  unfold updateSession.
  destruct (sessions st !! id) as [old|] eqn:Hold; [|by left].
  destruct (decide _); [|by left].
  destruct (nonempty _) as [title|] eqn:Htitle; [|by left].
  destruct (match truthy (SessionPatch.status b) with
            | Some s => parse_status s
            | None => Some (ZoomSession.status old) end); [|by left].
  right. eexists old, _. split; [done|]. split; [done|]. simpl.
  split_and!; try done.
  unfold nonempty in Htitle. by case_decide; simplify_eq.
Qed.

Lemma createSession_sessions newId provider demo u b st :
  sessions (createSession newId provider demo u b st).2 = sessions st
  ∨ ∃ s, sessions (createSession newId provider demo u b st).2
         = <[newId := s]> (sessions st)
       ∧ session_sound s.
Proof.
  unfold createSession.
  destruct (nonempty _) as [title|] eqn:Htitle; [|left; by route_cases].
  destruct (_ ≫= parse_course); [|by left].
  destruct (_ ≫= parse_grade); [|by left].
  destruct (_ ≫= parse_program); [|by left].
  destruct (SessionBody.scheduledTime b); [|by left].
  destruct (valid_duration _) as [mins|] eqn:Hn; [|by left].
  case_decide; [by left|]. right. eexists. split; [done|].
  unfold session_sound. simpl. split; [|done].
  unfold nonempty in Htitle. case_decide; simplify_eq.
  by rewrite trim_idemp.
Qed.

Lemma joinSession_sessions now u id st :
  sessions (joinSession now u id st).2 = sessions st
  ∨ ∃ old, sessions st !! id = Some old
      ∧ sessions (joinSession now u id st).2
        = <[id := set_attendees
                    (ZoomSession.attendees old
                     ++ [{| ZoomSession.student := User._id u;
                            ZoomSession.joinedAt := now |}]) old]> (sessions st)
      ∧ User._id u ∉ ZoomSession.student <$> ZoomSession.attendees old.
Proof.
  unfold joinSession.
  destruct (sessions st !! id) as [old|] eqn:Hold; [|by left].
  destruct (_ && _); [by left|].
  destruct (list_find _ _) eqn:Hfind; [by left|].
  case_decide; [by left|]. right. exists old. split_and!; try done.
  by apply list_find_attendee_None.
Qed.

Lemma serve_session_sound st st' :
  serve st st' →
  map_Forall (λ _ s, session_sound s) (sessions st) →
  map_Forall (λ _ s, session_sound s) (sessions st').
Proof.
  intros Hserve Hinv.
  assert (∀ u id b,
    map_Forall (λ _ s, session_sound s) (sessions (updateSession u id b st).2))
    as Hupdate.
  { intros u id b.
    destruct (updateSession_sessions u id b st)
      as [->|(old & new & Hold & -> & Ht & Hz & Ha)]; [done|].
    apply map_Forall_insert_2; [|done].
    destruct (Hinv id old Hold) as (? & ?).
    unfold session_sound in *. by rewrite Hz. }
  destruct Hserve as [? ? Hstep| | | | | |].
  - destruct (step_sessions _ _ Hstep) as [->|(u & id & b & ->)]; [done|].
    apply Hupdate.
  - unfold updateMaterial. by route_cases.
  - unfold deleteMaterial. by route_cases.
  - destruct (received_effect file st) as (_ & _ & Hss).
    destruct (uploadMaterial_cases newId u id b file st)
      as [(m & folder & -> & _)|[-> _]]; simpl; by rewrite Hss.
  - destruct (createSession_sessions newId provider demo u b st)
      as [->|(s & -> & Hs)]; [done|]. by apply map_Forall_insert_2.
  - unfold deleteSession. route_cases; intros i s Hi;
      apply lookup_delete_Some in Hi as [_ Hi]; by apply (Hinv i).
  - destruct (joinSession_sessions now u id st)
      as [->|(old & Hold & -> & Hnot)]; [done|].
    apply map_Forall_insert_2; [|done].
    by destruct (Hinv id old Hold) as (? & ?).
Qed.

Lemma served_session_sound st :
  served st → map_Forall (λ _ s, session_sound s) (sessions st).
Proof.
  intros [d Hrtc].
  assert (map_Forall (λ _ s, session_sound s) (sessions (empty_store d)))
    as H0 by apply map_Forall_empty.
  induction Hrtc as [|x y z Hstep _ IH]; [done|].
  apply IH. by eapply serve_session_sound.
Qed.

Lemma served_sessionStore : served sessionStore.
Proof.
  exists ∅. eapply rtc_l; [|apply rtc_refl].
  apply (serve_createSession 30 None "demo_3000" drSalma sessionBody
           (empty_store ∅)).
  reflexivity.
Qed.

Lemma served_joinedStore : served joinedStore.
Proof.
  destruct served_sessionStore as [d Hrtc]. exists d.
  eapply rtc_r; [exact Hrtc|].
  apply (serve_joinSession 4000 sampleStudent 30 sessionStore).
Qed.

(** X12.  In every store that the handlers build, serving one request
    after the other from empty collections, each session has a title
    and a meeting id that are not empty. *)
Theorem served_sessions_sound st i session :
  served st → sessions st !! i = Some session →
  ZoomSession.title session ≠ ""
  ∧ ZoomSession.zoomMeetingId session ≠ "".
Proof.
  intros Hserved Hi. by apply (served_session_sound st Hserved i).
Qed.

Lemma served_sessions_sound_witness :
  ZoomSession.title (liveSession [{| ZoomSession.student := 5;
                                      ZoomSession.joinedAt := 4000 |}]) ≠ ""
  ∧ ZoomSession.zoomMeetingId
      (liveSession [{| ZoomSession.student := 5;
                       ZoomSession.joinedAt := 4000 |}]) ≠ "".
Proof.
  apply (served_sessions_sound joinedStore 30
           (liveSession [{| ZoomSession.student := 5;
                            ZoomSession.joinedAt := 4000 |}])).
  - apply served_joinedStore.
  - reflexivity.
Defined.

(** X13.  In a store that the handlers have built, a student may join
    every session that the listing shows them, whatever the filters, and
    the listing without filters shows them exactly the sessions they may
    join. *)
Theorem listed_sessions_joinable now now' u id session st :
  served st →
  User.role u = student →
  sessions st !! id = Some session →
  (∀ q, (id, session) ∈ listSessions now u q st →
        ∃ info, (joinSession now' u id st).1 = Sent 200 info)
  ∧ ((id, session) ∈ listSessions now u allSessions st ↔
     ∃ info, (joinSession now' u id st).1 = Sent 200 info).
Proof.
  intros Hserved Hrole Hs.
  destruct (served_session_sound st Hserved id session Hs) as (Ht & Hz).
  assert (canJoin u session = true ↔
          ∃ info, (joinSession now' u id st).1 = Sent 200 info) as Hjoin.
  { unfold joinSession. rewrite Hs, bool_decide_eq_true_2 by done.
    destruct (canJoin u session); simpl.
    - split; [intros _|done]. destruct (list_find _ _); [by eexists|].
      rewrite decide_False by (by intros [?|?]). by eexists.
    - split; [done|]. by intros [? ?]. }
  split.
  - intros q Hin. apply Hjoin. apply elem_of_find in Hin as [_ Hq].
    unfold sessionQuery in Hq. rewrite decide_True in Hq by done.
    repeat apply andb_prop in Hq as [Hq _]. done.
  - rewrite <- Hjoin. unfold listSessions. rewrite elem_of_find.
    unfold sessionQuery. rewrite decide_True by done. simpl.
    rewrite !andb_true_r. split; [by intros [_ ?]|done].
Qed.

Lemma listed_sessions_joinable_witness :
  (∀ q, (30, liveSession []) ∈ listSessions 100 sampleStudent q sessionStore →
        ∃ info, (joinSession 4000 sampleStudent 30 sessionStore).1 = Sent 200 info)
  ∧ ((30, liveSession []) ∈ listSessions 100 sampleStudent allSessions sessionStore ↔
     ∃ info, (joinSession 4000 sampleStudent 30 sessionStore).1 = Sent 200 info).
Proof.
  apply (listed_sessions_joinable 100 4000 sampleStudent 30 (liveSession [])
           sessionStore).
  - apply served_sessionStore.
  - reflexivity.
  - reflexivity.
Defined.

(** X14.  [DELETE /api/zoom/sessions/:id] by the session's teacher
    removes the record whether or not the provider accepted the
    deletion, with the same answer in both cases, and touches nothing
    else; a second request is answered 404.  Anyone else is answered 404
    and the session stays. *)
Theorem deleteSession_removes providerFails u id session st :
  sessions st !! id = Some session →
  let r := deleteSession providerFails u id st in
  (ZoomSession.teacher session = User._id u →
     r.1.1 = Message 200 "Session deleted successfully"
     ∧ r.1 = (deleteSession (negb providerFails) u id st).1
     ∧ sessions r.1.2 !! id = None
     ∧ (∀ j, j ≠ id → sessions r.1.2 !! j = sessions st !! j)
     ∧ folders r.1.2 = folders st ∧ materials r.1.2 = materials st
     ∧ disk r.1.2 = disk st
     ∧ ∀ providerFails' u',
         deleteSession providerFails' u' id r.1.2
         = (Message 404 "Session not found", r.1.2, []))
  ∧ (ZoomSession.teacher session ≠ User._id u →
     r = (Message 404 "Session not found", st, [])).
Proof.
  intros Hs. cbv zeta. split; intros Hown.
  - assert (∀ pf, deleteSession pf u id st
                  = (Message 200 "Session deleted successfully",
                     set_sessions (delete id (sessions st)) st,
                     if pf then ["Zoom delete error:"] else [])) as Heq.
    { intros pf. unfold deleteSession. by rewrite Hs, decide_True. }
    rewrite !Heq. simpl. split_and!; try done.
    + apply lookup_delete_eq.
    + intros j Hj. by apply lookup_delete_ne.
    + intros pf' u'. unfold deleteSession. simpl. by rewrite lookup_delete_eq.
  - unfold deleteSession. by rewrite Hs, decide_False.
Qed.

Lemma deleteSession_removes_witness :
  let r := deleteSession true drSalma 30 sampleStore in
  (ZoomSession.teacher cancelledSession = User._id drSalma →
     r.1.1 = Message 200 "Session deleted successfully"
     ∧ r.1 = (deleteSession (negb true) drSalma 30 sampleStore).1
     ∧ sessions r.1.2 !! 30 = None
     ∧ (∀ j, j ≠ 30 → sessions r.1.2 !! j = sessions sampleStore !! j)
     ∧ folders r.1.2 = folders sampleStore
     ∧ materials r.1.2 = materials sampleStore
     ∧ disk r.1.2 = disk sampleStore
     ∧ ∀ providerFails' u',
         deleteSession providerFails' u' 30 r.1.2
         = (Message 404 "Session not found", r.1.2, []))
  ∧ (ZoomSession.teacher cancelledSession ≠ User._id drSalma →
     r = (Message 404 "Session not found", sampleStore, [])).
Proof.
  apply (deleteSession_removes true drSalma 30 cancelledSession sampleStore).
  reflexivity.
Defined.

(** X15.  Whatever the request, [PUT /api/zoom/sessions/:id] leaves the
    session with the attendance list, the attached materials, the
    teacher, the meeting id, the course, the grade and the program it
    had, and changes no other session, no folder and no material.  A
    duration of zero in the body is ignored, and any other duration of a
    request that is answered 200 is stored as it is, a negative one
    included.  Anyone but the session's teacher is answered 404. *)
Theorem updateSession_frame u id b session st :
  sessions st !! id = Some session →
  let r := updateSession u id b st in
  folders r.2 = folders st ∧ materials r.2 = materials st ∧ disk r.2 = disk st
  ∧ (∀ j, j ≠ id → sessions r.2 !! j = sessions st !! j)
  ∧ (ZoomSession.teacher session ≠ User._id u →
       r = (Message 404 "Session not found", st))
  ∧ (∃ session',
       sessions r.2 !! id = Some session'
       ∧ ZoomSession.attendees session' = ZoomSession.attendees session
       ∧ ZoomSession.materials session' = ZoomSession.materials session
       ∧ ZoomSession.teacher session' = ZoomSession.teacher session
       ∧ ZoomSession.zoomMeetingId session' = ZoomSession.zoomMeetingId session
       ∧ ZoomSession.course session' = ZoomSession.course session
       ∧ ZoomSession.grade session' = ZoomSession.grade session
       ∧ ZoomSession.program session' = ZoomSession.program session
       ∧ (SessionPatch.duration b = None ∨ SessionPatch.duration b = Some 0%Z →
            ZoomSession.duration session' = ZoomSession.duration session)
       ∧ (∀ c body n, r.1 = Sent c body → SessionPatch.duration b = Some n →
            n ≠ 0%Z → ZoomSession.duration session' = n)).
Proof.
  intros Hs. cbv zeta.
  destruct (updateSession u id b st) as [reply st'] eqn:Hr. simpl.
  unfold updateSession in Hr. rewrite Hs in Hr.
  destruct (decide (ZoomSession.teacher session = User._id u)) as [Hown|Hown];
    [|simplify_eq; split_and!; try done; exists session; by split_and!].
  destruct (nonempty _) as [title|];
    [|simplify_eq; split_and!; try done; exists session; by split_and!].
  destruct (match truthy (SessionPatch.status b) with
            | Some s => parse_status s
            | None => Some (ZoomSession.status session) end) as [status|];
    [|simplify_eq; split_and!; try done; exists session; by split_and!].
  simplify_eq. simpl. split_and!; try done.
  - intros j Hj. by rewrite lookup_insert_ne.
  - eexists. split; [apply lookup_insert_eq|]. simpl. split_and!; try done.
    + by intros [->| ->].
    + intros _ _ n _ -> Hn. by rewrite decide_False.
Qed.

Lemma updateSession_frame_witness :
  let r := updateSession drSalma 30 (statusOnly scheduled) sampleStore in
  folders r.2 = folders sampleStore ∧ materials r.2 = materials sampleStore
  ∧ disk r.2 = disk sampleStore
  ∧ (∀ j, j ≠ 30 → sessions r.2 !! j = sessions sampleStore !! j)
  ∧ (ZoomSession.teacher cancelledSession ≠ User._id drSalma →
       r = (Message 404 "Session not found", sampleStore))
  ∧ (∃ session',
       sessions r.2 !! 30 = Some session'
       ∧ ZoomSession.attendees session' = ZoomSession.attendees cancelledSession
       ∧ ZoomSession.materials session' = ZoomSession.materials cancelledSession
       ∧ ZoomSession.teacher session' = ZoomSession.teacher cancelledSession
       ∧ ZoomSession.zoomMeetingId session'
         = ZoomSession.zoomMeetingId cancelledSession
       ∧ ZoomSession.course session' = ZoomSession.course cancelledSession
       ∧ ZoomSession.grade session' = ZoomSession.grade cancelledSession
       ∧ ZoomSession.program session' = ZoomSession.program cancelledSession
       ∧ (SessionPatch.duration (statusOnly scheduled) = None
          ∨ SessionPatch.duration (statusOnly scheduled) = Some 0%Z →
            ZoomSession.duration session' = ZoomSession.duration cancelledSession)
       ∧ (∀ c body n, r.1 = Sent c body →
            SessionPatch.duration (statusOnly scheduled) = Some n →
            n ≠ 0%Z → ZoomSession.duration session' = n)).
Proof.
  apply (updateSession_frame drSalma 30 (statusOnly scheduled) cancelledSession
           sampleStore).
  reflexivity.
Defined.

(** The route has no validators and the schema no minimum: a duration
    of minus five minutes is stored. *)
Example updateSession_negative_duration :
  ZoomSession.duration <$>
    sessions (updateSession drSalma 30
                {| SessionPatch.title := None; SessionPatch.description := None;
                   SessionPatch.scheduledTime := None;
                   SessionPatch.duration := Some (-5)%Z;
                   SessionPatch.status := None |} sampleStore).2 !! 30
  = Some (-5)%Z.
Proof. vm_compute. reflexivity. Qed.

(** ** Analytics *)

Lemma bump_sum {K} `{EqDecision K} (k : K) (groups : list (K * nat)) :
  sum_list (bump k groups).*2 = S (sum_list groups.*2).
Proof.
  induction groups as [|[k' n] groups IH]; [done|]. simpl.
  case_decide; [done|]. rewrite fmap_cons. simpl sum_list. rewrite IH.
  change (list_fmap (K * nat)%type nat snd groups) with (groups.*2). lia.
Qed.

Lemma bump_spec {K} `{EqDecision K} (k0 : K) (groups : list (K * nat)) k n :
  NoDup (groups.*1) →
  (k, n) ∈ bump k0 groups ↔
    (k ≠ k0 ∧ (k, n) ∈ groups)
    ∨ (k = k0 ∧ ((∃ m, (k0, m) ∈ groups ∧ n = S m)
                 ∨ ((k0 ∉ groups.*1) ∧ n = 1))).
Proof.
  induction groups as [|[k' n'] groups IH]; intros Hnd.
  - simpl. rewrite list_elem_of_singleton. split.
    + intros [= -> ->]. right. split; [done|]. right. split; [|done].
      apply not_elem_of_nil.
    + intros [[_ Hin]|[-> [(m & Hin & _)|[_ ->]]]].
      * by apply elem_of_nil in Hin.
      * by apply elem_of_nil in Hin.
      * done.
  - apply NoDup_cons in Hnd as [Hk' Hnd]. specialize (IH Hnd).
    assert (∀ m, (k', m) ∈ groups → False) as Hfresh.
    { intros m Hin. apply Hk'. apply list_elem_of_fmap. by exists (k', m). }
    simpl. destruct (decide (k0 = k')) as [->|Hne].
    + split.
      * intros [Heq|Hin]%elem_of_cons.
        -- injection Heq as -> ->. right. split; [done|]. left.
           exists n'. split; [left|done].
        -- left. split; [|by right]. intros ->. by apply (Hfresh n).
      * intros [[Hkk Hin]|[-> [(m & Hin & ->)|[Hnot _]]]].
        -- apply elem_of_cons in Hin as [Heq|Hin]; [by injection Heq as -> ->|].
           by right.
        -- apply elem_of_cons in Hin as [Heq|Hin]; [|by destruct (Hfresh m)].
           injection Heq as ->. left.
        -- destruct Hnot. simpl. left.
    + rewrite elem_of_cons, IH. split.
      * intros [Heq|[[Hkk Hin]|[-> Hcase]]].
        -- injection Heq as -> ->. left. split; [congruence|left].
        -- left. split; [done|by right].
        -- right. split; [done|].
           destruct Hcase as [(m & Hin & ->)|[Hnot ->]].
           ++ left. exists m. split; [by right|done].
           ++ right. split; [|done]. simpl. rewrite not_elem_of_cons.
              by split.
      * intros [[Hkk Hin]|[-> Hcase]].
        -- apply elem_of_cons in Hin as [Heq|Hin]; [by left|].
           right. left. by split.
        -- right. right. split; [done|].
           destruct Hcase as [(m & Hin & ->)|[Hnot ->]].
           ++ apply elem_of_cons in Hin as [Heq|Hin];
                [by injection Heq as -> ->|].
              left. by exists m.
           ++ right. split; [|done]. simpl in Hnot.
              apply not_elem_of_cons in Hnot. by destruct Hnot.
Qed.

Lemma bump_keys {K} `{EqDecision K} (k0 : K) (groups : list (K * nat)) :
  NoDup groups.*1 → NoDup (bump k0 groups).*1.
Proof.
  induction groups as [|[k' n'] groups IH]; intros Hnd.
  - simpl. apply NoDup_singleton.
  - apply NoDup_cons in Hnd as [Hk' Hnd]. simpl.
    destruct (decide (k0 = k')) as [->|Hne]; simpl.
    + by apply NoDup_cons.
    + apply NoDup_cons. split; [|by apply IH].
      intros ([k n] & Heq & Hin)%list_elem_of_fmap. simpl in Heq. subst k.
      apply bump_spec in Hin; [|done].
      destruct Hin as [[_ Hin]|[? _]]; [|congruence].
      apply Hk'. apply list_elem_of_fmap. by exists (k', n).
Qed.

Lemma groupCount_snoc {A K} `{EqDecision K} (key : A → K) docs d :
  groupCount key (docs ++ [d]) = bump (key d) (groupCount key docs).
Proof. unfold groupCount. by rewrite foldl_app. Qed.

Lemma groupCount_sum {A K} `{EqDecision K} (key : A → K) docs :
  sum_list (groupCount key docs).*2 = length docs.
Proof.
  induction docs as [|d docs IH] using rev_ind; [done|].
  rewrite groupCount_snoc, bump_sum, IH, length_app. simpl. lia.
Qed.

Lemma groupCount_spec {A K} `{EqDecision K} (key : A → K) docs :
  NoDup (groupCount key docs).*1
  ∧ ∀ k n, (k, n) ∈ groupCount key docs ↔
      n = length (filter (λ d, key d = k) docs) ∧ 0 < n.
Proof.
  induction docs as [|d docs [Hnd IH]] using rev_ind.
  - split; [apply NoDup_nil_2|]. intros k n. simpl. split.
    + intros Hin. by apply elem_of_nil in Hin.
    + intros [-> Hn]. simpl in Hn. lia.
  - rewrite groupCount_snoc. split; [by apply bump_keys|].
    intros k n. rewrite bump_spec by done. rewrite filter_app, length_app.
    assert (∀ m, (k, m) ∈ groupCount key docs →
                 m = length (filter (λ d, key d = k) docs) ∧ 0 < m) as Hfwd
      by (intros m; apply IH).
    destruct (decide (key d = k)) as [<-|Hne].
    + rewrite filter_cons_True by done. simpl. split.
      * intros [[? _]|[_ [(m & Hin & ->)|[Hnot ->]]]]; [done| |].
        -- apply IH in Hin as [-> ?]. lia.
        -- destruct (length (filter (λ d0, key d0 = key d) docs)) as [|l] eqn:Hl;
             [lia|].
           destruct Hnot. apply list_elem_of_fmap. exists (key d, S l).
           split; [done|]. apply IH. rewrite Hl. lia.
      * intros [-> _]. right. split; [done|].
        destruct (length (filter (λ d0, key d0 = key d) docs)) as [|l] eqn:Hl.
        -- right. split; [|done].
           intros ([k m] & Heq & Hin)%list_elem_of_fmap. simpl in Heq. subst k.
           apply IH in Hin as [-> ?]. lia.
        -- left. exists (S l). split; [|lia]. apply IH. rewrite Hl. lia.
    + rewrite filter_cons_False by done. simpl. rewrite Nat.add_0_r, IH.
      split; [intros [[_ ?]|[? _]]; [done|congruence]|].
      intros ?. left. split; [congruence|done].
Qed.

Lemma sum_list_elem_le (l : list nat) x : x ∈ l → x ≤ sum_list l.
Proof.
  induction l as [|y l IH]; intros Hin; [by apply elem_of_nil in Hin|].
  apply elem_of_cons in Hin as [->|Hin]; simpl; [lia|].
  specialize (IH Hin). lia.
Qed.

(** X16.  In the analytics overview, the groups by type and the groups
    by course each name every type or course once, with the number of the
    caller's matching materials that have it, so the counts of either
    grouping add up to the total; no group is empty; and no material has
    more views or downloads than the totals. *)
Theorem analytics_groups_add_up u q st :
  let a := materialsAnalytics u q st in
  let docs := find (λ _ m, analyticsQuery u q m) (materials st) in
  sum_list (materialsByType a).*2 = totalMaterials a
  ∧ sum_list (materialsByCourse a).*2 = totalMaterials a
  ∧ NoDup (materialsByType a).*1
  ∧ NoDup (materialsByCourse a).*1
  ∧ (∀ t n, (t, n) ∈ materialsByType a ↔
       n = length (filter (λ m, Material.type m = t) docs.*2) ∧ 0 < n)
  ∧ (∀ c n, (c, n) ∈ materialsByCourse a ↔
       n = length (filter (λ m, Material.course m = c) docs.*2) ∧ 0 < n)
  ∧ (∀ i m, materials st !! i = Some m → analyticsQuery u q m = true →
       Material.viewCount m ≤ totalViews a
       ∧ Material.downloadCount m ≤ totalDownloads a).
Proof.
  cbv zeta. unfold materialsAnalytics. simpl.
  set (docs := find (λ _ m, analyticsQuery u q m) (materials st)).
  split_and!.
  - by rewrite groupCount_sum, length_fmap.
  - by rewrite groupCount_sum, length_fmap.
  - apply groupCount_spec.
  - apply groupCount_spec.
  - apply groupCount_spec.
  - apply groupCount_spec.
  - intros i m Hi Hq.
    assert (m ∈ docs.*2) as Hin.
    { apply list_elem_of_fmap. exists (i, m). split; [done|].
      by apply elem_of_find. }
    split; apply sum_list_elem_le, list_elem_of_fmap; by exists m.
Qed.

#[local] Instance more_counted_trans count : Transitive (more_counted count).
Proof. unfold more_counted. intros a b c Hab Hbc. lia. Qed.

#[local] Instance more_counted_total count : Total (more_counted count).
Proof. unfold more_counted. intros a b. lia. Qed.

Lemma top10_spec count docs :
  length (top10 count docs) = 10 `min` length docs
  ∧ top10 count docs ⊆ docs
  ∧ (NoDup docs → NoDup (top10 count docs))
  ∧ (∀ x y, x ∈ top10 count docs → y ∈ docs → y ∉ top10 count docs →
            count y.2 ≤ count x.2)
  ∧ (∀ i j x y, i ≤ j → top10 count docs !! i = Some x →
                top10 count docs !! j = Some y → count y.2 ≤ count x.2).
Proof.
  unfold top10.
  pose proof (merge_sort_Permutation (more_counted count) docs) as Hperm.
  pose proof (StronglySorted_merge_sort (more_counted count) docs) as Hsorted.
  set (sorted := merge_sort (more_counted count) docs) in *.
  split_and!.
  - by rewrite length_take, Hperm.
  - intros x Hx. rewrite <- Hperm. by eapply subseteq_take.
  - intros Hnd. rewrite <- Hperm in Hnd.
    rewrite <- (take_drop 10 sorted) in Hnd. by apply NoDup_app in Hnd as [? _].
  - intros x y Hx Hy Hnot. rewrite <- Hperm, <- (take_drop 10 sorted) in Hy.
    apply elem_of_app in Hy as [Hy|Hy]; [done|].
    rewrite <- (take_drop 10 sorted) in Hsorted.
    by apply (StronglySorted_app_1_elem_of _ _ _ _ _ Hsorted Hx Hy).
  - intros i j x y Hij Hx Hy.
    apply lookup_take_Some in Hx as [Hx _].
    apply lookup_take_Some in Hy as [Hy _].
    destruct (decide (i = j)) as [->|Hne]; [by simplify_eq|].
    assert (i < j) as Hlt by lia. clear Hij Hne.
    clearbody sorted. clear Hperm. revert i j Hlt Hx Hy.
    induction Hsorted as [|z l Hl IH Hall]; intros i j Hlt Hx Hy; [done|].
    destruct j as [|j]; [lia|]. simpl in Hy.
    destruct i as [|i]; simpl in Hx.
    + simplify_eq. rewrite Forall_forall in Hall.
      apply (Hall y). by eapply list_elem_of_lookup_2.
    + apply (IH i j); [lia|done..].
Qed.

(** X17.  The two rankings of the analytics overview hold the ten
    matching materials with the most views and with the most downloads,
    or all of them when there are fewer: each entry is a matching
    material of the caller, listed once, in descending order of its
    count, and no matching material left out has a higher count than a
    listed one. *)
Theorem analytics_rankings u q st :
  let a := materialsAnalytics u q st in
  let matching x :=
    materials st !! x.1 = Some x.2 ∧ analyticsQuery u q x.2 = true in
  let ranking l count :=
    length l = 10 `min` totalMaterials a
    ∧ NoDup l.*1
    ∧ (∀ x, x ∈ l → matching x)
    ∧ (∀ x y, x ∈ l → matching y → y ∉ l → count y.2 ≤ count x.2)
    ∧ (∀ i j x y, i ≤ j → l !! i = Some x → l !! j = Some y →
                  count y.2 ≤ count x.2) in
  ranking (mostViewed a) Material.viewCount
  ∧ ranking (mostDownloaded a) Material.downloadCount.
Proof.
  cbv zeta. unfold materialsAnalytics. simpl.
  set (docs := find (λ _ m, analyticsQuery u q m) (materials st)).
  assert (∀ x, x ∈ docs ↔
               materials st !! x.1 = Some x.2 ∧ analyticsQuery u q x.2 = true)
    as Hdocs.
  { intros [i m]. unfold docs.
    apply (elem_of_find (λ _ m, analyticsQuery u q m)). }
  assert (NoDup docs.*1) as Hnd.
  { unfold docs, find. apply NoDup_fst_map_to_list. }
  assert (∀ l, l ⊆ docs → NoDup l → NoDup l.*1) as Hkeys.
  { intros l Hsub Hl. apply NoDup_fmap_2_strong; [|done].
    intros [i m] [j m'] Hi Hj Heq. simpl in Heq. subst j.
    apply Hsub, Hdocs in Hi as [Hi _]. apply Hsub, Hdocs in Hj as [Hj _].
    simpl in *. congruence. }
  assert (NoDup docs) as Hnd' by (by eapply NoDup_fmap_1).
  split.
  - destruct (top10_spec Material.viewCount docs) as (Hlen & Hsub & Hn & Htop & Hs).
    split_and!; try done.
    + apply Hkeys; [done|by apply Hn].
    + intros x Hx. by apply Hdocs, Hsub.
    + intros x y Hx Hy. apply Htop; [done|]. by apply Hdocs.
  - destruct (top10_spec Material.downloadCount docs)
      as (Hlen & Hsub & Hn & Htop & Hs).
    split_and!; try done.
    + apply Hkeys; [done|by apply Hn].
    + intros x Hx. by apply Hdocs, Hsub.
    + intros x y Hx Hy. apply Htop; [done|]. by apply Hdocs.
Qed.

(** ** The SQLite server *)

Lemma sql_insert_material_spec row db i db' :
  Sql.insert_material row db = Some (i, db') →
  i = (Sql.lastID db + 1)%Z
  ∧ db' = {| Sql.courses := Sql.courses db; Sql.folders := Sql.folders db;
             Sql.users := Sql.users db;
             Sql.materials := <[i := row]> (Sql.materials db);
             Sql.lastID := i |}
  ∧ is_Some (parse_type (Sql.type row))
  ∧ Sql.course_id row ∈ Sql.courses db
  ∧ Sql.owner_id row ∈ Sql.users db
  ∧ (∀ f, Sql.folder_id row = Some f → f ∈ Sql.folders db).
Proof.
  unfold Sql.insert_material. intros H.
  destruct (_ && _) eqn:Hc; [|done]. simplify_eq. split_and!; try done.
  all: repeat (apply andb_prop in Hc as [Hc ?]).
  - by apply bool_decide_eq_true_1 in Hc.
  - by eapply bool_decide_eq_true_1.
  - by eapply bool_decide_eq_true_1.
  - intros f Hf. rewrite Hf in *. by eapply bool_decide_eq_true_1.
Qed.

(** X18.  [POST /api/materials] of the SQLite server never changes or
    replaces a row that is there: a request answered 201 adds exactly
    one row, under the id after the last one given out, owned by the
    caller, who is no student, with a type of the list, a course that
    exists and a folder that exists when one is named; any other answer
    leaves the database as it was.  The ids of the table stay at or
    below the last id given out. *)
Theorem sql_createMaterial_appends u b file db :
  sql_ids_bounded db →
  let r := Sql.createMaterial u b file db in
  sql_ids_bounded r.2
  ∧ (∀ k row, Sql.materials db !! k = Some row →
              Sql.materials r.2 !! k = Some row)
  ∧ Sql.courses r.2 = Sql.courses db
  ∧ Sql.folders r.2 = Sql.folders db
  ∧ Sql.users r.2 = Sql.users db
  ∧ (∀ c i row, r.1 = Sent c (i, row) →
       c = 201 ∧ i = (Sql.lastID db + 1)%Z ∧ Sql.lastID r.2 = i
       ∧ Sql.materials db !! i = None
       ∧ Sql.materials r.2 = <[i := row]> (Sql.materials db)
       ∧ Sql.owner_id row = Sql.id u
       ∧ Sql.role u ≠ student
       ∧ is_Some (parse_type (Sql.type row))
       ∧ Sql.course_id row ∈ Sql.courses db
       ∧ (∀ f, Sql.folder_id row = Some f → f ∈ Sql.folders db))
  ∧ ((∀ c body, r.1 ≠ Sent c body) → r.2 = db).
Proof.
  intros Hb. cbv zeta.
  assert (Sql.materials db !! (Sql.lastID db + 1)%Z = None) as Hfresh.
  { destruct (Sql.materials db !! (Sql.lastID db + 1)%Z) as [row|] eqn:Hrow;
      [|done]. apply Hb in Hrow. lia. }
  destruct (Sql.createMaterial u b file db) as [reply db'] eqn:Hr. simpl.
  assert (db' = db ∧ (∀ c body, reply ≠ Sent c body)
          ∨ ∃ row, Sql.insert_material row db
                   = Some ((Sql.lastID db + 1)%Z, db')
                 ∧ reply = Sent 201 ((Sql.lastID db + 1)%Z, row)
                 ∧ Sql.owner_id row = Sql.id u
                 ∧ Sql.role u ≠ student) as [[-> Hno]|(row & Hins & -> & Ho & Hrole)].
  { unfold Sql.createMaterial in Hr.
    destruct (decide (Sql.role u = student)); [left; by simplify_eq|].
    destruct (nonempty _); [|left; by simplify_eq].
    destruct (Sql.Body.course_id b); [|left; by simplify_eq].
    destruct (Sql.Body.type b) as [type|]; [|left; by simplify_eq].
    destruct (bool_decide _); [|left; by simplify_eq].
    destruct (decide (type = "link")).
    - destruct (Sql.insert_material _ db) as [[i d]|] eqn:Hins;
        [|left; by simplify_eq].
      pose proof (sql_insert_material_spec _ _ _ _ Hins) as [-> _].
      right. simplify_eq. eexists. by split_and!.
    - destruct file as [f|]; [|left; by simplify_eq].
      destruct (Sql.insert_material _ db) as [[i d]|] eqn:Hins;
        [|left; by simplify_eq].
      pose proof (sql_insert_material_spec _ _ _ _ Hins) as [-> _].
      right. simplify_eq. eexists. by split_and!. }
  - split_and!; try done. intros c i row Hs. by destruct (Hno c (i, row)).
  - apply sql_insert_material_spec in Hins as (_ & -> & ? & ? & ? & ?). simpl.
    split_and!; try done.
    + unfold sql_ids_bounded. simpl. apply map_Forall_insert_2; [lia|].
      intros k r Hk. apply Hb in Hk. simpl in Hk. lia.
    + intros k r Hk. rewrite lookup_insert_ne; [done|]. congruence.
    + intros c i r [= <- <- <-]. by split_and!.
    + intros Hno. by destruct (Hno 201 ((Sql.lastID db + 1)%Z, row)).
Qed.

Lemma sql_createMaterial_appends_witness :
  let r := Sql.createMaterial sqlTeacher (sqlLinkBody None) None sqlDb in
  sql_ids_bounded r.2
  ∧ (∀ k row, Sql.materials sqlDb !! k = Some row →
              Sql.materials r.2 !! k = Some row)
  ∧ Sql.courses r.2 = Sql.courses sqlDb
  ∧ Sql.folders r.2 = Sql.folders sqlDb
  ∧ Sql.users r.2 = Sql.users sqlDb
  ∧ (∀ c i row, r.1 = Sent c (i, row) →
       c = 201 ∧ i = (Sql.lastID sqlDb + 1)%Z ∧ Sql.lastID r.2 = i
       ∧ Sql.materials sqlDb !! i = None
       ∧ Sql.materials r.2 = <[i := row]> (Sql.materials sqlDb)
       ∧ Sql.owner_id row = Sql.id sqlTeacher
       ∧ Sql.role sqlTeacher ≠ student
       ∧ is_Some (parse_type (Sql.type row))
       ∧ Sql.course_id row ∈ Sql.courses sqlDb
       ∧ (∀ f, Sql.folder_id row = Some f → f ∈ Sql.folders sqlDb))
  ∧ ((∀ c body, r.1 ≠ Sent c body) → r.2 = sqlDb).
Proof.
  apply (sql_createMaterial_appends sqlTeacher (sqlLinkBody None) None sqlDb).
  apply (bool_decide_unpack (sql_ids_bounded sqlDb)). vm_compute. exact I.
Defined.

(** ** Deleting a folder *)

Lemma deleteFolder_gone uf fuel id st st' tr :
  deleteFolder uf fuel id st = Some (st', tr) → folders st' !! id = None.
Proof.
  destruct fuel as [|fuel]; [done|]. simpl. intros H.
  destruct (forEach _ _ _) as [[st1 tr1]|]; [|done]. simpl in H.
  destruct (unlinkAll _ _ _) as [d tr2]. simplify_eq. simpl.
  apply lookup_delete_eq.
Qed.

(** X20.  [DELETE /api/folders/:id] answers 404 and deletes nothing, no
    folder, no material and no file, when the id names no folder or a
    folder of somebody else; and once a request for an id has returned,
    with whatever answer, the same request again is answered 404 and
    changes nothing. *)
Theorem deleteFolderRoute_refuses unlinkFails fuel u id st :
  (folders st !! id = None
   ∨ (∃ folder, folders st !! id = Some folder
                ∧ Folder.owner folder ≠ User._id u) →
   deleteFolderRoute unlinkFails fuel u id st
   = Some (Message 404 "Folder not found", st, []))
  ∧ (∀ reply st' tr,
       deleteFolderRoute unlinkFails fuel u id st = Some (reply, st', tr) →
       ∀ unlinkFails' fuel',
         deleteFolderRoute unlinkFails' fuel' u id st'
         = Some (Message 404 "Folder not found", st', [])).
Proof.
  split.
  - unfold deleteFolderRoute. intros [->|(folder & -> & Hown)]; [done|].
    by rewrite decide_False.
  - intros reply st' tr Hr uf' fuel'. unfold deleteFolderRoute in *.
    destruct (folders st !! id) as [folder|] eqn:Hf.
    + destruct (decide (Folder.owner folder = User._id u)) as [Hown|Hown].
      * destruct (deleteFolder _ _ _ _) as [[st1 tr1]|] eqn:Hdel; [|done].
        simplify_eq/=. by rewrite (deleteFolder_gone _ _ _ _ _ _ Hdel).
      * simplify_eq. by rewrite Hf, decide_False.
    + simplify_eq. by rewrite Hf.
Qed.

(** ** Attendance *)

Lemma filter_attendee_once (l : list ZoomSession.Attendee) uid :
  NoDup (ZoomSession.student <$> l) → uid ∈ ZoomSession.student <$> l →
  length (filter (λ a, ZoomSession.student a = uid) l) = 1.
Proof.
  induction l as [|a l IH]; intros Hnd Hin; [by apply elem_of_nil in Hin|].
  rewrite fmap_cons in Hnd, Hin. apply NoDup_cons in Hnd as [Ha Hnd].
  destruct (decide (ZoomSession.student a = uid)) as [<-|Hne].
  - rewrite filter_cons_True by done. simpl. f_equal.
    apply length_zero_iff_nil. clear -Ha. induction l as [|b l IH]; [done|].
    rewrite fmap_cons in Ha. apply not_elem_of_cons in Ha as [Hb Ha].
    rewrite filter_cons_False by done. by apply IH.
  - rewrite filter_cons_False by done. apply IH; [done|].
    apply elem_of_cons in Hin as [?|?]; [congruence|done].
Qed.

(** X21.  When the attendance list of a session names no user twice, a
    user whose join request is answered 200 is on the list that the
    session's teacher reads afterwards, exactly once, whether the user
    had joined before or not, and the list still names no user twice;
    the teacher of another session is answered 404. *)
Theorem joined_user_is_listed_once now u t id session st :
  sessions st !! id = Some session →
  NoDup (ZoomSession.student <$> ZoomSession.attendees session) →
  let r := joinSession now u id st in
  (∀ info, r.1 = Sent 200 info →
     ZoomSession.teacher session = User._id t →
     ∃ l, getAttendees t id r.2 = Sent 200 l
          ∧ length (filter (λ a, ZoomSession.student a = User._id u) l) = 1
          ∧ NoDup (ZoomSession.student <$> l))
  ∧ (ZoomSession.teacher session ≠ User._id t →
     getAttendees t id r.2 = Message 404 "Session not found").
Proof.
  intros Hs Hnd. cbv zeta. unfold getAttendees.
  destruct (joinSession_sessions now u id st)
    as [Heq|(old & Hold & Heq & Hnot)]; rewrite Heq.
  - rewrite Hs. split; [|intros ?; by rewrite decide_False].
    intros info Hr Ht. rewrite decide_True by done. eexists.
    split; [done|]. split; [|done].
    apply filter_attendee_once; [done|].
    unfold joinSession in Hr, Heq. rewrite Hs in Hr, Heq.
    destruct (_ && _); [done|].
    destruct (list_find _ _) as [[k a]|] eqn:Hfind.
    + apply list_find_Some in Hfind as (Hk & <- & _).
      apply list_elem_of_fmap. exists a. split; [done|].
      by eapply list_elem_of_lookup_2.
    + case_decide; [done|]. simpl in Heq.
      assert (<[id := set_attendees
                 (ZoomSession.attendees session
                  ++ [{| ZoomSession.student := User._id u;
                         ZoomSession.joinedAt := now |}]) session]>
                (sessions st) !! id = Some session) as Hl
        by (by rewrite Heq).
      rewrite lookup_insert_eq in Hl. injection Hl as Hl.
      apply (f_equal ZoomSession.attendees) in Hl. simpl in Hl.
      apply (f_equal length) in Hl. rewrite length_app in Hl. simpl in Hl. lia.
  - simplify_eq. rewrite lookup_insert_eq. simpl.
    split; [|intros ?; by rewrite decide_False].
    intros info _ Ht. rewrite decide_True by done. eexists. split; [done|].
    assert (NoDup (ZoomSession.student <$>
                     ZoomSession.attendees session
                     ++ [{| ZoomSession.student := User._id u;
                            ZoomSession.joinedAt := now |}])) as Hnd'.
    { rewrite fmap_app. apply NoDup_app.
      split_and!; [done| |apply NoDup_singleton].
      intros x Hx Hin. simpl in Hin. apply list_elem_of_singleton in Hin.
      by subst. }
    split; [|done]. apply filter_attendee_once; [done|].
    rewrite fmap_app. apply elem_of_app. right. simpl. left.
Qed.

Lemma joined_user_is_listed_once_witness :
  let r := joinSession 4000 sampleStudent 30 sessionStore in
  (∀ info, r.1 = Sent 200 info →
     ZoomSession.teacher (liveSession []) = User._id drSalma →
     ∃ l, getAttendees drSalma 30 r.2 = Sent 200 l
          ∧ length (filter (λ a, ZoomSession.student a = User._id sampleStudent)
                      l) = 1
          ∧ NoDup (ZoomSession.student <$> l))
  ∧ (ZoomSession.teacher (liveSession []) ≠ User._id drSalma →
     getAttendees drSalma 30 r.2 = Message 404 "Session not found").
Proof.
  apply (joined_user_is_listed_once 4000 sampleStudent drSalma 30
           (liveSession []) sessionStore).
  - reflexivity.
  - apply NoDup_nil_2.
Defined.

(** ** Creating a session *)

(** X22.  A body that passes the validators of [POST /api/zoom/sessions]
    is answered 201 whether or not the conferencing provider accepted
    the meeting, as long as a meeting id comes out of either: the session
    is stored under the new id beside the old ones, scheduled, without
    attendees or materials, with the caller as teacher and a duration of
    15 to 480 minutes.  A body that fails a validator is answered 400,
    and nothing is stored. *)
Theorem createSession_scheduled newId provider demo u b st :
  sessions st !! newId = None →
  default demo provider ≠ "" →
  let r := createSession newId provider demo u b st in
  folders r.2 = folders st ∧ materials r.2 = materials st ∧ disk r.2 = disk st
  ∧ (∀ j s, sessions st !! j = Some s → sessions r.2 !! j = Some s)
  ∧ (session_create_errors b = [] →
     ∃ session,
       r = (Sent 201 (newId, session),
            set_sessions (<[newId := session]> (sessions st)) st)
       ∧ ZoomSession.status session = scheduled
       ∧ ZoomSession.attendees session = []
       ∧ ZoomSession.materials session = []
       ∧ ZoomSession.teacher session = User._id u
       ∧ ZoomSession.zoomMeetingId session = default demo provider
       ∧ Some (ZoomSession.duration session) = SessionBody.duration b
       ∧ (15 ≤ ZoomSession.duration session ≤ 480)%Z)
  ∧ (session_create_errors b ≠ [] →
     r = (Invalid (session_create_errors b), st)).
Proof.
  intros Hfresh Hid. cbv zeta. unfold createSession, session_create_errors.
  destruct (nonempty _) as [title|];
    [|simpl; split_and!; try done; by repeat case_match].
  destruct (_ ≫= parse_course) as [course|];
    [|simpl; split_and!; try done; by repeat case_match].
  destruct (_ ≫= parse_grade) as [grade|];
    [|simpl; split_and!; try done; by repeat case_match].
  destruct (_ ≫= parse_program) as [program|];
    [|simpl; split_and!; try done; by repeat case_match].
  destruct (SessionBody.scheduledTime b) as [time|];
    [|simpl; split_and!; try done; by repeat case_match].
  destruct (valid_duration _) as [mins|] eqn:Hmins;
    [|simpl; split_and!; try done].
  rewrite decide_False by done. simpl. split_and!; try done.
  - intros j s Hj. rewrite lookup_insert_ne; [done|]. congruence.
  - intros _. eexists. split; [done|]. simpl.
    unfold valid_duration in Hmins.
    destruct (SessionBody.duration b) as [k|]; [|done].
    case_bool_decide; by simplify_eq.
Qed.

Lemma createSession_scheduled_witness :
  let r := createSession 30 None "demo_3000" drSalma sessionBody (empty_store ∅) in
  folders r.2 = folders (empty_store ∅) ∧ materials r.2 = materials (empty_store ∅)
  ∧ disk r.2 = disk (empty_store ∅)
  ∧ (∀ j s, sessions (empty_store ∅) !! j = Some s → sessions r.2 !! j = Some s)
  ∧ (session_create_errors sessionBody = [] →
     ∃ session,
       r = (Sent 201 (30, session),
            set_sessions (<[30 := session]> (sessions (empty_store ∅))) (empty_store ∅))
       ∧ ZoomSession.status session = scheduled
       ∧ ZoomSession.attendees session = []
       ∧ ZoomSession.materials session = []
       ∧ ZoomSession.teacher session = User._id drSalma
       ∧ ZoomSession.zoomMeetingId session = default "demo_3000" None
       ∧ Some (ZoomSession.duration session) = SessionBody.duration sessionBody
       ∧ (15 ≤ ZoomSession.duration session ≤ 480)%Z)
  ∧ (session_create_errors sessionBody ≠ [] →
     r = (Invalid (session_create_errors sessionBody), (empty_store ∅))).
Proof.
  apply (createSession_scheduled 30 None "demo_3000" drSalma sessionBody (empty_store ∅)).
  - reflexivity.
  - apply (bool_decide_unpack _). vm_compute. exact I.
Defined.

(** ** Updating a folder *)

Lemma updateFolder_cases u id b st :
  (∃ old saved,
      folders st !! id = Some old
      ∧ updateFolder u id b st
        = (Sent 200 (id, saved), set_folders (<[id := saved]> (folders st)) st)
      ∧ Folder.owner saved = Folder.owner old
      ∧ Folder.parentFolder saved = Folder.parentFolder old
      ∧ Folder.course saved = Folder.course old
      ∧ Folder.grade saved = Folder.grade old
      ∧ Folder.program saved = Folder.program old
      ∧ Folder.sharedWith saved = Folder.sharedWith old)
  ∨ ((updateFolder u id b st).2 = st
     ∧ ∀ c body, (updateFolder u id b st).1 ≠ Sent c body).
Proof.
  unfold updateFolder.
  destruct (decide (_ = Some "")); [by right|].
  destruct (folders st !! id) as [old|] eqn:Hold; [|by right].
  destruct (decide (Folder.owner old = User._id u)) as [Hown|]; [|by right].
  destruct (match _ with Some n0 => findOne _ _ | None => None end);
    [by right|].
  unfold Folder.save. destruct (Folder.validate _); [|by right].
  destruct (Folder.preSave _ _) as [saved|] eqn:Hpre; [|by right].
  left. exists old, saved. split; [done|]. split; [done|].
  by apply preSave_set_path in Hpre as [p ->].
Qed.

(** X23.  Whatever the request, [PUT /api/folders/:id] leaves the folder
    with the owner, the parent, the course, the grade, the program and
    the share list it had, changes no other folder, no material and no
    session, and changes nothing at all unless it answers 200.  A new
    name that another folder of the caller already carries under the
    same parent is answered 400; anyone but the owner is answered 404 or
    400. *)
Theorem updateFolder_frame u id b folder st :
  folders st !! id = Some folder →
  let r := updateFolder u id b st in
  materials r.2 = materials st ∧ sessions r.2 = sessions st ∧ disk r.2 = disk st
  ∧ (∀ j, j ≠ id → folders r.2 !! j = folders st !! j)
  ∧ ((∀ c body, r.1 ≠ Sent c body) → r.2 = st)
  ∧ (Folder.owner folder ≠ User._id u →
       r.2 = st ∧ ∀ c body, r.1 ≠ Sent c body)
  ∧ (∀ n j sibling,
       trim <$> FolderPatch.name b = Some n → n ≠ "" →
       Folder.owner folder = User._id u → n ≠ Folder.name folder →
       j ≠ id → folders st !! j = Some sibling →
       Folder.name sibling = n →
       Folder.parentFolder sibling = Folder.parentFolder folder →
       Folder.owner sibling = User._id u →
       r = (Message 400 "Folder with this name already exists in this location",
            st))
  ∧ ∃ folder',
      folders r.2 !! id = Some folder'
      ∧ Folder.owner folder' = Folder.owner folder
      ∧ Folder.parentFolder folder' = Folder.parentFolder folder
      ∧ Folder.course folder' = Folder.course folder
      ∧ Folder.grade folder' = Folder.grade folder
      ∧ Folder.program folder' = Folder.program folder
      ∧ Folder.sharedWith folder' = Folder.sharedWith folder.
Proof.
  intros Hf. cbv zeta.
  assert (∃ folder', folders st !! id = Some folder'
      ∧ Folder.owner folder' = Folder.owner folder
      ∧ Folder.parentFolder folder' = Folder.parentFolder folder
      ∧ Folder.course folder' = Folder.course folder
      ∧ Folder.grade folder' = Folder.grade folder
      ∧ Folder.program folder' = Folder.program folder
      ∧ Folder.sharedWith folder' = Folder.sharedWith folder) as Hsame
    by (by exists folder).
  split_and!.
  - apply updateFolder_materials.
  - destruct (updateFolder_cases u id b st)
      as [(old & saved & _ & -> & _)|[-> _]]; done.
  - destruct (updateFolder_cases u id b st)
      as [(old & saved & _ & -> & _)|[-> _]]; done.
  - intros j Hj. destruct (updateFolder_cases u id b st)
      as [(old & saved & _ & -> & _)|[-> _]]; [|done].
    simpl. by rewrite lookup_insert_ne.
  - intros Hno. destruct (updateFolder_cases u id b st)
      as [(old & saved & _ & Heq & _)|[-> _]]; [|done].
    rewrite Heq in Hno. by destruct (Hno 200 (id, saved)).
  - intros Hown. unfold updateFolder. rewrite Hf.
    case_decide; [done|]. by rewrite decide_False.
  - intros n j sibling Hn Hne Hown Hnew Hj Hs Hsn Hsp Hso.
    unfold updateFolder. rewrite Hn, Hf.
    rewrite decide_False by congruence. rewrite decide_True by done.
    rewrite decide_False by done.
    destruct (findOne _ (folders st)) as [|] eqn:Hfind; [done|].
    eapply findOne_absent in Hfind; [|exact Hs].
    apply bool_decide_eq_false in Hfind. by destruct Hfind.
  - destruct (updateFolder_cases u id b st)
      as [(old & saved & Hold & -> & ?)|[-> _]]; [|done].
    simpl. exists saved. rewrite lookup_insert_eq. by simplify_eq.
Qed.

Lemma updateFolder_frame_witness :
  let r := updateFolder drSalma 10 renameBody sampleStore in
  materials r.2 = materials sampleStore ∧ sessions r.2 = sessions sampleStore
  ∧ disk r.2 = disk sampleStore
  ∧ (∀ j, j ≠ 10 → folders r.2 !! j = folders sampleStore !! j)
  ∧ ((∀ c body, r.1 ≠ Sent c body) → r.2 = sampleStore)
  ∧ (Folder.owner (sampleFolder "Lecture Materials" None "Lecture Materials")
       ≠ User._id drSalma →
       r.2 = sampleStore ∧ ∀ c body, r.1 ≠ Sent c body)
  ∧ (∀ n j sibling,
       trim <$> FolderPatch.name renameBody = Some n → n ≠ "" →
       Folder.owner (sampleFolder "Lecture Materials" None "Lecture Materials")
         = User._id drSalma →
       n ≠ Folder.name
             (sampleFolder "Lecture Materials" None "Lecture Materials") →
       j ≠ 10 → folders sampleStore !! j = Some sibling →
       Folder.name sibling = n →
       Folder.parentFolder sibling
         = Folder.parentFolder
             (sampleFolder "Lecture Materials" None "Lecture Materials") →
       Folder.owner sibling = User._id drSalma →
       r = (Message 400 "Folder with this name already exists in this location",
            sampleStore))
  ∧ ∃ folder',
      folders r.2 !! 10 = Some folder'
      ∧ Folder.owner folder'
        = Folder.owner (sampleFolder "Lecture Materials" None "Lecture Materials")
      ∧ Folder.parentFolder folder'
        = Folder.parentFolder
            (sampleFolder "Lecture Materials" None "Lecture Materials")
      ∧ Folder.course folder'
        = Folder.course (sampleFolder "Lecture Materials" None "Lecture Materials")
      ∧ Folder.grade folder'
        = Folder.grade (sampleFolder "Lecture Materials" None "Lecture Materials")
      ∧ Folder.program folder'
        = Folder.program
            (sampleFolder "Lecture Materials" None "Lecture Materials")
      ∧ Folder.sharedWith folder'
        = Folder.sharedWith
            (sampleFolder "Lecture Materials" None "Lecture Materials").
Proof.
  apply (updateFolder_frame drSalma 10 renameBody
           (sampleFolder "Lecture Materials" None "Lecture Materials")
           sampleStore).
  reflexivity.
Defined.

(** ** Listing and reading *)


